(** * Connect-four server: board engine, session manager, bot policy and
      matchmaking queue, embedded from the Go sources

    Packages of the repository become modules of the same name:
    - [game]        : backend/game (board engine and session [Manager]);
    - [bot]         : the automated opponent's move selection;
    - [matchmaking] : the waiting queue and its fallback timer.

    Conventions of the embedding.
    - Go [int] is [Z]; every integer the code computes stays far below
      2^63 (indices in -1..7, scores below 2 * 10^6), so no wrap-around
      is involved.
    - A Go run-time panic (index out of range) is the result [Panic]; a
      [for] loop whose bound is not syntactic runs on a budget of
      iterations and yields [Diverge] when the budget is spent.
    - [interface{}] board cells are [option string]: [None] is [nil].
    - [*websocket.Conn] is [option nat]: [None] is the nil pointer, and
      [Some n] the identity of connection number [n].
    - [time.Time] is [Z] (nanoseconds); [time.Now()] is read from an
      explicit clock argument.
    - Calls to the database, the analytics service and the sockets do
      not touch the state modelled here and are left out. *)

From Stdlib Require Import ZArith Lia Bool Ascii.
From stdpp Require Import gmap strings list fin_maps sorting pretty.

Open Scope Z_scope.

(** ** Results of running Go code *)

Inductive res (A : Type) : Type :=
  | Ok (a : A)
  | Panic
  | Diverge.
Arguments Ok {A} a.
Arguments Panic {A}.
Arguments Diverge {A}.

#[global] Instance res_ret : MRet res := @Ok.
#[global] Instance res_bind : MBind res := λ A B f m,
  match m with
  | Ok a => f a
  | Panic => Panic
  | Diverge => Diverge
  end.
#[global] Instance res_fmap : FMap res := λ A B f m,
  match m with
  | Ok a => Ok (f a)
  | Panic => Panic
  | Diverge => Diverge
  end.

(** [l[i]] on a slice: panics outside [0 .. len(l)-1]. *)
Definition index {A : Type} (l : list A) (i : Z) : res A :=
  if decide (0 ≤ i) then
    match l !! Z.to_nat i with
    | Some x => Ok x
    | None => Panic
    end
  else Panic.

(** A counted loop [for _, i := range idx { s = body(i, s) }]. *)
Fixpoint forEach {S : Type} (idx : list Z) (body : Z → S → res S) (s : S) : res S :=
  match idx with
  | [] => Ok s
  | i :: rest => s' ← body i s; forEach rest body s'
  end.

(** ** Package game: the board engine *)

Module game.

(** A cell is [nil] or the identifier of the side that owns it; a board
    is a slice of rows. *)
Abbreviation Cell := (option string) (only parsing).
Abbreviation Board := (list (list (option string))) (only parsing).

Definition ROWS : Z := 6.
Definition COLS : Z := 7.
Definition WIN_LENGTH : Z := 4.

Record MoveResult : Type := mkMoveResult {
  MoveResult_Success : bool;
  MoveResult_Message : string;
  MoveResult_Row : Z
}.

Record WinResult : Type := mkWinResult {
  WinResult_Won : bool;
  WinResult_Direction : string
}.

Definition CreateBoard : Board :=
  replicate (Z.to_nat ROWS) (replicate (Z.to_nat COLS) None).

(** [board[row][col]] *)
Definition cellAt (board : Board) (row col : Z) : res Cell :=
  r ← index board row; index r col.

(** [board[row][col] = v], in place *)
Definition setCell (board : Board) (row col : Z) (v : Cell) : res Board :=
  r ← index board row;
  _ ← index r col;
  Ok (<[Z.to_nat row := <[Z.to_nat col := v]> r]> board).

(** [row >= 0 && row < ROWS && col >= 0 && col < COLS] *)
Definition inBounds (row col : Z) : bool :=
  (0 <=? row) && (row <? ROWS) && (0 <=? col) && (col <? COLS).

(** The loop of [MakeMove]: [n] rows are left to visit and the next one
    is row [n - 1]. *)
Fixpoint dropLoop (n : nat) (board : Board) (column : Z) (playerID : Cell)
    : res (Board * MoveResult) :=
  match n with
  | O => Ok (board, mkMoveResult false "Column is full" 0)
  | S k =>
      let row := Z.of_nat k in
      c ← cellAt board row column;
      match c with
      | None =>
          board' ← setCell board row column playerID;
          Ok (board', mkMoveResult true "" row)
      | Some _ => dropLoop k board column playerID
      end
  end.

Definition MakeMove (board : Board) (column : Z) (playerID : Cell)
    : res (Board * MoveResult) :=
  if (column <? 0) || (column >=? COLS) then
    Ok (board, mkMoveResult false "Invalid column" 0)
  else dropLoop (Z.to_nat ROWS) board column playerID.

(** One of the two [for] loops of [checkDirection]; [fuel] bounds the
    number of iterations. *)
Fixpoint scan (fuel : nat) (board : Board) (row col deltaRow deltaCol : Z)
    (playerID : Cell) (count : Z) : res Z :=
  match fuel with
  | O => Diverge
  | S fuel' =>
      if inBounds row col then
        c ← cellAt board row col;
        if decide (c = playerID) then
          scan fuel' board (row + deltaRow) (col + deltaCol) deltaRow deltaCol
               playerID (count + 1)
        else Ok count
      else Ok count
  end.

Definition checkDirection (fuel : nat) (board : Board)
    (startRow startCol deltaRow deltaCol : Z) (playerID : Cell) : res bool :=
  count ← scan fuel board (startRow + deltaRow) (startCol + deltaCol)
               deltaRow deltaCol playerID 1;
  count ← scan fuel board (startRow - deltaRow) (startCol - deltaCol)
               (- deltaRow) (- deltaCol) playerID count;
  Ok (WIN_LENGTH <=? count).

Definition CheckWin (fuel : nat) (board : Board) (row col : Z) : res WinResult :=
  playerID ← cellAt board row col;
  match playerID with
  | None => Ok (mkWinResult false "")
  | Some _ =>
      h ← checkDirection fuel board row col 0 1 playerID;
      if (h : bool) then Ok (mkWinResult true "horizontal") else
      v ← checkDirection fuel board row col 1 0 playerID;
      if (v : bool) then Ok (mkWinResult true "vertical") else
      d ← checkDirection fuel board row col 1 1 playerID;
      if (d : bool) then Ok (mkWinResult true "diagonal") else
      a ← checkDirection fuel board row col 1 (-1) playerID;
      if (a : bool) then Ok (mkWinResult true "diagonal") else
      Ok (mkWinResult false "")
  end.

Fixpoint IsBoardFull_loop (cols : list Z) (board : Board) : res bool :=
  match cols with
  | [] => Ok true
  | col :: rest =>
      c ← cellAt board 0 col;
      if decide (c = None) then Ok false else IsBoardFull_loop rest board
  end.

Definition IsBoardFull (board : Board) : res bool :=
  IsBoardFull_loop (seqZ 0 COLS) board.

Definition GetValidMoves (board : Board) : res (list Z) :=
  forEach (seqZ 0 COLS)
    (λ col validMoves,
       c ← cellAt board 0 col;
       if decide (c = None) then Ok (validMoves ++ [col]) else Ok validMoves)
    [].

(** The scoring table at the end of [evaluateLine]. *)
Definition lineScore (playerCount opponentCount emptyCount : Z) : Z :=
  if (0 <? opponentCount) && (0 <? playerCount) then 0
  else if playerCount =? WIN_LENGTH then 10000
  else if opponentCount =? WIN_LENGTH then -10000
  else if (opponentCount =? WIN_LENGTH - 1) && (emptyCount =? 1) then -1000
  else if (playerCount =? WIN_LENGTH - 1) && (emptyCount =? 1) then 1000
  else if (playerCount =? WIN_LENGTH - 2) && (emptyCount =? 2) then 100
  else if (opponentCount =? WIN_LENGTH - 2) && (emptyCount =? 2) then -100
  else playerCount * 10 - opponentCount * 10.

(** The loop of [evaluateLine] with [n] iterations left, the next one at
    index [i]; it runs into the scoring table when it is done. *)
Fixpoint evaluateLine_loop (n : nat) (i : Z) (board : Board)
    (startRow startCol deltaRow deltaCol : Z) (playerID opponentID : Cell)
    (playerCount opponentCount emptyCount : Z) : res Z :=
  match n with
  | O => Ok (lineScore playerCount opponentCount emptyCount)
  | S k =>
      let row := startRow + i * deltaRow in
      let col := startCol + i * deltaCol in
      if (row <? 0) || (row >=? ROWS) || (col <? 0) || (col >=? COLS) then Ok 0
      else
        cell ← cellAt board row col;
        if decide (cell = playerID) then
          evaluateLine_loop k (i + 1) board startRow startCol deltaRow deltaCol
            playerID opponentID (playerCount + 1) opponentCount emptyCount
        else if decide (cell = opponentID) then
          evaluateLine_loop k (i + 1) board startRow startCol deltaRow deltaCol
            playerID opponentID playerCount (opponentCount + 1) emptyCount
        else
          evaluateLine_loop k (i + 1) board startRow startCol deltaRow deltaCol
            playerID opponentID playerCount opponentCount (emptyCount + 1)
  end.

Definition evaluateLine (board : Board) (startRow startCol deltaRow deltaCol : Z)
    (playerID opponentID : Cell) : res Z :=
  evaluateLine_loop (Z.to_nat WIN_LENGTH) 0 board startRow startCol
    deltaRow deltaCol playerID opponentID 0 0 0.

(** The body of the inner loop of [EvaluatePosition]. *)
Definition EvaluatePosition_cell (board : Board) (playerID opponentID : Cell)
    (row col score : Z) : res Z :=
  h ← evaluateLine board row col 0 1 playerID opponentID;
  let score := score + h in
  v ← evaluateLine board row col 1 0 playerID opponentID;
  let score := score + v in
  d ← evaluateLine board row col 1 1 playerID opponentID;
  let score := score + d in
  a ← evaluateLine board row col 1 (-1) playerID opponentID;
  Ok (score + a).

Definition EvaluatePosition (board : Board) (playerID opponentID : Cell) : res Z :=
  forEach (seqZ 0 ROWS)
    (λ row score,
       forEach (seqZ 0 COLS)
         (EvaluatePosition_cell board playerID opponentID row) score)
    0.

(** ** Package game: sessions and their manager *)

Abbreviation Conn := (option nat) (only parsing).

Record Player : Type := mkPlayer {
  Player_ID : string;
  Player_Username : string;
  Player_Conn : Conn;
  Player_IsBot : bool
}.

Record Move : Type := mkMove {
  Move_Player : string;
  Move_Column : Z;
  Move_Row : Z;
  Move_Timestamp : Z
}.

Record Game : Type := mkGame {
  Game_ID : string;
  Game_Player1 : Player;
  Game_Player2 : Player;
  Game_Board : Board;
  Game_CurrentPlayer : string;
  Game_Status : string;
  Game_Winner : string;
  Game_Moves : list Move;
  Game_StartedAt : Z;
  Game_EndedAt : option Z;
  Game_LastMoveAt : Z
}.

Record ReconnectWindow : Type := mkReconnectWindow {
  ReconnectWindow_PlayerID : string;
  ReconnectWindow_ExpiresAt : Z
}.

(** The fields [db] and [analyticsService] are handles on external
    services and carry no state of the model. *)
Record Manager : Type := mkManager {
  games : gmap string Game;
  reconnectWindows : gmap string ReconnectWindow
}.

Record GameMoveResult : Type := mkGameMoveResult {
  GameMoveResult_Success : bool;
  GameMoveResult_Message : string;
  GameMoveResult_Game : option Game
}.

Record RejoinResult : Type := mkRejoinResult {
  RejoinResult_Success : bool;
  RejoinResult_Message : string;
  RejoinResult_Game : option Game
}.

#[global] Instance Player_eq_dec : EqDecision Player.
Proof. solve_decision. Defined.
#[global] Instance Move_eq_dec : EqDecision Move.
Proof. solve_decision. Defined.
#[global] Instance Game_eq_dec : EqDecision Game.
Proof. solve_decision. Defined.

(** Assignments to the fields of a [*Game] and of a [*Player]. *)
Definition set_Conn (p : Player) (c : Conn) : Player :=
  mkPlayer (Player_ID p) (Player_Username p) c (Player_IsBot p).

Definition set_Player1 (g : Game) (p : Player) : Game :=
  mkGame (Game_ID g) p (Game_Player2 g) (Game_Board g) (Game_CurrentPlayer g)
    (Game_Status g) (Game_Winner g) (Game_Moves g) (Game_StartedAt g)
    (Game_EndedAt g) (Game_LastMoveAt g).

Definition set_Player2 (g : Game) (p : Player) : Game :=
  mkGame (Game_ID g) (Game_Player1 g) p (Game_Board g) (Game_CurrentPlayer g)
    (Game_Status g) (Game_Winner g) (Game_Moves g) (Game_StartedAt g)
    (Game_EndedAt g) (Game_LastMoveAt g).

Definition set_Board (g : Game) (b : Board) : Game :=
  mkGame (Game_ID g) (Game_Player1 g) (Game_Player2 g) b (Game_CurrentPlayer g)
    (Game_Status g) (Game_Winner g) (Game_Moves g) (Game_StartedAt g)
    (Game_EndedAt g) (Game_LastMoveAt g).

Definition set_CurrentPlayer (g : Game) (p : string) : Game :=
  mkGame (Game_ID g) (Game_Player1 g) (Game_Player2 g) (Game_Board g) p
    (Game_Status g) (Game_Winner g) (Game_Moves g) (Game_StartedAt g)
    (Game_EndedAt g) (Game_LastMoveAt g).

Definition set_Status (g : Game) (s : string) : Game :=
  mkGame (Game_ID g) (Game_Player1 g) (Game_Player2 g) (Game_Board g)
    (Game_CurrentPlayer g) s (Game_Winner g) (Game_Moves g) (Game_StartedAt g)
    (Game_EndedAt g) (Game_LastMoveAt g).

Definition set_Winner (g : Game) (w : string) : Game :=
  mkGame (Game_ID g) (Game_Player1 g) (Game_Player2 g) (Game_Board g)
    (Game_CurrentPlayer g) (Game_Status g) w (Game_Moves g) (Game_StartedAt g)
    (Game_EndedAt g) (Game_LastMoveAt g).

Definition set_Moves (g : Game) (ms : list Move) : Game :=
  mkGame (Game_ID g) (Game_Player1 g) (Game_Player2 g) (Game_Board g)
    (Game_CurrentPlayer g) (Game_Status g) (Game_Winner g) ms (Game_StartedAt g)
    (Game_EndedAt g) (Game_LastMoveAt g).

Definition set_EndedAt (g : Game) (t : option Z) : Game :=
  mkGame (Game_ID g) (Game_Player1 g) (Game_Player2 g) (Game_Board g)
    (Game_CurrentPlayer g) (Game_Status g) (Game_Winner g) (Game_Moves g)
    (Game_StartedAt g) t (Game_LastMoveAt g).

Definition set_LastMoveAt (g : Game) (t : Z) : Game :=
  mkGame (Game_ID g) (Game_Player1 g) (Game_Player2 g) (Game_Board g)
    (Game_CurrentPlayer g) (Game_Status g) (Game_Winner g) (Game_Moves g)
    (Game_StartedAt g) (Game_EndedAt g) t.

(** The object a [*Game] of the map points to is updated in place. *)
Definition store (m : Manager) (gameID : string) (g : Game) : Manager :=
  mkManager (<[gameID := g]> (games m)) (reconnectWindows m).

Definition Second : Z := 1000000000.

Definition NewManager : Manager := mkManager ∅ ∅.

(** [gameID] is the fresh identifier drawn by [uuid.New()]; [now k] is
    the value of the [k]-th call of [time.Now()] in the operation. *)
Definition CreateGame (now : nat → Z) (gameID : string) (m : Manager)
    (player1 player2 : Player) : Manager * Game :=
  let game :=
    mkGame gameID player1 player2 CreateBoard (Player_ID player1) "active" ""
      [] (now 0%nat) None (now 1%nat) in
  (store m gameID game, game).

(** The assignments of the winning and of the drawn branch of
    [Manager.MakeMove] and [Manager.BotMakeMove]: status, winner and end
    time. *)
Definition finish (g : Game) (winner : string) (endedAt : Z) : Game :=
  set_EndedAt (set_Winner (set_Status g "finished") winner) (Some endedAt).

Definition Manager_MakeMove (fuel : nat) (now : nat → Z) (m : Manager)
    (gameID : string) (column : Z) (conn : Conn) : res (Manager * GameMoveResult) :=
  match games m !! gameID with
  | None => Ok (m, mkGameMoveResult false "Game not found" None)
  | Some game =>
      if decide (Game_Status game ≠ "active") then
        Ok (m, mkGameMoveResult false "Game is not active" None)
      else
      let player :=
        if decide (Game_CurrentPlayer game = Player_ID (Game_Player1 game))
        then Game_Player1 game else Game_Player2 game in
      if Player_IsBot player then
        Ok (m, mkGameMoveResult false "Not your turn" None)
      else if decide (Player_Conn player ≠ conn) then
        Ok (m, mkGameMoveResult false "Not your turn" None)
      else if (column <? 0) || (column >=? 7) then
        Ok (m, mkGameMoveResult false "Invalid column" None)
      else
      '(board, moveResult) ←
        MakeMove (Game_Board game) column (Some (Game_CurrentPlayer game));
      let game := set_Board game board in
      if negb (MoveResult_Success moveResult) then
        Ok (store m gameID game,
            mkGameMoveResult false (MoveResult_Message moveResult) None)
      else
      let game :=
        set_Moves game
          (Game_Moves game ++
           [mkMove (Game_CurrentPlayer game) column (MoveResult_Row moveResult)
                   (now 0%nat)]) in
      let game := set_LastMoveAt game (now 1%nat) in
      winResult ← CheckWin fuel (Game_Board game) (MoveResult_Row moveResult) column;
      game ←
        (if WinResult_Won winResult then
           Ok (finish game (Game_CurrentPlayer game) (now 2%nat))
         else
           full ← IsBoardFull (Game_Board game);
           if (full : bool) then Ok (finish game "draw" (now 2%nat))
           else if decide (Game_CurrentPlayer game = Player_ID (Game_Player1 game)) then
             if Player_IsBot (Game_Player2 game) then
               Ok (set_CurrentPlayer game "bot")
             else Ok (set_CurrentPlayer game (Player_ID (Game_Player2 game)))
           else Ok (set_CurrentPlayer game (Player_ID (Game_Player1 game))));
      Ok (store m gameID game, mkGameMoveResult true "" (Some game))
  end.

Definition BotMakeMove (fuel : nat) (now : nat → Z) (m : Manager)
    (gameID : string) (column : Z) : res (Manager * GameMoveResult) :=
  match games m !! gameID with
  | None => Ok (m, mkGameMoveResult false "" None)
  | Some game =>
      if decide (Game_Status game ≠ "active") then
        Ok (m, mkGameMoveResult false "" None)
      else if decide (Game_CurrentPlayer game ≠ "bot") then
        Ok (m, mkGameMoveResult false "" None)
      else
      '(board, moveResult) ← MakeMove (Game_Board game) column (Some "bot");
      let game := set_Board game board in
      if negb (MoveResult_Success moveResult) then
        Ok (store m gameID game, mkGameMoveResult false "" None)
      else
      let game :=
        set_Moves game
          (Game_Moves game ++
           [mkMove "bot" column (MoveResult_Row moveResult) (now 0%nat)]) in
      let game := set_LastMoveAt game (now 1%nat) in
      winResult ← CheckWin fuel (Game_Board game) (MoveResult_Row moveResult) column;
      game ←
        (if WinResult_Won winResult then Ok (finish game "bot" (now 2%nat))
         else
           full ← IsBoardFull (Game_Board game);
           if (full : bool) then Ok (finish game "draw" (now 2%nat))
           else Ok (set_CurrentPlayer game (Player_ID (Game_Player1 game))));
      Ok (store m gameID game, mkGameMoveResult true "" (Some game))
  end.

(** Returns the forfeited game, or [None] for Go's [nil].  The calls of
    [SaveGame], [UpdateLeaderboard], [TrackGameEnd] and [notifyCallback]
    before the two [delete]s act on the collaborators only. *)
Definition ForfeitGame (now : nat → Z) (m : Manager)
    (gameID forfeitingPlayerID : string) : Manager * option Game :=
  match games m !! gameID with
  | None => (m, None)
  | Some game =>
      if decide (Game_Status game ≠ "active") then (m, None)
      else
      let game := set_Status game "finished" in
      let game := set_EndedAt game (Some (now 0%nat)) in
      let game :=
        if decide (Player_ID (Game_Player1 game) = forfeitingPlayerID) then
          if Player_IsBot (Game_Player2 game) then set_Winner game "bot"
          else set_Winner game (Player_ID (Game_Player2 game))
        else set_Winner game (Player_ID (Game_Player1 game)) in
      (mkManager (delete gameID (games m)) (delete gameID (reconnectWindows m)),
       Some game)
  end.

Definition RejoinGame (now : nat → Z) (m : Manager) (conn : Conn)
    (username gameID : string) : Manager * RejoinResult :=
  match games m !! gameID with
  | None => (m, mkRejoinResult false "Game not found" None)
  | Some game =>
      match reconnectWindows m !! gameID with
      | None => (m, mkRejoinResult false "Reconnection window expired" None)
      | Some reconnectInfo =>
          if decide (ReconnectWindow_ExpiresAt reconnectInfo < now 0%nat) then
            let m := mkManager (games m) (delete gameID (reconnectWindows m)) in
            let '(m, _) :=
              ForfeitGame (λ k, now (S k)) m gameID
                (ReconnectWindow_PlayerID reconnectInfo) in
            (m, mkRejoinResult false "Reconnection window expired" None)
          else if decide (Player_Username (Game_Player1 game) = username) then
            let game := set_Player1 game (set_Conn (Game_Player1 game) conn) in
            (mkManager (<[gameID := game]> (games m))
                       (delete gameID (reconnectWindows m)),
             mkRejoinResult true "" (Some game))
          else if decide (Player_Username (Game_Player2 game) = username) then
            let game := set_Player2 game (set_Conn (Game_Player2 game) conn) in
            (mkManager (<[gameID := game]> (games m))
                       (delete gameID (reconnectWindows m)),
             mkRejoinResult true "" (Some game))
          else
            (m, mkRejoinResult false "Username does not match this game" None)
      end
  end.

(** The player [HandleDisconnect] finds behind [conn] in one game. *)
Definition disconnectedPlayer (conn : Conn) (game : Game) : option Player :=
  if decide (Game_Status game ≠ "active") then None
  else if decide (Player_Conn (Game_Player1 game) = conn) then
    Some (Game_Player1 game)
  else if decide (Player_Conn (Game_Player2 game) = conn) then
    if Player_IsBot (Game_Player2 game) then None else Some (Game_Player2 game)
  else None.

(** [now gameID] is the clock when the loop visits [gameID].  The result
    lists the forfeit timers armed by [time.AfterFunc], each with the
    pair [(forfeitGameID, forfeitPlayerID)] its closure captures. *)
Definition HandleDisconnect (now : string → Z) (m : Manager) (conn : Conn)
    : Manager * list (string * string) :=
  let opened : gmap string ReconnectWindow :=
    map_imap
      (λ gameID game,
         p ← disconnectedPlayer conn game;
         Some (mkReconnectWindow (Player_ID p) (now gameID + 30 * Second)))
      (games m) in
  (mkManager (games m) (opened ∪ reconnectWindows m),
   (λ kw, (kw.1, ReconnectWindow_PlayerID kw.2)) <$> map_to_list opened).

(** The closure [HandleDisconnect] hands to [time.AfterFunc]. *)
Definition forfeitTimer (now : nat → Z) (m : Manager)
    (forfeitGameID forfeitPlayerID : string) : Manager * option Game :=
  match reconnectWindows m !! forfeitGameID with
  | Some _ => ForfeitGame now m forfeitGameID forfeitPlayerID
  | None => (m, None)
  end.

Definition GetGame (m : Manager) (gameID : string) : option Game :=
  games m !! gameID.

End game.

(** ** Package bot: the automated opponent *)

Module bot.
Import game.

(** A fresh slice per row with the same cells. *)
Definition copyBoard (board : Board) : Board :=
  (λ row : list Cell, take (length row) row) <$> board.

Definition abs (x : Z) : Z := if x <? 0 then - x else x.

(** First loop of [Player.MakeMove]: the value of [blockingColumn]
    when the loop is left, [-1] when no column was found. *)
Fixpoint findBlocking (fuel : nat) (board : Board) (opponentID : Cell)
    (validMoves : list Z) : res Z :=
  match validMoves with
  | [] => Ok (-1)
  | col :: rest =>
      '(testBoard, moveResult) ← MakeMove (copyBoard board) col opponentID;
      if MoveResult_Success moveResult then
        winCheck ← CheckWin fuel testBoard (MoveResult_Row moveResult) col;
        if WinResult_Won winCheck then Ok col
        else findBlocking fuel board opponentID rest
      else findBlocking fuel board opponentID rest
  end.

(** Second loop: the column the bot wins with, if the loop returns. *)
Fixpoint findWinning (fuel : nat) (board : Board) (botID : Cell)
    (validMoves : list Z) : res (option Z) :=
  match validMoves with
  | [] => Ok None
  | col :: rest =>
      '(testBoard, moveResult) ← MakeMove (copyBoard board) col botID;
      if negb (MoveResult_Success moveResult) then
        findWinning fuel board botID rest
      else
        winCheck ← CheckWin fuel testBoard (MoveResult_Row moveResult) col;
        if WinResult_Won winCheck then Ok (Some col)
        else findWinning fuel board botID rest
  end.

(** Body of the third loop, on the pair [(bestScore, bestColumn)]. *)
Definition scoreMove (board : Board) (botID opponentID : Cell) (col : Z)
    (best : Z * Z) : res (Z * Z) :=
  '(testBoard, moveResult) ← MakeMove (copyBoard board) col botID;
  if negb (MoveResult_Success moveResult) then Ok best
  else
    score ← EvaluatePosition testBoard botID opponentID;
    let centerDistance := abs (col - 3) in
    let score := score + (3 - centerDistance) * 5 in
    if best.1 <? score then Ok (score, col) else Ok best.

(** Lines 18 to 93 of [Player.MakeMove]: the column handed to
    [executeMove], or [None] when the function returns without moving. *)
Definition chooseColumn (fuel : nat) (board : Board) (player1ID : string)
    : res (option Z) :=
  let opponentID : Cell := Some player1ID in
  let botID : Cell := Some "bot" in
  validMoves ← GetValidMoves board;
  match validMoves with
  | [] => Ok None
  | first :: _ =>
      blockingColumn ← findBlocking fuel board opponentID validMoves;
      if decide (blockingColumn ≠ -1) then Ok (Some blockingColumn)
      else
        w ← findWinning fuel board botID validMoves;
        match w with
        | Some col => Ok (Some col)
        | None =>
            best ← forEach validMoves (scoreMove board botID opponentID)
                     (-999999, first);
            Ok (Some best.2)
        end
  end.

(** The result carries the game handed to [notifyCallback], if any. *)
Definition executeMove (fuel : nat) (now : nat → Z) (m : Manager) (g : Game)
    (column : Z) : res (Manager * option Game) :=
  '(m', result) ← BotMakeMove fuel now m (Game_ID g) column;
  if GameMoveResult_Success result then Ok (m', GameMoveResult_Game result)
  else Ok (m', None).

(** [g] is the object behind the [*game.Game] the caller holds. *)
Definition Player_MakeMove (fuel : nat) (now : nat → Z) (m : Manager) (g : Game)
    : res (Manager * option Game) :=
  if decide (Game_Status g ≠ "active" ∨ Game_CurrentPlayer g ≠ "bot") then
    Ok (m, None)
  else
    column ← chooseColumn fuel (Game_Board g) (Player_ID (Game_Player1 g));
    match column with
    | None => Ok (m, None)
    | Some column => executeMove fuel now m g column
    end.

End bot.

(** ** Package matchmaking: the waiting queue *)

Module matchmaking.

Record Player : Type := mkPlayer {
  Player_ID : string;
  Player_Username : string;
  Player_Conn : option nat;
  Player_Connected : bool;
  Player_IsBot : bool
}.

Record MatchResult : Type := mkMatchResult {
  MatchResult_Matched : bool;
  MatchResult_Player1 : option Player;
  MatchResult_Player2 : option Player
}.

(** A [*time.Timer] of [botTimers]: what is known of it is the player
    its closure captures.  [Stop] is given no effect: the theorems do
    not rely on a stopped timer staying silent. *)
Record Timer : Type := mkTimer {
  Timer_player : Player
}.

Record Service : Type := mkService {
  waitingPlayers : list Player;
  botTimers : gmap string Timer
}.

#[global] Instance Player_eq_dec : EqDecision Player.
Proof. solve_decision. Defined.

Definition NewService : Service := mkService [] ∅.

Definition AddPlayer (s : Service) (player : Player) : Service * MatchResult :=
  let timers :=
    match botTimers s !! Player_ID player with
    | Some _ => delete (Player_ID player) (botTimers s)
    | None => botTimers s
    end in
  match waitingPlayers s with
  | opponent :: rest =>
      (mkService rest timers, mkMatchResult true (Some opponent) (Some player))
  | [] =>
      (mkService (waitingPlayers s ++ [player]) timers,
       mkMatchResult false None None)
  end.

Fixpoint findPlayerByID_loop (ps : list Player) (id : string) : option Player :=
  match ps with
  | [] => None
  | p :: rest =>
      if decide (Player_ID p = id) then Some p else findPlayerByID_loop rest id
  end.

Definition findPlayerByID (s : Service) (id : string) : option Player :=
  findPlayerByID_loop (waitingPlayers s) id.

Definition isPlayerWaiting (s : Service) (id : string) : bool :=
  bool_decide (findPlayerByID s id ≠ None).

Definition removeWaitingPlayer (s : Service) (id : string) : Service :=
  mkService (filter (λ p, Player_ID p ≠ id) (waitingPlayers s)) (botTimers s).

(** The test [player == nil || player.Conn == conn] of [RemovePlayer]. *)
Definition stopsTimer (s : Service) (conn : option nat) (playerID : string) : bool :=
  match findPlayerByID s playerID with
  | None => true
  | Some player => bool_decide (Player_Conn player = conn)
  end.

Definition RemovePlayer (s : Service) (conn : option nat) : Service :=
  let s := mkService (filter (λ p, Player_Conn p ≠ conn) (waitingPlayers s))
                     (botTimers s) in
  mkService (waitingPlayers s)
    (filter (λ kt : string * Timer, stopsTimer s conn kt.1 = false) (botTimers s)).

Definition ScheduleBotMatch (s : Service) (player : Player) : Service :=
  mkService (waitingPlayers s) (<[Player_ID player := mkTimer player]> (botTimers s)).

(** The closure [ScheduleBotMatch] hands to [time.AfterFunc]; the second
    component is the argument [callback] is called with, if it is. *)
Definition botTimerFire (s : Service) (player : Player) : Service * option Player :=
  if isPlayerWaiting s (Player_ID player) then
    let s := removeWaitingPlayer s (Player_ID player) in
    let s := mkService (waitingPlayers s) (delete (Player_ID player) (botTimers s)) in
    (s, Some player)
  else (s, None).

End matchmaking.

(** ** Properties the theorems are stated with *)

Import game.

(** The shape [CreateBoard] gives a board: [ROWS] rows of [COLS] cells. *)
Definition wf_board (board : Board) : Prop :=
  length board = Z.to_nat ROWS ∧
  Forall (λ r : list Cell, length r = Z.to_nat COLS) board.

Definition occupied (board : Board) (row col : Z) : Prop :=
  ∃ side : string, cellAt board row col = Ok (Some side).

(** Gravity: below an occupied cell of a column every cell is occupied
    (row [ROWS - 1] is the bottom row). *)
Definition gravity (board : Board) : Prop :=
  ∀ row col : Z, 0 ≤ row < ROWS → 0 ≤ col < COLS →
    occupied board row col →
    ∀ row' : Z, row ≤ row' < ROWS → occupied board row' col.

Definition isPiece (r : list Cell) (col : Z) : bool :=
  match index r col with
  | Ok (Some _) => true
  | _ => false
  end.

(** Number of pieces column [col] holds. *)
Definition pieces (board : Board) (col : Z) : nat :=
  length (filter (λ r, isPiece r col = true) board).

(** A sequence of calls of the board-level [MakeMove], failed ones
    included, on one board. *)
Fixpoint drops (board : Board) (ms : list (Z * Cell)) : res Board :=
  match ms with
  | [] => Ok board
  | (column, playerID) :: rest =>
      '(board', _) ← MakeMove board column playerID;
      drops board' rest
  end.

(** The cells [- lo .. hi] steps away from [(row, col)] along the axis
    [(dRow, dCol)] all lie on the board and hold a piece of [side]. *)
Definition segment (board : Board) (row col dRow dCol : Z) (side : string)
    (lo hi : Z) : Prop :=
  ∀ k : Z, - lo ≤ k ≤ hi →
    inBounds (row + k * dRow) (col + k * dCol) = true ∧
    cellAt board (row + k * dRow) (col + k * dCol) = Ok (Some side).

(** At least [WIN_LENGTH] contiguous cells of [side] through
    [(row, col)] on one axis, counted outward in both directions. *)
Definition fourOnAxis (board : Board) (row col dRow dCol : Z) (side : string)
    : Prop :=
  ∃ lo hi : Z, 0 ≤ lo ∧ 0 ≤ hi ∧ WIN_LENGTH ≤ lo + hi + 1 ∧
    segment board row col dRow dCol side lo hi.

Definition fourThrough (board : Board) (row col : Z) : Prop :=
  ∃ side : string,
    fourOnAxis board row col 0 1 side ∨ fourOnAxis board row col 1 0 side ∨
    fourOnAxis board row col 1 1 side ∨ fourOnAxis board row col 1 (-1) side.

(** The steps [checkDirection] takes: one cell at a time along a row, a
    column or a diagonal. *)
Definition unitStep (dRow dCol : Z) : Prop :=
  dCol = 1 ∨ dCol = -1 ∨ (dCol = 0 ∧ (dRow = 1 ∨ dRow = -1)).

(** Cells left before a walk from [(row, col)] leaves the board. *)
Definition reach (row col dRow dCol : Z) : Z :=
  if decide (dCol = 1) then COLS - col
  else if decide (dCol = -1) then col + 1
  else if decide (dRow = 1) then ROWS - row
  else row + 1.

(** The four cells [evaluateLine] reads from [(row, col)] along
    [(dRow, dCol)] all lie on the board. *)
Definition windowOn (row col dRow dCol : Z) : bool :=
  inBounds row col && inBounds (row + dRow) (col + dCol) &&
  inBounds (row + 2 * dRow) (col + 2 * dCol) &&
  inBounds (row + 3 * dRow) (col + 3 * dCol).

(** Least value the windows that start at [(row, col)] can add to a score. *)
Definition cellFloor (row col : Z) : Z :=
  (if windowOn row col 0 1 then -10000 else 0) +
  (if windowOn row col 1 0 then -10000 else 0) +
  (if windowOn row col 1 1 then -10000 else 0) +
  (if windowOn row col 1 (-1) then -10000 else 0).

Definition sumZ (l : list Z) : Z := foldr Z.add 0 l.

Definition boardFloor : Z :=
  sumZ ((λ row, sumZ (cellFloor row <$> seqZ 0 COLS)) <$> seqZ 0 ROWS).

(** A legal column: in range, with an empty top cell. *)
Definition legal (board : Board) (col : Z) : Prop :=
  0 ≤ col < COLS ∧ cellAt board 0 col = Ok None.

(** The simulated drop of [side] in [col] succeeds and [CheckWin]
    reports a win at the cell the piece lands in. *)
Definition winsAt (fuel : nat) (board : Board) (side : Cell) (col : Z) : Prop :=
  ∃ (board' : Board) (mr : MoveResult) (w : WinResult),
    MakeMove board col side = Ok (board', mr) ∧
    MoveResult_Success mr = true ∧
    CheckWin fuel board' (MoveResult_Row mr) col = Ok w ∧
    WinResult_Won w = true.

(** [v] is [EvaluatePosition] of the simulated drop of the bot in [col]
    plus the center bias [(3 - |col - 3|) * 5]. *)
Definition moveValue (board : Board) (botID opponentID : Cell) (col v : Z) : Prop :=
  ∃ (board' : Board) (mr : MoveResult) (s : Z),
    MakeMove board col botID = Ok (board', mr) ∧
    MoveResult_Success mr = true ∧
    EvaluatePosition board' botID opponentID = Ok s ∧
    v = s + (3 - Z.abs (col - 3)) * 5.

#[global] Instance res_eq_dec {A : Type} `{EqDecision A} : EqDecision (res A).
Proof. solve_decision. Defined.

(** Calls on the matchmaking [Service], and their runs. *)
Inductive QueueOp : Type :=
  | OpAddPlayer (player : matchmaking.Player)
  | OpRemovePlayer (conn : option nat)
  | OpScheduleBotMatch (player : matchmaking.Player)
  | OpTimerFires (player : matchmaking.Player).

Definition applyOp (s : matchmaking.Service) (op : QueueOp) : matchmaking.Service :=
  match op with
  | OpAddPlayer player => (matchmaking.AddPlayer s player).1
  | OpRemovePlayer conn => matchmaking.RemovePlayer s conn
  | OpScheduleBotMatch player => matchmaking.ScheduleBotMatch s player
  | OpTimerFires player => (matchmaking.botTimerFire s player).1
  end.

Definition runOps (s : matchmaking.Service) (ops : list QueueOp) : matchmaking.Service :=
  foldl applyOp s ops.

(** The participant [Manager.MakeMove] takes for the side to move. *)
Definition mover (g : Game) : Player :=
  if decide (Game_CurrentPlayer g = Player_ID (Game_Player1 g))
  then Game_Player1 g else Game_Player2 g.

(** The reasons for which a move request is turned down, each with its
    message. *)
Inductive MoveError (m : Manager) (gameID : string) (column : Z) (conn : Conn)
    : string → Prop :=
  | GameNotFound :
      games m !! gameID = None →
      MoveError m gameID column conn "Game not found"
  | GameNotActive (g : Game) :
      games m !! gameID = Some g → Game_Status g ≠ "active" →
      MoveError m gameID column conn "Game is not active"
  | NotYourTurn (g : Game) :
      games m !! gameID = Some g → Game_Status g = "active" →
      Player_IsBot (mover g) = true ∨ Player_Conn (mover g) ≠ conn →
      MoveError m gameID column conn "Not your turn"
  | ColumnOutOfRange (g : Game) :
      games m !! gameID = Some g → Game_Status g = "active" →
      Player_IsBot (mover g) = false → Player_Conn (mover g) = conn →
      ¬ 0 ≤ column < COLS →
      MoveError m gameID column conn "Invalid column"
  | ColumnFull (g : Game) :
      games m !! gameID = Some g → Game_Status g = "active" →
      Player_IsBot (mover g) = false → Player_Conn (mover g) = conn →
      0 ≤ column < COLS →
      (∀ row, 0 ≤ row < ROWS → occupied (Game_Board g) row column) →
      MoveError m gameID column conn "Column is full".

(** ** A session used in examples

    Alice ("p1", connection 1) holds the three leftmost cells of the
    bottom row, Bob ("p2", connection 2) the three cells above them, and
    it is Alice's turn. *)
Definition exampleBoard : Board :=
  [ replicate 7 None; replicate 7 None; replicate 7 None; replicate 7 None;
    [Some "p2"; Some "p2"; Some "p2"; None; None; None; None];
    [Some "p1"; Some "p1"; Some "p1"; None; None; None; None] ].

Definition alice : Player := mkPlayer "p1" "alice" (Some 1%nat) false.
Definition bob : Player := mkPlayer "p2" "bob" (Some 2%nat) false.

Definition exampleMoves : list Move :=
  [ mkMove "p1" 0 5 1; mkMove "p2" 0 4 2; mkMove "p1" 1 5 3;
    mkMove "p2" 1 4 4; mkMove "p1" 2 5 5; mkMove "p2" 2 4 6 ].

Definition exampleGame : Game :=
  mkGame "g1" alice bob exampleBoard "p1" "active" "" exampleMoves 0 None 6.

Definition exampleManager : Manager := mkManager {[ "g1" := exampleGame ]} ∅.

(** A clock whose every reading is [t]. *)
Definition clockAt (t : Z) : nat → Z := λ _, t.

(** The example board after Alice's winning drop in column 3. *)
Definition wonBoard : Board :=
  [ replicate 7 None; replicate 7 None; replicate 7 None; replicate 7 None;
    [Some "p2"; Some "p2"; Some "p2"; None; None; None; None];
    [Some "p1"; Some "p1"; Some "p1"; Some "p1"; None; None; None] ].

(** The example manager after Bob's connection is lost at time 6. *)
Definition disconnectedManager : Manager :=
  (HandleDisconnect (λ _, 6) exampleManager (Some 2%nat)).1.

Definition carol : matchmaking.Player :=
  matchmaking.mkPlayer "p3" "carol" (Some 3%nat) true false.

Definition dave : matchmaking.Player :=
  matchmaking.mkPlayer "p4" "dave" (Some 4%nat) true false.

(** Calls on the session [Manager] that can follow the creation of its
    games, and their effect on the manager. *)
Inductive ManagerOp : Type :=
  | MOpMakeMove (gameID : string) (column : Z) (conn : Conn)
  | MOpBotMakeMove (gameID : string) (column : Z)
  | MOpRejoinGame (conn : Conn) (username gameID : string)
  | MOpHandleDisconnect (conn : Conn)
  | MOpForfeitTimer (gameID playerID : string)
  | MOpForfeitGame (gameID playerID : string).

Definition applyManagerOp (fuel : nat) (now : nat → Z) (m : Manager)
    (op : ManagerOp) : res Manager :=
  match op with
  | MOpMakeMove gameID column conn =>
      fst <$> Manager_MakeMove fuel now m gameID column conn
  | MOpBotMakeMove gameID column => fst <$> BotMakeMove fuel now m gameID column
  | MOpRejoinGame conn username gameID =>
      Ok (RejoinGame now m conn username gameID).1
  | MOpHandleDisconnect conn => Ok (HandleDisconnect (λ _, now 0%nat) m conn).1
  | MOpForfeitTimer gameID playerID => Ok (forfeitTimer now m gameID playerID).1
  | MOpForfeitGame gameID playerID => Ok (ForfeitGame now m gameID playerID).1
  end.

(** Every session of the manager has a board of the shape [CreateBoard]
    makes. *)
Definition wf_manager (m : Manager) : Prop :=
  ∀ (id : string) (g : Game), games m !! id = Some g → wf_board (Game_Board g).

(** ** Properties of sessions *)

(** The turn token names a participant, or is the token "bot" of a
    session whose second participant is the bot. *)
Definition turn_ok (g : Game) : Prop :=
  Game_CurrentPlayer g = Player_ID (Game_Player1 g) ∨
  Game_CurrentPlayer g = Player_ID (Game_Player2 g) ∨
  (Player_IsBot (Game_Player2 g) = true ∧ Game_CurrentPlayer g = "bot").

(** A session is active without end time and winner, or finished with
    an end time and a winner token. *)
Definition lifecycle_ok (g : Game) : Prop :=
  (Game_Status g = "active" ∧ Game_EndedAt g = None ∧ Game_Winner g = "") ∨
  (Game_Status g = "finished" ∧ Game_EndedAt g ≠ None ∧
   (Game_Winner g = Player_ID (Game_Player1 g) ∨
    Game_Winner g = Player_ID (Game_Player2 g) ∨
    Game_Winner g = "bot" ∨ Game_Winner g = "draw")).

(** The drops the move log records, in order. *)
Definition logDrops (g : Game) : list (Z * Cell) :=
  (λ mv, (Move_Column mv, Some (Move_Player mv))) <$> Game_Moves g.

(** Replaying the move log on an empty board gives the board of the
    session, and every logged move names the cell its piece is in. *)
Definition log_ok (g : Game) : Prop :=
  drops CreateBoard (logDrops g) = Ok (Game_Board g) ∧
  ∀ mv, mv ∈ Game_Moves g →
    cellAt (Game_Board g) (Move_Row mv) (Move_Column mv) = Ok (Some (Move_Player mv)).

Definition session_ok (g : Game) : Prop :=
  turn_ok g ∧ lifecycle_ok g ∧ log_ok g.

Definition manager_ok (m : Manager) : Prop :=
  ∀ (id : string) (g : Game), games m !! id = Some g → session_ok g.

(** The side that moves after [g]'s mover, as [Manager.MakeMove]
    switches turns. *)
Definition nextTurn (g : Game) : string :=
  if decide (Game_CurrentPlayer g = Player_ID (Game_Player1 g)) then
    if Player_IsBot (Game_Player2 g) then "bot" else Player_ID (Game_Player2 g)
  else Player_ID (Game_Player1 g).

(** The states of the manager: the new manager, and what [CreateGame]
    and the other calls make of a state, each call with the clock of
    its moment. *)
Inductive reachable (fuel : nat) : Manager → Prop :=
  | reachable_new : reachable fuel NewManager
  | reachable_create (now : nat → Z) (gameID : string) (m : Manager)
      (player1 player2 : Player) :
      reachable fuel m →
      reachable fuel (CreateGame now gameID m player1 player2).1
  | reachable_op (now : nat → Z) (m m' : Manager) (op : ManagerOp) :
      reachable fuel m →
      applyManagerOp fuel now m op = Ok m' →
      reachable fuel m'.

(** The winner [ForfeitGame] declares when [playerID] forfeits. *)
Definition forfeitWinner (g : Game) (playerID : string) : string :=
  if decide (Player_ID (Game_Player1 g) = playerID) then
    if Player_IsBot (Game_Player2 g) then "bot" else Player_ID (Game_Player2 g)
  else Player_ID (Game_Player1 g).


(** ** Package main: the handlers of the server

    A handler returns the server it leaves, the messages it writes (each
    with the number of the connection it is written to, in order) and
    the timers it arms.  Of the messages only those written by package
    main are listed; saving a finished game and the analytics calls act
    on the collaborators only. *)

Module server.
Import game.

Record Server : Type := mkServer {
  gameManager : Manager;
  matchmakingService : matchmaking.Service
}.

Record PlayerView : Type := mkPlayerView {
  PlayerView_username : string;
  PlayerView_isBot : bool
}.

(** The value of the key "game" of a "gameState" message. *)
Record GameView : Type := mkGameView {
  GameView_id : string;
  GameView_board : list (list (option string));
  GameView_currentPlayer : string;
  GameView_player1 : PlayerView;
  GameView_player2 : PlayerView;
  GameView_status : string;
  GameView_winner : string
}.

Inductive Message : Type :=
  | MsgError (message : string)
  | MsgWaiting (message : string)
  | MsgGameState (game : GameView)
  | MsgPlayerReconnected (username : string).

(** What [time.AfterFunc] is called with: the fallback of the matchmaking
    queue for a player, the move of the bot in a game after 500 ms, the
    forfeit of a game for a lost participant. *)
Inductive Armed : Type :=
  | ArmBotMatch (player : matchmaking.Player)
  | ArmBotMove (gameID : string)
  | ArmForfeit (gameID playerID : string).

Definition Outcome : Type := Server * list (nat * Message) * list Armed.

Definition sendMessage (conn : Conn) (msg : Message) : list (nat * Message) :=
  match conn with
  | Some c => [(c, msg)]
  | None => []
  end.

Definition sendError (conn : Conn) (message : string) : list (nat * Message) :=
  sendMessage conn (MsgError message).

Definition convertToGamePlayer (mp : matchmaking.Player) : Player :=
  mkPlayer (matchmaking.Player_ID mp) (matchmaking.Player_Username mp)
    (matchmaking.Player_Conn mp) (matchmaking.Player_IsBot mp).

(** The conversion [notifyPlayers] applies to a cell that is not nil,
    to the turn token and to the winner: identifiers become usernames. *)
Definition forFrontend (game : Game) (id : string) : string :=
  if decide (id = Player_ID (Game_Player1 game)) then
    Player_Username (Game_Player1 game)
  else if decide (id = Player_ID (Game_Player2 game) ∨ id = "bot") then
    Player_Username (Game_Player2 game)
  else id.

Definition gameView (game : Game) : GameView :=
  mkGameView (Game_ID game)
    ((λ row : list (option string),
        (λ cell : option string, forFrontend game <$> cell) <$> row)
       <$> Game_Board game)
    (forFrontend game (Game_CurrentPlayer game))
    (mkPlayerView (Player_Username (Game_Player1 game))
                  (Player_IsBot (Game_Player1 game)))
    (mkPlayerView (Player_Username (Game_Player2 game))
                  (Player_IsBot (Game_Player2 game)))
    (Game_Status game)
    (forFrontend game (Game_Winner game)).

Definition notifyPlayers (game : Game) : list (nat * Message) :=
  sendMessage (Player_Conn (Game_Player1 game)) (MsgGameState (gameView game)) ++
  sendMessage (Player_Conn (Game_Player2 game)) (MsgGameState (gameView game)).

(** The callback [handleJoin] gives to [ScheduleBotMatch]: a game of
    the player against the bot.  [uuid] is the identifier [CreateGame]
    draws. *)
Definition botMatchCallback (clock : nat → Z) (uuid : string) (s : Server)
    (p : matchmaking.Player) : Outcome :=
  let botPlayer :=
    convertToGamePlayer (matchmaking.mkPlayer "bot" "Bot" None true true) in
  let player1 := convertToGamePlayer p in
  let '(gm, game) := CreateGame clock uuid (gameManager s) player1 botPlayer in
  (mkServer gm (matchmakingService s), notifyPlayers game,
   if decide (Game_CurrentPlayer game = "bot") then [ArmBotMove (Game_ID game)]
   else []).

(** [clock 0] is the clock the identifier of the player is printed
    from; the readings of [CreateGame] follow. *)
Definition handleJoin (clock : nat → Z) (uuid : string) (s : Server)
    (conn : Conn) (username : string) : res Outcome :=
  if decide (username = "") then
    Ok (s, sendError conn "Username is required", [])
  else
    let matchPlayer :=
      matchmaking.mkPlayer (pretty (clock 0%nat)) username conn true false in
    let '(mm, matchResult) :=
      matchmaking.AddPlayer (matchmakingService s) matchPlayer in
    if matchmaking.MatchResult_Matched matchResult then
      match matchmaking.MatchResult_Player1 matchResult,
            matchmaking.MatchResult_Player2 matchResult with
      | Some p1, Some p2 =>
          let '(gm, game) :=
            CreateGame (λ k, clock (S k)) uuid (gameManager s)
              (convertToGamePlayer p1) (convertToGamePlayer p2) in
          Ok (mkServer gm mm, notifyPlayers game, [])
      | _, _ => Panic
      end
    else
      Ok (mkServer (gameManager s) (matchmaking.ScheduleBotMatch mm matchPlayer),
          sendMessage conn (MsgWaiting "Waiting for opponent..."),
          [ArmBotMatch matchPlayer]).

(** The fallback timer of [player] fires. *)
Definition botMatchTimer (clock : nat → Z) (uuid : string) (s : Server)
    (player : matchmaking.Player) : Outcome :=
  let '(mm, called) := matchmaking.botTimerFire (matchmakingService s) player in
  match called with
  | Some p => botMatchCallback clock uuid (mkServer (gameManager s) mm) p
  | None => (mkServer (gameManager s) mm, [], [])
  end.

Definition handleMakeMove (fuel : nat) (clock : nat → Z) (s : Server)
    (conn : Conn) (gameID : string) (column : Z) : res Outcome :=
  '(gm, result) ← Manager_MakeMove fuel clock (gameManager s) gameID column conn;
  let s := mkServer gm (matchmakingService s) in
  if negb (GameMoveResult_Success result) then
    Ok (s, sendError conn (GameMoveResult_Message result), [])
  else
    match GameMoveResult_Game result with
    | None => Panic
    | Some game =>
        Ok (s, notifyPlayers game,
            if decide (Game_Status game = "finished") then []
            else if decide (Game_CurrentPlayer game = "bot") then
              if Player_IsBot (Game_Player2 game) then [ArmBotMove (Game_ID game)]
              else []
            else [])
    end.

(** The timer of a move of the bot fires.  The closure holds the
    pointer to the game; a game that left the map was forfeited, is
    finished, and [Player.MakeMove] returns at once. *)
Definition botMoveTimer (fuel : nat) (clock : nat → Z) (s : Server)
    (gameID : string) : res Outcome :=
  match games (gameManager s) !! gameID with
  | None => Ok (s, [], [])
  | Some g =>
      '(gm, notified) ← bot.Player_MakeMove fuel clock (gameManager s) g;
      Ok (mkServer gm (matchmakingService s),
          match notified with
          | Some g' => notifyPlayers g'
          | None => []
          end, [])
  end.

Definition handleRejoin (clock : nat → Z) (s : Server) (conn : Conn)
    (username gameID : string) : res Outcome :=
  let '(gm, result) := RejoinGame clock (gameManager s) conn username gameID in
  let s := mkServer gm (matchmakingService s) in
  if RejoinResult_Success result then
    match RejoinResult_Game result with
    | None => Panic
    | Some game =>
        Ok (s,
            notifyPlayers game ++
            sendMessage (Player_Conn (Game_Player1 game))
              (MsgPlayerReconnected username) ++
            sendMessage (Player_Conn (Game_Player2 game))
              (MsgPlayerReconnected username), [])
    end
  else Ok (s, sendError conn (RejoinResult_Message result), []).

(** The read of [handleWebSocket] fails: the connection is lost. *)
Definition connectionLost (clock : string → Z) (s : Server) (conn : Conn) : Outcome :=
  let mm := matchmaking.RemovePlayer (matchmakingService s) conn in
  let '(gm, timers) := HandleDisconnect clock (gameManager s) conn in
  (mkServer gm mm, [], (λ t, ArmForfeit t.1 t.2) <$> timers).

End server.


(** ** The leaderboard

    The table [leaderboard] has the user name as primary key and four
    integer columns.  [UpdateLeaderboard] runs one statement for the
    first participant and one for a second participant that is not the
    bot; a statement that fails is logged and changes nothing, so each
    takes the outcome of its [Exec] as a parameter. *)

Record LeaderboardEntry : Type := mkLeaderboardEntry {
  LeaderboardEntry_Wins : Z;
  LeaderboardEntry_Losses : Z;
  LeaderboardEntry_Draws : Z;
  LeaderboardEntry_TotalGames : Z
}.

Abbreviation Leaderboard := (gmap string LeaderboardEntry) (only parsing).

(** INSERT ... ON CONFLICT (username) DO UPDATE SET each column to its
    old value plus the parameter. *)
Definition upsert (execOk : bool) (lb : Leaderboard) (username : string)
    (wins losses draws total : Z) : Leaderboard :=
  if execOk then
    match lb !! username with
    | None =>
        <[username := mkLeaderboardEntry wins losses draws total]> lb
    | Some e =>
        <[username := mkLeaderboardEntry
                        (LeaderboardEntry_Wins e + wins)
                        (LeaderboardEntry_Losses e + losses)
                        (LeaderboardEntry_Draws e + draws)
                        (LeaderboardEntry_TotalGames e + total)]> lb
    end
  else lb.

(** The three counters [UpdateLeaderboard] sets for the first
    participant: wins, losses, draws. *)
Definition player1Tally (game : Game) : Z * Z * Z :=
  if decide (Game_Winner game = Player_ID (Game_Player1 game)) then (1, 0, 0)
  else if decide (Game_Winner game ≠ "draw") then (0, 1, 0)
  else (0, 0, 1).

(** And for the second participant. *)
Definition player2Tally (game : Game) : Z * Z * Z :=
  if decide (Game_Winner game = "bot") then (1, 0, 0)
  else if decide (Game_Winner game = Player_ID (Game_Player2 game)) then (1, 0, 0)
  else if decide (Game_Winner game ≠ "draw" ∧
                  Game_Winner game ≠ Player_ID (Game_Player2 game)) then (0, 1, 0)
  else if decide (Game_Winner game = "draw") then (0, 0, 1)
  else (0, 0, 0).

Definition UpdateLeaderboard (execOk1 execOk2 : bool) (lb : Leaderboard)
    (game : Game) : Leaderboard :=
  if decide (Game_Status game ≠ "finished") then lb
  else
    let '(player1Wins, player1Losses, player1Draws) := player1Tally game in
    let lb :=
      upsert execOk1 lb (Player_Username (Game_Player1 game))
        player1Wins player1Losses player1Draws 1 in
    if negb (Player_IsBot (Game_Player2 game)) then
      let '(player2Wins, player2Losses, player2Draws) := player2Tally game in
      upsert execOk2 lb (Player_Username (Game_Player2 game))
        player2Wins player2Losses player2Draws 1
    else lb.

(** A row whose counters are not negative and add up to its total. *)
Definition balanced (e : LeaderboardEntry) : Prop :=
  0 ≤ LeaderboardEntry_Wins e ∧ 0 ≤ LeaderboardEntry_Losses e ∧
  0 ≤ LeaderboardEntry_Draws e ∧
  LeaderboardEntry_Wins e + LeaderboardEntry_Losses e + LeaderboardEntry_Draws e
    = LeaderboardEntry_TotalGames e.

(** The row of a user name, all zero when the table has none. *)
Definition rowOf (lb : Leaderboard) (username : string) : LeaderboardEntry :=
  default (mkLeaderboardEntry 0 0 0 0) (lb !! username).


(** ** More sessions used in examples *)

(** The second participant of a game against the bot. *)
Definition theBot : Player := mkPlayer "bot" "Bot" None true.

(** A game of Alice against the bot in which Alice has played the
    central column and the bot is to move. *)
Definition botTurnBoard : Board :=
  [ replicate 7 None; replicate 7 None; replicate 7 None; replicate 7 None;
    replicate 7 None;
    [None; None; None; Some "p1"; None; None; None] ].

Definition botTurnGame : Game :=
  mkGame "g2" alice theBot botTurnBoard "bot" "active" "" [mkMove "p1" 3 5 1]
    0 None 1.

Definition botTurnManager : Manager := mkManager {[ "g2" := botTurnGame ]} ∅.

(** A server with one fresh game of Alice against the bot, and a server
    with nothing. *)
Definition botGame : Game :=
  mkGame "g2" alice theBot CreateBoard "p1" "active" "" [] 0 None 0.

Definition botServer : server.Server :=
  server.mkServer (mkManager {[ "g2" := botGame ]} ∅) matchmaking.NewService.

Definition emptyServer : server.Server :=
  server.mkServer NewManager matchmaking.NewService.

(** Alice's accepted winning move on the example session at time 7. *)
Definition exampleAccepted : Manager * GameMoveResult :=
  match Manager_MakeMove 7 (clockAt 7) exampleManager "g1" 3 (Some 1%nat) with
  | Ok out => out
  | _ => (exampleManager, mkGameMoveResult false "" None)
  end.

(** A manager after the creation of a game of Alice and Bob and Alice's
    first move, and the session it holds. *)
Definition openingManager : Manager :=
  (CreateGame (clockAt 0) "g1" NewManager alice bob).1.

Definition afterOpening : Manager :=
  match applyManagerOp 7 (clockAt 1) openingManager (MOpMakeMove "g1" 3 (Some 1%nat)) with
  | Ok m => m
  | _ => openingManager
  end.

Definition afterOpeningGame : Game :=
  mkGame "g1" alice bob botTurnBoard "p2" "active" "" [mkMove "p1" 3 5 1] 0 None 1.

(** The example session once Alice has won it, and a game Alice lost to
    the bot. *)
Definition decidedGame : Game :=
  mkGame "g1" alice bob wonBoard "p1" "finished" "p1"
    (exampleMoves ++ [mkMove "p1" 3 5 7]) 0 (Some 7) 7.

Definition lostToBot : Game :=
  mkGame "g2" alice theBot botTurnBoard "bot" "finished" "bot"
    [mkMove "p1" 3 5 1] 0 (Some 2) 1.

(** A table with one balanced row. *)
Definition exampleLeaderboard : Leaderboard :=
  {[ "alice" := mkLeaderboardEntry 2 1 0 3 ]}.


(** ** Further examples *)

(** A board whose leftmost column is full. *)
Definition fullColumnBoard : Board :=
  [ [Some "p2"; None; None; None; None; None; None];
    [Some "p1"; None; None; None; None; None; None];
    [Some "p2"; None; None; None; None; None; None];
    [Some "p1"; None; None; None; None; None; None];
    [Some "p2"; None; None; None; None; None; None];
    [Some "p1"; None; None; None; None; None; None] ].

Definition erin : matchmaking.Player :=
  matchmaking.mkPlayer "p5" "erin" (Some 5%nat) true false.

(** A player with Carol's identifier on another connection. *)
Definition carolTwin : matchmaking.Player :=
  matchmaking.mkPlayer "p3" "carla" (Some 6%nat) true false.

(** Carol joined and was paired with Erin; Dave joined after them and
    waits.  The timers of Carol and of Dave are on the map. *)
Definition busyQueue : matchmaking.Service :=
  runOps matchmaking.NewService
    [ OpAddPlayer carol; OpScheduleBotMatch carol; OpAddPlayer erin;
      OpAddPlayer dave; OpScheduleBotMatch dave ].

(** A run of calls on the manager, each with the clock of its moment. *)
Fixpoint applyManagerOps (fuel : nat) (m : Manager)
    (ops : list ((nat → Z) * ManagerOp)) : res Manager :=
  match ops with
  | [] => Ok m
  | (now, op) :: rest =>
      m' ← applyManagerOp fuel now m op; applyManagerOps fuel m' rest
  end.

(** The calls that are move requests, of a participant or of the bot. *)
Definition isMoveOp (op : ManagerOp) : bool :=
  match op with
  | MOpMakeMove _ _ _ | MOpBotMakeMove _ _ => true
  | _ => false
  end.

(** The example manager after Bob's connection was lost at time 6 and
    Alice then played column 5, which wins nothing. *)
Definition afterLoss : Manager :=
  match applyManagerOps 7 disconnectedManager
          [(clockAt 7, MOpMakeMove "g1" 5 (Some 1%nat))] with
  | Ok m => m
  | _ => disconnectedManager
  end.

(** * Proofs *)

Arguments evaluateLine : simpl never.
Arguments EvaluatePosition : simpl never.
Arguments MakeMove : simpl never.
Arguments CheckWin : simpl never.
Arguments IsBoardFull : simpl never.

(** ** Slices and boards *)

Lemma index_Ok {A : Type} (l : list A) (i : Z) (x : A) :
  index l i = Ok x ↔ 0 ≤ i ∧ l !! Z.to_nat i = Some x.
Proof.
  unfold index. destruct (decide (0 ≤ i)) as [Hi|Hi].
  - destruct (l !! Z.to_nat i) eqn:E; split; intros H.
    + inversion H; subst. auto.
    + destruct H as [_ H]. inversion H; subst. reflexivity.
    + discriminate.
    + destruct H as [_ H]. discriminate.
  - split; [discriminate | lia].
Qed.

Lemma index_total {A : Type} (l : list A) (i : Z) :
  0 ≤ i < Z.of_nat (length l) → ∃ x, index l i = Ok x.
Proof.
  intros Hi. destruct (lookup_lt_is_Some_2 l (Z.to_nat i)) as [x Hx]; [lia|].
  exists x. apply index_Ok. split; [lia | done].
Qed.

Lemma bind_Ok {A B : Type} (m : res A) (f : A → res B) (y : B) :
  m ≫= f = Ok y ↔ ∃ x, m = Ok x ∧ f x = Ok y.
Proof.
  destruct m; simpl; split; intros H; try discriminate.
  - eauto.
  - destruct H as (x & Hx & Hf). by inversion Hx; subst.
  - destruct H as (x & Hx & _). discriminate.
  - destruct H as (x & Hx & _). discriminate.
Qed.

Lemma cellAt_Ok (board : Board) (row col : Z) (v : Cell) :
  cellAt board row col = Ok v ↔
  0 ≤ row ∧ 0 ≤ col ∧
  ∃ r, board !! Z.to_nat row = Some r ∧ r !! Z.to_nat col = Some v.
Proof.
  unfold cellAt. rewrite bind_Ok. split.
  - intros (r & Hr & Hc). apply index_Ok in Hr as [? ?]. apply index_Ok in Hc as [? ?].
    eauto 6.
  - intros (? & ? & r & Hr & Hc). exists r. rewrite !index_Ok. auto.
Qed.

Lemma wf_board_row (board : Board) (row : Z) :
  wf_board board → 0 ≤ row < ROWS →
  ∃ r, board !! Z.to_nat row = Some r ∧ length r = Z.to_nat COLS.
Proof.
  intros [Hlen Hrows] Hrow.
  destruct (lookup_lt_is_Some_2 board (Z.to_nat row)) as [r Hr].
  { rewrite Hlen. unfold ROWS in *. lia. }
  exists r. split; [done|].
  rewrite Forall_lookup in Hrows. eauto.
Qed.

Lemma inBounds_true (row col : Z) :
  inBounds row col = true ↔ 0 ≤ row < ROWS ∧ 0 ≤ col < COLS.
Proof. unfold inBounds. rewrite !andb_true_iff. lia. Qed.

Lemma inBounds_false (row col : Z) :
  inBounds row col = false ↔ ¬ (0 ≤ row < ROWS ∧ 0 ≤ col < COLS).
Proof. rewrite <- inBounds_true. destruct (inBounds row col); naive_solver. Qed.

Lemma wf_cellAt (board : Board) (row col : Z) :
  wf_board board → 0 ≤ row < ROWS → 0 ≤ col < COLS →
  ∃ v, cellAt board row col = Ok v.
Proof.
  intros Hwf Hrow Hcol.
  destruct (wf_board_row board row Hwf Hrow) as (r & Hr & Hlen).
  destruct (lookup_lt_is_Some_2 r (Z.to_nat col)) as [v Hv].
  { rewrite Hlen. unfold COLS in *. lia. }
  exists v. apply cellAt_Ok. eauto 6 with lia.
Qed.

Lemma setCell_Ok (board board' : Board) (row col : Z) (v : Cell) :
  setCell board row col v = Ok board' →
  ∃ r, 0 ≤ row ∧ 0 ≤ col ∧ board !! Z.to_nat row = Some r ∧
       (Z.to_nat col < length r)%nat ∧
       board' = <[Z.to_nat row := <[Z.to_nat col := v]> r]> board.
Proof.
  unfold setCell. rewrite bind_Ok. intros (r & Hr & H).
  apply bind_Ok in H as (x & Hx & H). inversion H; subst.
  apply index_Ok in Hr as [? ?]. apply index_Ok in Hx as [? Hx].
  exists r. repeat split; auto. eapply lookup_lt_Some; eauto.
Qed.

Lemma setCell_total (board : Board) (row col : Z) (v : Cell) :
  wf_board board → 0 ≤ row < ROWS → 0 ≤ col < COLS →
  ∃ board', setCell board row col v = Ok board'.
Proof.
  intros Hwf Hrow Hcol.
  destruct (wf_board_row board row Hwf Hrow) as (r & Hr & Hlen).
  destruct (lookup_lt_is_Some_2 r (Z.to_nat col)) as [x Hx].
  { rewrite Hlen. unfold COLS in *. lia. }
  unfold setCell.
  assert (index board row = Ok r) as -> by (apply index_Ok; split; [lia|done]).
  simpl.
  assert (index r col = Ok x) as -> by (apply index_Ok; split; [lia|done]).
  simpl. eauto.
Qed.

Lemma setCell_wf (board board' : Board) (row col : Z) (v : Cell) :
  wf_board board → setCell board row col v = Ok board' → wf_board board'.
Proof.
  intros [Hlen Hrows] H. apply setCell_Ok in H as (r & _ & _ & Hr & Hc & ->).
  split.
  - by rewrite length_insert.
  - apply Forall_insert; [done|]. rewrite length_insert.
    rewrite Forall_lookup in Hrows. eauto.
Qed.

Lemma cellAt_setCell (board board' : Board) (row col row' col' : Z) (v : Cell) :
  setCell board row col v = Ok board' →
  cellAt board' row' col' =
    if decide (row' = row ∧ col' = col) then Ok v else cellAt board row' col'.
Proof.
  intros H. apply setCell_Ok in H as (r & Hrow & Hcol & Hr & Hc & ->).
  destruct (decide (row' = row ∧ col' = col)) as [[-> ->]|Hne].
  - apply cellAt_Ok. split; [done|]. split; [done|].
    exists (<[Z.to_nat col := v]> r). split.
    + apply list_lookup_insert_eq. eapply lookup_lt_Some; eauto.
    + by apply list_lookup_insert_eq.
  - unfold cellAt, index.
    destruct (decide (0 ≤ row')) as [Hr'|]; [|done].
    destruct (decide (Z.to_nat row' = Z.to_nat row)) as [Heq|Hneq].
    + assert (row' = row) as -> by lia.
      rewrite list_lookup_insert_eq by (eapply lookup_lt_Some; eauto).
      rewrite Hr. simpl.
      destruct (decide (0 ≤ col')); [|done].
      rewrite list_lookup_insert_ne by lia. done.
    + rewrite list_lookup_insert_ne by done. done.
Qed.

(** ** Dropping a piece *)

(** What the loop of [MakeMove] returns on a well-formed board. *)
Lemma dropLoop_spec (n : nat) (board : Board) (column : Z) (playerID : Cell) :
  wf_board board → 0 ≤ column < COLS → Z.of_nat n ≤ ROWS →
  ∃ board' mr, dropLoop n board column playerID = Ok (board', mr) ∧
    ((mr = mkMoveResult false "Column is full" 0 ∧ board' = board ∧
      ∀ r, 0 ≤ r < Z.of_nat n → occupied board r column) ∨
     (mr = mkMoveResult true "" (MoveResult_Row mr) ∧
      0 ≤ MoveResult_Row mr < Z.of_nat n ∧
      cellAt board (MoveResult_Row mr) column = Ok None ∧
      setCell board (MoveResult_Row mr) column playerID = Ok board' ∧
      ∀ r, MoveResult_Row mr < r < Z.of_nat n → occupied board r column)).
Proof.
  intros Hwf Hcol. induction n as [|k IH]; intros Hn.
  - exists board, (mkMoveResult false "Column is full" 0). split; [done|].
    left. repeat split. intros r Hr. lia.
  - simpl dropLoop.
    destruct (wf_cellAt board (Z.of_nat k) column Hwf) as [c Hc]; [lia|done|].
    rewrite Hc. simpl. destruct c as [side|].
    + destruct IH as (board' & mr & Hrun & Hcases); [lia|].
      exists board', mr. split; [done|].
      destruct Hcases as [(-> & -> & Hfull)|(Hmr & Hrow & Hempty & Hset & Hbelow)].
      * left. repeat split. intros r Hr.
        destruct (decide (r = Z.of_nat k)) as [->|]; [by exists side|].
        apply Hfull. lia.
      * right. repeat split; try done; try lia.
        intros r Hr.
        destruct (decide (r = Z.of_nat k)) as [->|]; [by exists side|].
        apply Hbelow. lia.
    + destruct (setCell_total board (Z.of_nat k) column playerID Hwf)
        as [board' Hset]; [lia|done|].
      rewrite Hset. simpl.
      exists board', (mkMoveResult true "" (Z.of_nat k)). split; [done|].
      right. simpl. repeat split; try done; try lia.
      all: intros r Hr; lia.
Qed.

Lemma MakeMove_spec (board : Board) (column : Z) (playerID : Cell) :
  wf_board board →
  ∃ board' mr, MakeMove board column playerID = Ok (board', mr) ∧
    ((¬ 0 ≤ column < COLS ∧ mr = mkMoveResult false "Invalid column" 0 ∧
      board' = board) ∨
     (0 ≤ column < COLS ∧ mr = mkMoveResult false "Column is full" 0 ∧
      board' = board ∧ ∀ r, 0 ≤ r < ROWS → occupied board r column) ∨
     (0 ≤ column < COLS ∧ mr = mkMoveResult true "" (MoveResult_Row mr) ∧
      0 ≤ MoveResult_Row mr < ROWS ∧
      cellAt board (MoveResult_Row mr) column = Ok None ∧
      setCell board (MoveResult_Row mr) column playerID = Ok board' ∧
      ∀ r, MoveResult_Row mr < r < ROWS → occupied board r column)).
Proof.
  intros Hwf. unfold MakeMove.
  destruct ((column <? 0) || (column >=? COLS)) eqn:Hrange.
  - exists board, (mkMoveResult false "Invalid column" 0). split; [done|].
    left. repeat split. apply orb_true_iff in Hrange. lia.
  - apply orb_false_iff in Hrange.
    assert (0 ≤ column < COLS) as Hcol by lia.
    destruct (dropLoop_spec (Z.to_nat ROWS) board column playerID Hwf Hcol)
      as (board' & mr & Hrun & Hcases); [unfold ROWS; lia|].
    exists board', mr. split; [done|].
    replace (Z.of_nat (Z.to_nat ROWS)) with ROWS in Hcases by (unfold ROWS; lia).
    destruct Hcases as [(? & ? & ?)|(? & ? & ? & ? & ?)]; [right; left|right; right];
      repeat split; auto; lia.
Qed.

Lemma MakeMove_wf (board board' : Board) (column : Z) (playerID : Cell)
    (mr : MoveResult) :
  wf_board board → MakeMove board column playerID = Ok (board', mr) →
  wf_board board'.
Proof.
  intros Hwf Hrun.
  destruct (MakeMove_spec board column playerID Hwf) as (b & r & Hrun' & Hcases).
  rewrite Hrun in Hrun'. inversion Hrun'; subst b r.
  destruct Hcases as [(_ & _ & ->)|[(_ & _ & -> & _)|(_ & _ & _ & _ & Hset & _)]];
    try done.
  by eapply setCell_wf.
Qed.

(** A failed drop leaves the board as it was. *)
Lemma MakeMove_failure (board board' : Board) (column : Z) (playerID : Cell)
    (mr : MoveResult) :
  wf_board board → MakeMove board column playerID = Ok (board', mr) →
  MoveResult_Success mr = false →
  board' = board ∧
  (mr = mkMoveResult false "Invalid column" 0 ∧ ¬ 0 ≤ column < COLS ∨
   mr = mkMoveResult false "Column is full" 0 ∧ 0 ≤ column < COLS).
Proof.
  intros Hwf Hrun Hfail.
  destruct (MakeMove_spec board column playerID Hwf) as (b & r & Hrun' & Hcases).
  rewrite Hrun in Hrun'. inversion Hrun'; subst b r.
  destruct Hcases as [(? & ? & ->)|[(? & ? & -> & _)|(_ & Hmr & _)]]; auto.
  rewrite Hmr in Hfail. discriminate.
Qed.

Lemma pieces_le_length (board : Board) (col : Z) :
  (pieces board col ≤ length board)%nat.
Proof. unfold pieces. apply length_filter. Qed.

Lemma drops_wf (ms : list (Z * Cell)) (board : Board) :
  wf_board board → ∃ board', drops board ms = Ok board' ∧ wf_board board'.
Proof.
  revert board. induction ms as [|[column playerID] rest IH]; intros board Hwf.
  - by exists board.
  - simpl.
    destruct (MakeMove_spec board column playerID Hwf) as (b & r & Hrun & _).
    rewrite Hrun. simpl. apply IH. by eapply MakeMove_wf.
Qed.

Lemma CreateBoard_wf : wf_board CreateBoard.
Proof.
  split; [reflexivity|]. unfold CreateBoard. apply Forall_replicate. reflexivity.
Qed.

(** C5. Whatever sequence of board-level [MakeMove] calls is run on a
    6 x 7 board (the empty board of [CreateBoard] included), the run
    returns a 6 x 7 board none of whose columns holds more than 6 pieces;
    and a drop into a column without an empty cell returns
    [Success = false] with the message "Column is full" and the board
    unchanged. *)
Theorem MakeMove_column_capacity (board0 : Board) (ms : list (Z * Cell)) :
  wf_board board0 →
  (∃ board, drops board0 ms = Ok board ∧ wf_board board ∧
     ∀ col, (pieces board col ≤ 6)%nat) ∧
  (∀ (column : Z) (playerID : Cell),
     0 ≤ column < COLS →
     (∀ row, 0 ≤ row < ROWS → cellAt board0 row column ≠ Ok None) →
     MakeMove board0 column playerID =
       Ok (board0, mkMoveResult false "Column is full" 0)).
Proof.
  intros Hwf. split.
  - destruct (drops_wf ms board0 Hwf) as (board & Hrun & Hwf').
    exists board. repeat split; try done; try apply Hwf'.
    intros col. etrans; [apply pieces_le_length|].
    destruct Hwf' as [-> _]. reflexivity.
  - intros column playerID Hcol Hfull.
    destruct (MakeMove_spec board0 column playerID Hwf) as (b & r & Hrun & Hcases).
    rewrite Hrun.
    destruct Hcases as [(? & _)|[(_ & -> & -> & _)|(_ & _ & Hrow & Hempty & _)]].
    + tauto.
    + done.
    + exfalso. by eapply Hfull.
Qed.

(** C9. A successful drop on a 6 x 7 board that satisfies gravity puts
    the piece in the lowest empty row of the column (the row was empty,
    every row below it is occupied), changes no other cell, and the
    board satisfies gravity again. *)
Theorem MakeMove_preserves_gravity (board board' : Board) (column : Z)
    (playerID : Cell) (mr : MoveResult) :
  wf_board board → gravity board →
  MakeMove board column playerID = Ok (board', mr) →
  MoveResult_Success mr = true →
  0 ≤ MoveResult_Row mr < ROWS ∧
  cellAt board (MoveResult_Row mr) column = Ok None ∧
  (∀ row, MoveResult_Row mr < row < ROWS → occupied board row column) ∧
  cellAt board' (MoveResult_Row mr) column = Ok playerID ∧
  (∀ row col, ¬ (row = MoveResult_Row mr ∧ col = column) →
     cellAt board' row col = cellAt board row col) ∧
  wf_board board' ∧
  gravity board'.
Proof.
  intros Hwf Hgrav Hrun Hok.
  destruct (MakeMove_spec board column playerID Hwf) as (b & r & Hrun' & Hcases).
  rewrite Hrun in Hrun'. inversion Hrun'; subst b r.
  destruct Hcases as [(_ & Hmr & _)|[(_ & Hmr & _)|(Hcol & _ & Hrow & Hempty & Hset & Hbelow)]];
    try (rewrite Hmr in Hok; discriminate).
  assert (Hget : ∀ row col, cellAt board' row col =
            if decide (row = MoveResult_Row mr ∧ col = column) then Ok playerID
            else cellAt board row col)
    by (intros; by eapply cellAt_setCell).
  split_and!.
  - lia.
  - lia.
  - done.
  - done.
  - rewrite Hget. by rewrite decide_True.
  - intros row col Hne. rewrite Hget. by rewrite decide_False.
  - by eapply setCell_wf.
  - intros row col Hr Hc [side Hocc] row' Hr'.
    unfold occupied. rewrite Hget in Hocc. rewrite Hget.
    destruct (decide (row' = MoveResult_Row mr ∧ col = column)) as [[-> ->]|Hne'].
    + destruct (decide (row = MoveResult_Row mr ∧ column = column)) as [_|Hne].
      * eauto.
      * exfalso.
        assert (occupied board (MoveResult_Row mr) column) as [s Hs].
        { apply (Hgrav row column); [lia|done|by exists side|lia]. }
        rewrite Hempty in Hs. discriminate.
    + destruct (decide (row = MoveResult_Row mr ∧ col = column)) as [[-> ->]|Hne].
      * apply Hbelow. lia.
      * apply (Hgrav row col); [lia|done|by exists side|lia].
Qed.

(** ** Detecting a win *)

(** A loop of [checkDirection] stops after the longest run of cells
    equal to [playerID], and adds its length to [count]. *)
Lemma scan_spec (board : Board) (dRow dCol : Z) (playerID : Cell) :
  wf_board board → unitStep dRow dCol →
  ∀ (fuel : nat) (row col count : Z),
    (0 < fuel)%nat → reach row col dRow dCol < Z.of_nat fuel →
    ∃ n : Z, 0 ≤ n ∧
      scan fuel board row col dRow dCol playerID count = Ok (count + n) ∧
      (∀ k, 0 ≤ k < n →
         inBounds (row + k * dRow) (col + k * dCol) = true ∧
         cellAt board (row + k * dRow) (col + k * dCol) = Ok playerID) ∧
      ¬ (inBounds (row + n * dRow) (col + n * dCol) = true ∧
         cellAt board (row + n * dRow) (col + n * dCol) = Ok playerID).
Proof.
  intros Hwf Hstep fuel. induction fuel as [|fuel IH]; intros row col count Hpos Hreach.
  { lia. }
  simpl scan. destruct (inBounds row col) eqn:Hin.
  - apply inBounds_true in Hin as Hrc. destruct Hrc as [Hr Hc].
    destruct (wf_cellAt board row col Hwf Hr Hc) as [c Hcell].
    rewrite Hcell. simpl.
    destruct (decide (c = playerID)) as [->|Hne].
    + destruct (IH (row + dRow) (col + dCol) (count + 1)) as (n & Hn & Hrun & Hall & Hstop).
      { unfold reach, unitStep, ROWS, COLS in *. repeat case_decide; lia. }
      { unfold reach, unitStep, ROWS, COLS in *. repeat case_decide; lia. }
      exists (n + 1). split_and!.
      * lia.
      * rewrite Hrun. f_equal. lia.
      * intros k Hk. destruct (decide (k = 0)) as [->|Hk0].
        { rewrite Z.mul_0_l, !Z.add_0_r. done. }
        specialize (Hall (k - 1) ltac:(lia)).
        replace (row + dRow + (k - 1) * dRow) with (row + k * dRow) in Hall by lia.
        replace (col + dCol + (k - 1) * dCol) with (col + k * dCol) in Hall by lia.
        done.
      * replace (row + (n + 1) * dRow) with (row + dRow + n * dRow) by lia.
        replace (col + (n + 1) * dCol) with (col + dCol + n * dCol) by lia.
        done.
    + exists 0. split_and!.
      * lia.
      * f_equal. lia.
      * intros k Hk. lia.
      * rewrite !Z.mul_0_l, !Z.add_0_r. intros [_ H]. congruence.
  - exists 0. split_and!.
    + lia.
    + f_equal. lia.
    + intros k Hk. lia.
    + rewrite !Z.mul_0_l, !Z.add_0_r. intros [H _]. congruence.
Qed.

Lemma checkDirection_spec (fuel : nat) (board : Board) (row col dRow dCol : Z)
    (side : string) :
  wf_board board → unitStep dRow dCol → (7 ≤ fuel)%nat →
  0 ≤ row < ROWS → 0 ≤ col < COLS →
  cellAt board row col = Ok (Some side) →
  ∃ b : bool,
    checkDirection fuel board row col dRow dCol (Some side) = Ok b ∧
    (b = true ↔ fourOnAxis board row col dRow dCol side).
Proof.
  intros Hwf Hstep Hfuel Hr Hc Hcell. unfold checkDirection.
  destruct (scan_spec board dRow dCol (Some side) Hwf Hstep fuel
              (row + dRow) (col + dCol) 1) as (n1 & Hn1 & Hrun1 & Hall1 & Hstop1).
  { lia. }
  { unfold reach, unitStep, ROWS, COLS in *. repeat case_decide; lia. }
  assert (unitStep (- dRow) (- dCol)) as Hstep'.
  { unfold unitStep in *. lia. }
  destruct (scan_spec board (- dRow) (- dCol) (Some side) Hwf Hstep' fuel
              (row - dRow) (col - dCol) (1 + n1)) as (n2 & Hn2 & Hrun2 & Hall2 & Hstop2).
  { lia. }
  { unfold reach, unitStep, ROWS, COLS in *. repeat case_decide; lia. }
  rewrite Hrun1. simpl. rewrite Hrun2. simpl.
  eexists. split; [reflexivity|].
  rewrite Z.leb_le. split.
  - intros Hcount. exists n2, n1. split_and!; try lia.
    intros k Hk.
    destruct (Z.lt_trichotomy k 0) as [Hneg|[->|Hpos]].
    + specialize (Hall2 (- k - 1) ltac:(lia)).
      replace (row - dRow + (- k - 1) * - dRow) with (row + k * dRow) in Hall2 by lia.
      replace (col - dCol + (- k - 1) * - dCol) with (col + k * dCol) in Hall2 by lia.
      done.
    + rewrite !Z.mul_0_l, !Z.add_0_r. split; [|done].
      by apply inBounds_true.
    + specialize (Hall1 (k - 1) ltac:(lia)).
      replace (row + dRow + (k - 1) * dRow) with (row + k * dRow) in Hall1 by lia.
      replace (col + dCol + (k - 1) * dCol) with (col + k * dCol) in Hall1 by lia.
      done.
  - intros (lo & hi & Hlo & Hhi & Hlen & Hseg).
    assert (hi ≤ n1) as Hhi1.
    { destruct (decide (hi ≤ n1)) as [|Hgt]; [done|]. exfalso. apply Hstop1.
      specialize (Hseg (n1 + 1) ltac:(lia)).
      replace (row + (n1 + 1) * dRow) with (row + dRow + n1 * dRow) in Hseg by lia.
      replace (col + (n1 + 1) * dCol) with (col + dCol + n1 * dCol) in Hseg by lia.
      done. }
    assert (lo ≤ n2) as Hlo2.
    { destruct (decide (lo ≤ n2)) as [|Hgt]; [done|]. exfalso. apply Hstop2.
      specialize (Hseg (- (n2 + 1)) ltac:(lia)).
      replace (row + - (n2 + 1) * dRow) with (row - dRow + n2 * - dRow) in Hseg by lia.
      replace (col + - (n2 + 1) * dCol) with (col - dCol + n2 * - dCol) in Hseg by lia.
      done. }
    lia.
Qed.

(** [CheckWin] returns on a 6 x 7 board, and what it answers. *)
Lemma CheckWin_spec (fuel : nat) (board : Board) (row col : Z) :
  wf_board board → 0 ≤ row < ROWS → 0 ≤ col < COLS → (7 ≤ fuel)%nat →
  ∃ w : WinResult,
    CheckWin fuel board row col = Ok w ∧
    (WinResult_Won w = true ↔ fourThrough board row col) ∧
    (cellAt board row col = Ok None → WinResult_Won w = false).
Proof.
  intros Hwf Hr Hc Hfuel. unfold CheckWin.
  destruct (wf_cellAt board row col Hwf Hr Hc) as [c Hcell].
  rewrite Hcell. simpl. destruct c as [side|].
  - assert (Hside : ∀ s dRow dCol, fourOnAxis board row col dRow dCol s → s = side).
    { intros s dRow dCol (lo & hi & Hlo & Hhi & _ & Hseg).
      specialize (Hseg 0 ltac:(lia)). rewrite !Z.mul_0_l, !Z.add_0_r in Hseg.
      destruct Hseg as [_ Hs]. congruence. }
    destruct (checkDirection_spec fuel board row col 0 1 side) as (h & -> & Hh);
      try done; [unfold unitStep; lia|].
    destruct (checkDirection_spec fuel board row col 1 0 side) as (v & Hv' & Hv);
      try done; [unfold unitStep; lia|].
    destruct (checkDirection_spec fuel board row col 1 1 side) as (d & Hd' & Hd);
      try done; [unfold unitStep; lia|].
    destruct (checkDirection_spec fuel board row col 1 (-1) side) as (a & Ha' & Ha);
      try done; [unfold unitStep; lia|].
    assert (Hfour : fourThrough board row col ↔
              h = true ∨ v = true ∨ d = true ∨ a = true).
    { rewrite Hh, Hv, Hd, Ha. split.
      - intros (s & H).
        destruct H as [H|[H|[H|H]]]; pose proof (Hside _ _ _ H) as ->; tauto.
      - intros H. exists side. tauto. }
    simpl. destruct h.
    { eexists. split; [reflexivity|]. simpl. split; [tauto|discriminate]. }
    rewrite Hv'. simpl. destruct v.
    { eexists. split; [reflexivity|]. simpl. split; [tauto|discriminate]. }
    rewrite Hd'. simpl. destruct d.
    { eexists. split; [reflexivity|]. simpl. split; [tauto|discriminate]. }
    rewrite Ha'. simpl. destruct a.
    { eexists. split; [reflexivity|]. simpl. split; [tauto|discriminate]. }
    eexists. split; [reflexivity|]. simpl. split; [|done].
    rewrite Hfour. intuition discriminate.
  - eexists. split; [reflexivity|]. simpl. split; [|done].
    split; [discriminate|].
    intros (s & H).
    assert (fourOnAxis board row col 0 1 s ∨ fourOnAxis board row col 1 0 s ∨
            fourOnAxis board row col 1 1 s ∨ fourOnAxis board row col 1 (-1) s → False)
      as Hno; [|tauto].
    intros [F|[F|[F|F]]]; destruct F as (lo & hi & Hlo & Hhi & _ & Hseg);
      specialize (Hseg 0 ltac:(lia)); rewrite !Z.mul_0_l, !Z.add_0_r in Hseg;
      destruct Hseg as [_ Hs]; congruence.
Qed.

(** C1. On a 6 x 7 board and an in-range cell, [CheckWin] returns, with
    [Won = true] exactly when some axis carries at least four contiguous
    cells of one side through the cell; on an empty cell [Won] is false. *)
Theorem CheckWin_correct (fuel : nat) (board : Board) (row col : Z) :
  wf_board board → 0 ≤ row < ROWS → 0 ≤ col < COLS → (7 ≤ fuel)%nat →
  ∃ w : WinResult,
    CheckWin fuel board row col = Ok w ∧
    (WinResult_Won w = true ↔ fourThrough board row col) ∧
    (cellAt board row col = Ok None → WinResult_Won w = false).
Proof. apply CheckWin_spec. Qed.

(** ** The static evaluator *)

Lemma lineScore_swap (pc oc ec : Z) : lineScore oc pc ec = - lineScore pc oc ec.
Proof.
  unfold lineScore, WIN_LENGTH.
  repeat match goal with
  | |- context [?a <? ?b] => destruct (Z.ltb_spec a b)
  | |- context [?a =? ?b] => destruct (Z.eqb_spec a b)
  end; simpl; lia.
Qed.

Lemma lineScore_floor (pc oc ec : Z) :
  0 ≤ pc → 0 ≤ oc → 0 ≤ ec → pc + oc + ec = 4 → -10000 ≤ lineScore pc oc ec.
Proof.
  intros. unfold lineScore, WIN_LENGTH.
  repeat match goal with
  | |- context [?a <? ?b] => destruct (Z.ltb_spec a b)
  | |- context [?a =? ?b] => destruct (Z.eqb_spec a b)
  end; simpl; lia.
Qed.

Lemma evaluateLine_loop_swap (board : Board) (startRow startCol dRow dCol : Z)
    (a b : Cell) :
  a ≠ b →
  ∀ (n : nat) (i pc oc ec : Z),
    evaluateLine_loop n i board startRow startCol dRow dCol b a oc pc ec =
    Z.opp <$> evaluateLine_loop n i board startRow startCol dRow dCol a b pc oc ec.
Proof.
  intros Hab n. induction n as [|n IH]; intros i pc oc ec; simpl.
  - by rewrite lineScore_swap.
  - destruct (_ || _); [done|].
    destruct (cellAt board _ _) as [cell| |]; simpl; [|done|done].
    destruct (decide (cell = b)) as [Hb|Hb], (decide (cell = a)) as [Ha|Ha];
      try congruence; apply IH.
Qed.

Lemma evaluateLine_swap (board : Board) (row col dRow dCol : Z) (a b : Cell) :
  a ≠ b →
  evaluateLine board row col dRow dCol b a =
  Z.opp <$> evaluateLine board row col dRow dCol a b.
Proof. intros Hab. unfold evaluateLine. by apply evaluateLine_loop_swap. Qed.

Lemma forEach_swap (idx : list Z) (body body' : Z → Z → res Z) :
  (∀ i s, body' i (- s) = Z.opp <$> body i s) →
  ∀ s, forEach idx body' (- s) = Z.opp <$> forEach idx body s.
Proof.
  intros Hbody. induction idx as [|i rest IH]; intros s; simpl; [done|].
  rewrite Hbody. destruct (body i s) as [s'| |]; simpl; [|done|done].
  apply IH.
Qed.

Lemma EvaluatePosition_cell_swap (board : Board) (a b : Cell) (row col s : Z) :
  a ≠ b →
  EvaluatePosition_cell board b a row col (- s) =
  Z.opp <$> EvaluatePosition_cell board a b row col s.
Proof.
  intros Hab. unfold EvaluatePosition_cell.
  rewrite !(evaluateLine_swap board row col _ _ a b Hab).
  destruct (evaluateLine board row col 0 1 a b) as [h| |]; simpl; [|done|done].
  destruct (evaluateLine board row col 1 0 a b) as [v| |]; simpl; [|done|done].
  destruct (evaluateLine board row col 1 1 a b) as [d| |]; simpl; [|done|done].
  destruct (evaluateLine board row col 1 (-1) a b) as [u| |]; simpl; [|done|done].
  f_equal. lia.
Qed.

Lemma EvaluatePosition_swap (board : Board) (a b : Cell) :
  a ≠ b →
  EvaluatePosition board b a = Z.opp <$> EvaluatePosition board a b.
Proof.
  intros Hab. unfold EvaluatePosition.
  pose proof (forEach_swap (seqZ 0 ROWS)
           (λ row score, forEach (seqZ 0 COLS)
                           (EvaluatePosition_cell board a b row) score)
           (λ row score, forEach (seqZ 0 COLS)
                           (EvaluatePosition_cell board b a row) score)) as Hrows.
  apply (λ H, Hrows H 0). intros row s. apply forEach_swap. intros col s'. by apply EvaluatePosition_cell_swap.
Qed.

(** [evaluateLine] returns on a 6 x 7 board; the value is at least
    -10000, and 0 when the window leaves the board. *)
Lemma evaluateLine_loop_floor (board : Board) (startRow startCol dRow dCol : Z)
    (a b : Cell) :
  wf_board board →
  ∀ (n : nat) (i pc oc ec : Z),
    0 ≤ pc → 0 ≤ oc → 0 ≤ ec → pc + oc + ec + Z.of_nat n = 4 →
    ∃ v, evaluateLine_loop n i board startRow startCol dRow dCol a b pc oc ec = Ok v ∧
         -10000 ≤ v ∧
         (v ≠ 0 → ∀ j, i ≤ j < i + Z.of_nat n →
            inBounds (startRow + j * dRow) (startCol + j * dCol) = true).
Proof.
  intros Hwf n. induction n as [|n IH]; intros i pc oc ec Hpc Hoc Hec Hsum; simpl.
  - eexists. split; [done|]. split; [apply lineScore_floor; lia|]. intros _ j Hj. lia.
  - destruct (_ || _) eqn:Hout.
    { exists 0. split; [done|]. split; [lia|]. done. }
    assert (inBounds (startRow + i * dRow) (startCol + i * dCol) = true) as Hin.
    { apply inBounds_true. rewrite !orb_false_iff in Hout. lia. }
    apply inBounds_true in Hin as [Hr Hc].
    destruct (wf_cellAt board _ _ Hwf Hr Hc) as [cell ->]. simpl.
    assert (∀ pc' oc' ec', 0 ≤ pc' → 0 ≤ oc' → 0 ≤ ec' →
              pc' + oc' + ec' + Z.of_nat n = 4 →
              ∃ v, evaluateLine_loop n (i + 1) board startRow startCol dRow dCol
                     a b pc' oc' ec' = Ok v ∧ -10000 ≤ v ∧
                   (v ≠ 0 → ∀ j, i ≤ j < i + Z.of_nat (S n) →
                      inBounds (startRow + j * dRow) (startCol + j * dCol) = true))
      as Hnext.
    { intros pc' oc' ec' ? ? ? ?.
      destruct (IH (i + 1) pc' oc' ec') as (v & Hv & Hlow & Hwin); try done.
      exists v. split; [done|]. split; [done|].
      intros Hv0 j Hj. destruct (decide (j = i)) as [->|].
      - apply inBounds_true. lia.
      - apply Hwin; [done|lia]. }
    repeat case_decide; apply Hnext; lia.
Qed.

Lemma windowOn_true (row col dRow dCol : Z) :
  (∀ j, 0 ≤ j < 4 → inBounds (row + j * dRow) (col + j * dCol) = true) →
  windowOn row col dRow dCol = true.
Proof.
  intros H. unfold windowOn.
  pose proof (H 0 ltac:(lia)) as H0. pose proof (H 1 ltac:(lia)) as H1.
  pose proof (H 2 ltac:(lia)) as H2. pose proof (H 3 ltac:(lia)) as H3.
  rewrite !Z.mul_0_l, !Z.add_0_r in H0. rewrite !Z.mul_1_l in H1.
  by rewrite H0, H1, H2, H3.
Qed.

Lemma evaluateLine_floor (board : Board) (row col dRow dCol : Z) (a b : Cell) :
  wf_board board →
  ∃ v, evaluateLine board row col dRow dCol a b = Ok v ∧
       (if windowOn row col dRow dCol then -10000 else 0) ≤ v.
Proof.
  intros Hwf. unfold evaluateLine.
  destruct (evaluateLine_loop_floor board row col dRow dCol a b Hwf
              (Z.to_nat WIN_LENGTH) 0 0 0 0) as (v & Hv & Hlow & Hwin);
    try done.
  exists v. split; [done|].
  destruct (windowOn row col dRow dCol) eqn:Hw; [done|].
  destruct (decide (v = 0)) as [->|Hv0]; [done|].
  rewrite windowOn_true in Hw; [done|].
  intros j Hj. apply Hwin; [done|]. unfold WIN_LENGTH. lia.
Qed.

Lemma EvaluatePosition_cell_floor (board : Board) (a b : Cell) (row col s : Z) :
  wf_board board →
  ∃ s', EvaluatePosition_cell board a b row col s = Ok s' ∧
        s + cellFloor row col ≤ s'.
Proof.
  intros Hwf. unfold EvaluatePosition_cell, cellFloor.
  destruct (evaluateLine_floor board row col 0 1 a b Hwf) as (h & -> & Hh).
  destruct (evaluateLine_floor board row col 1 0 a b Hwf) as (v & -> & Hv).
  destruct (evaluateLine_floor board row col 1 1 a b Hwf) as (d & -> & Hd).
  destruct (evaluateLine_floor board row col 1 (-1) a b Hwf) as (u & -> & Hu).
  simpl. eexists. split; [done|]. lia.
Qed.

Lemma forEach_floor (lb : Z → Z) (idx : list Z) (body : Z → Z → res Z) :
  (∀ i s, ∃ s', body i s = Ok s' ∧ s + lb i ≤ s') →
  ∀ s, ∃ s', forEach idx body s = Ok s' ∧ s + sumZ (lb <$> idx) ≤ s'.
Proof.
  intros Hbody. induction idx as [|i rest IH]; intros s.
  - exists s. split; [done|]. unfold sumZ. simpl. lia.
  - cbn [forEach]. destruct (Hbody i s) as (s1 & -> & H1).
    destruct (IH s1) as (s2 & Hs2 & H2). exists s2. split; [done|].
    rewrite fmap_cons. unfold sumZ in *. cbn [foldr]. lia.
Qed.

Lemma EvaluatePosition_floor (board : Board) (a b : Cell) :
  wf_board board →
  ∃ s, EvaluatePosition board a b = Ok s ∧ -690000 ≤ s.
Proof.
  intros Hwf. unfold EvaluatePosition.
  destruct (forEach_floor (λ row, sumZ (cellFloor row <$> seqZ 0 COLS))
              (seqZ 0 ROWS)
              (λ row score, forEach (seqZ 0 COLS)
                              (EvaluatePosition_cell board a b row) score))
    with (s := 0) as (s & Hs & Hlow).
  { intros row s. apply (forEach_floor (cellFloor row)).
    intros col s'. by apply EvaluatePosition_cell_floor. }
  exists s. split; [done|].
  change (0 + boardFloor ≤ s) in Hlow.
  assert (boardFloor = -690000) as Heq by (vm_compute; reflexivity).
  lia.
Qed.

(** C10. On a 6 x 7 board and for two distinct side identifiers the
    evaluator returns for both orders of the sides, and swapping the
    sides negates the score. *)
Theorem EvaluatePosition_antisymmetric (board : Board) (a b : Cell) :
  wf_board board → a ≠ b →
  ∃ s, EvaluatePosition board a b = Ok s ∧
       EvaluatePosition board b a = Ok (- s).
Proof.
  intros Hwf Hab.
  destruct (EvaluatePosition_floor board a b Hwf) as (s & Hs & _).
  exists s. split; [done|].
  rewrite (EvaluatePosition_swap board a b Hab), Hs. done.
Qed.

(** ** The selection of the bot *)

Lemma copyBoard_id (board : Board) : bot.copyBoard board = board.
Proof.
  unfold bot.copyBoard. induction board as [|r rest IH]; [done|].
  rewrite fmap_cons, IH. f_equal. apply firstn_all.
Qed.

Lemma abs_Zabs (x : Z) : bot.abs x = Z.abs x.
Proof. unfold bot.abs. destruct (Z.ltb_spec x 0); lia. Qed.

Lemma sorted_filter (P : Z → Prop) `{∀ x, Decision (P x)} (l : list Z) :
  StronglySorted Z.lt l → StronglySorted Z.lt (filter P l).
Proof.
  induction 1 as [|x l Hs IH Hall].
  - constructor.
  - rewrite filter_cons. destruct (decide (P x)); [|done].
    constructor; [done|].
    rewrite Forall_forall in *. intros y Hy.
    apply list_elem_of_filter in Hy as [_ Hy]. auto.
Qed.

Lemma GetValidMoves_loop (board : Board) (idx acc : list Z) :
  wf_board board → (∀ c, c ∈ idx → 0 ≤ c < COLS) →
  forEach idx
    (λ col validMoves,
       c ← cellAt board 0 col;
       if decide (c = None) then Ok (validMoves ++ [col]) else Ok validMoves)
    acc = Ok (acc ++ filter (λ c, cellAt board 0 c = Ok None) idx).
Proof.
  intros Hwf. revert acc. induction idx as [|col rest IH]; intros acc Hidx.
  - simpl. by rewrite app_nil_r.
  - cbn [forEach].
    destruct (wf_cellAt board 0 col Hwf) as [c Hc];
      [unfold ROWS; lia|apply Hidx; left|].
    rewrite Hc. cbn [mbind res_bind]. rewrite filter_cons.
    destruct (decide (c = None)) as [->|Hne].
    + rewrite decide_True by done. cbn [mbind res_bind].
      rewrite IH by (intros; apply Hidx; by right).
      by rewrite <- app_assoc.
    + rewrite decide_False by congruence. cbn [mbind res_bind].
      apply IH. intros; apply Hidx; by right.
Qed.

Lemma GetValidMoves_spec (board : Board) :
  wf_board board →
  ∃ vm, GetValidMoves board = Ok vm ∧
        (∀ c, c ∈ vm ↔ legal board c) ∧ StronglySorted Z.lt vm.
Proof.
  intros Hwf. eexists. split_and!.
  - unfold GetValidMoves. rewrite GetValidMoves_loop; [done|done|].
    intros c Hc. apply elem_of_seqZ in Hc. lia.
  - intros c. simpl. rewrite list_elem_of_filter, elem_of_seqZ. unfold legal.
    rewrite Z.add_0_l. tauto.
  - simpl. apply sorted_filter.
    change (seqZ 0 COLS) with [0; 1; 2; 3; 4; 5; 6].
    repeat (constructor; [repeat constructor; lia|]). constructor.
Qed.

(** The simulated drop in a legal column succeeds. *)
Lemma legal_drop (board : Board) (col : Z) (side : Cell) :
  wf_board board → legal board col →
  ∃ board' mr, MakeMove board col side = Ok (board', mr) ∧
    MoveResult_Success mr = true ∧ wf_board board' ∧
    0 ≤ MoveResult_Row mr < ROWS.
Proof.
  intros Hwf [Hcol Htop].
  destruct (MakeMove_spec board col side Hwf) as (board' & mr & Hrun & Hcases).
  exists board', mr. split; [done|].
  destruct Hcases as [(? & _)|[(_ & _ & _ & Hfull)|(_ & Hmr & Hrow & _ & Hset & _)]].
  - tauto.
  - destruct (Hfull 0) as [s Hs]; [unfold ROWS; lia|]. congruence.
  - split_and!; [by rewrite Hmr|by eapply setCell_wf|lia|lia].
Qed.

(** Whether a legal column wins is what [CheckWin] answers. *)
Lemma legal_win_check (fuel : nat) (board : Board) (col : Z) (side : Cell) :
  wf_board board → (7 ≤ fuel)%nat → legal board col →
  ∃ board' mr w, MakeMove board col side = Ok (board', mr) ∧
    MoveResult_Success mr = true ∧
    CheckWin fuel board' (MoveResult_Row mr) col = Ok w ∧
    (WinResult_Won w = true ↔ winsAt fuel board side col).
Proof.
  intros Hwf Hfuel Hlegal.
  destruct (legal_drop board col side Hwf Hlegal) as (board' & mr & Hrun & Hok & Hwf' & Hrow).
  destruct (CheckWin_spec fuel board' (MoveResult_Row mr) col Hwf' Hrow)
    as (w & Hw & _); [apply Hlegal|done|].
  exists board', mr, w. split_and!; try done. split.
  - intros Hwon. by exists board', mr, w.
  - intros (b & r & w' & Hrun' & _ & Hw' & Hwon). congruence.
Qed.

Lemma findBlocking_spec (fuel : nat) (board : Board) (side : Cell) (vm : list Z) :
  wf_board board → (7 ≤ fuel)%nat → (∀ c, c ∈ vm → legal board c) →
  ∃ r, bot.findBlocking fuel board side vm = Ok r ∧
    ((r = -1 ∧ ∀ c, c ∈ vm → ¬ winsAt fuel board side c) ∨
     (r ∈ vm ∧ winsAt fuel board side r)).
Proof.
  intros Hwf Hfuel. induction vm as [|col rest IH]; intros Hlegal.
  - exists (-1). split; [done|]. left. split; [done|]. intros c Hc. by apply elem_of_nil in Hc.
  - cbn [bot.findBlocking]. rewrite copyBoard_id.
    destruct (legal_win_check fuel board col side Hwf Hfuel)
      as (board' & mr & w & -> & Hok & Hw & Hiff); [apply Hlegal; left|].
    cbn [mbind res_bind]. rewrite Hok, Hw. cbn [mbind res_bind].
    destruct (WinResult_Won w) eqn:Hwon.
    + exists col. split; [done|]. right. split; [left|]. by apply Hiff.
    + destruct IH as (r & Hr & Hcases); [intros; apply Hlegal; by right|].
      exists r. split; [done|].
      destruct Hcases as [[-> Hnone]|[Hin Hwin]].
      * left. split; [done|]. intros c Hc. apply elem_of_cons in Hc as [->|Hc].
        -- rewrite <- Hiff. congruence.
        -- by apply Hnone.
      * right. split; [by right|done].
Qed.

Lemma findWinning_spec (fuel : nat) (board : Board) (side : Cell) (vm : list Z) :
  wf_board board → (7 ≤ fuel)%nat → (∀ c, c ∈ vm → legal board c) →
  ∃ r, bot.findWinning fuel board side vm = Ok r ∧
    match r with
    | None => ∀ c, c ∈ vm → ¬ winsAt fuel board side c
    | Some col => col ∈ vm ∧ winsAt fuel board side col
    end.
Proof.
  intros Hwf Hfuel. induction vm as [|col rest IH]; intros Hlegal.
  - exists None. split; [done|]. intros c Hc. by apply elem_of_nil in Hc.
  - cbn [bot.findWinning]. rewrite copyBoard_id.
    destruct (legal_win_check fuel board col side Hwf Hfuel)
      as (board' & mr & w & -> & Hok & Hw & Hiff); [apply Hlegal; left|].
    cbn [mbind res_bind]. rewrite Hok, Hw. cbn [mbind res_bind negb].
    destruct (WinResult_Won w) eqn:Hwon.
    + exists (Some col). split; [done|]. split; [left|]. by apply Hiff.
    + destruct IH as (r & Hr & Hcases); [intros; apply Hlegal; by right|].
      exists r. split; [done|]. destruct r as [c'|].
      * destruct Hcases. split; [by right|done].
      * intros c Hc. apply elem_of_cons in Hc as [->|Hc].
        -- rewrite <- Hiff. congruence.
        -- by apply Hcases.
Qed.

(** Every legal column has exactly one value, above the initial
    [bestScore] of the third loop. *)
Lemma moveValue_total (board : Board) (botID opponentID : Cell) (col : Z) :
  wf_board board → legal board col →
  ∃ v, moveValue board botID opponentID col v ∧ -999999 < v.
Proof.
  intros Hwf Hlegal.
  destruct (legal_drop board col botID Hwf Hlegal) as (board' & mr & Hrun & Hok & Hwf' & _).
  destruct (EvaluatePosition_floor board' botID opponentID Hwf') as (s & Hs & Hlow).
  exists (s + (3 - Z.abs (col - 3)) * 5). split.
  - by exists board', mr, s.
  - destruct Hlegal as [Hcol _]. unfold COLS in Hcol. lia.
Qed.

Lemma moveValue_fun (board : Board) (botID opponentID : Cell) (col v v' : Z) :
  moveValue board botID opponentID col v →
  moveValue board botID opponentID col v' → v = v'.
Proof.
  intros (b1 & r1 & s1 & H1 & _ & E1 & ->) (b2 & r2 & s2 & H2 & _ & E2 & ->).
  congruence.
Qed.

Lemma scoreMove_spec (board : Board) (botID opponentID : Cell) (col v : Z)
    (best : Z * Z) :
  moveValue board botID opponentID col v →
  bot.scoreMove board botID opponentID col best =
    Ok (if best.1 <? v then (v, col) else best).
Proof.
  intros (board' & mr & s & Hrun & Hok & Hs & ->).
  unfold bot.scoreMove. rewrite copyBoard_id, Hrun. cbn [mbind res_bind].
  rewrite Hok, Hs. cbn [mbind res_bind negb]. rewrite abs_Zabs.
  by destruct (_ <? _).
Qed.

(** The third loop keeps the first column of the greatest value that
    beats the score it starts with. *)
Lemma scoreLoop_spec (board : Board) (botID opponentID : Cell) (vm : list Z) :
  wf_board board → (∀ c, c ∈ vm → legal board c) →
  ∀ best : Z * Z,
  ∃ best', forEach vm (bot.scoreMove board botID opponentID) best = Ok best' ∧
    ((best' = best ∧
      ∀ c v, c ∈ vm → moveValue board botID opponentID c v → v ≤ best.1) ∨
     (∃ pre post, vm = pre ++ best'.2 :: post ∧
        moveValue board botID opponentID best'.2 best'.1 ∧ best.1 < best'.1 ∧
        (∀ c v, c ∈ pre → moveValue board botID opponentID c v → v < best'.1) ∧
        (∀ c v, c ∈ post → moveValue board botID opponentID c v → v ≤ best'.1))).
Proof.
  intros Hwf. induction vm as [|col rest IH]; intros Hlegal best.
  - exists best. split; [done|]. left. split; [done|].
    intros c v Hc. by apply elem_of_nil in Hc.
  - cbn [forEach].
    destruct (moveValue_total board botID opponentID col Hwf) as (v & Hv & _);
      [apply Hlegal; left|].
    rewrite (scoreMove_spec _ _ _ _ v) by done. cbn [mbind res_bind].
    assert (Hrest : ∀ c, c ∈ rest → legal board c) by (intros; apply Hlegal; by right).
    destruct (Z.ltb_spec best.1 v) as [Hlt|Hge].
    + destruct (IH Hrest (v, col)) as (best' & Hrun & Hcases).
      exists best'. split; [done|]. right.
      destruct Hcases as [[-> Hmax]|(pre & post & -> & Hval & Hgt & Hpre & Hpost)].
      * exists [], rest. simpl. split_and!; try done.
        intros c v' Hc. by apply elem_of_nil in Hc.
      * exists (col :: pre), post. simpl in *. split_and!; try done; try lia.
        intros c v' Hc Hv'. apply elem_of_cons in Hc as [->|Hc].
        -- rewrite (moveValue_fun _ _ _ _ _ _ Hv' Hv). lia.
        -- by eapply Hpre.
    + destruct (IH Hrest best) as (best' & Hrun & Hcases).
      exists best'. split; [done|].
      destruct Hcases as [[-> Hmax]|(pre & post & -> & Hval & Hgt & Hpre & Hpost)].
      * left. split; [done|]. intros c v' Hc Hv'. apply elem_of_cons in Hc as [->|Hc].
        -- rewrite (moveValue_fun _ _ _ _ _ _ Hv' Hv). lia.
        -- by eapply Hmax.
      * right. exists (col :: pre), post. simpl. split_and!; try done.
        intros c v' Hc Hv'. apply elem_of_cons in Hc as [->|Hc].
        -- rewrite (moveValue_fun _ _ _ _ _ _ Hv' Hv). lia.
        -- by eapply Hpre.
Qed.

(** C4. On a 6 x 7 board with a legal column the bot's selection
    returns a legal column: one with which the opponent would win at
    once, if there is one; otherwise one with which the bot wins at
    once, if there is one; otherwise the leftmost of the legal columns
    whose value ([EvaluatePosition] of the simulated drop plus
    [(3 - |column - 3|) * 5]) is greatest. *)
Theorem chooseColumn_policy (fuel : nat) (board : Board) (player1ID : string) :
  wf_board board → (7 ≤ fuel)%nat → (∃ c, legal board c) →
  ∃ col, bot.chooseColumn fuel board player1ID = Ok (Some col) ∧
    legal board col ∧
    ((∃ c, legal board c ∧ winsAt fuel board (Some player1ID) c) →
       winsAt fuel board (Some player1ID) col) ∧
    (¬ (∃ c, legal board c ∧ winsAt fuel board (Some player1ID) c) →
     (∃ c, legal board c ∧ winsAt fuel board (Some "bot") c) →
       winsAt fuel board (Some "bot") col) ∧
    (¬ (∃ c, legal board c ∧ winsAt fuel board (Some player1ID) c) →
     ¬ (∃ c, legal board c ∧ winsAt fuel board (Some "bot") c) →
       ∃ v, moveValue board (Some "bot") (Some player1ID) col v ∧
         ∀ c v', legal board c →
           moveValue board (Some "bot") (Some player1ID) c v' →
           v' ≤ v ∧ (v' = v → col ≤ c)).
Proof.
  intros Hwf Hfuel [c0 Hc0].
  destruct (GetValidMoves_spec board Hwf) as (vm & Hvm & Hmem & Hsorted).
  unfold bot.chooseColumn. rewrite Hvm. cbn [mbind res_bind].
  destruct vm as [|first rest] eqn:Evm.
  { apply Hmem in Hc0. by apply elem_of_nil in Hc0. }
  rewrite <- Evm in *. clear Hc0 c0.
  assert (Hlegal : ∀ c, c ∈ vm → legal board c) by (intros; by apply Hmem).
  destruct (findBlocking_spec fuel board (Some player1ID) vm Hwf Hfuel Hlegal)
    as (r & -> & Hblock).
  cbn [mbind res_bind].
  destruct Hblock as [[-> Hnoblock]|[Hin Hwin]].
  - rewrite decide_False by (intros H; by apply H).
    destruct (findWinning_spec fuel board (Some "bot") vm Hwf Hfuel Hlegal)
      as (w & -> & Hw).
    cbn [mbind res_bind]. destruct w as [col|].
    + destruct Hw as [Hin Hwin]. exists col. split_and!.
      * done.
      * by apply Hlegal.
      * intros (c & Hc & Hcw). exfalso. apply (Hnoblock c); [by apply Hmem|done].
      * done.
      * intros _ Hno. exfalso. apply Hno. exists col. split; [by apply Hlegal|done].
    + destruct (scoreLoop_spec board (Some "bot") (Some player1ID) vm Hwf Hlegal
                  (-999999, first)) as (best & -> & Hcases).
      cbn [mbind res_bind].
      destruct Hcases as [[-> Hmax]|(pre & post & Hsplit & Hval & Hgt & Hpre & Hpost)].
      { exfalso.
        destruct (moveValue_total board (Some "bot") (Some player1ID) first Hwf)
          as (v & Hv & Hlow); [apply Hlegal; rewrite Evm; left|].
        specialize (Hmax first v). simpl in Hmax.
        assert (v ≤ -999999); [|lia]. apply Hmax; [rewrite Evm; left|done]. }
      exists best.2. split; [done|].
      assert (best.2 ∈ vm) as Hbest by (rewrite Hsplit; apply elem_of_app; right; left).
      split_and!.
      * by apply Hlegal.
      * intros (c & Hc & Hcw). exfalso. apply (Hnoblock c); [by apply Hmem|done].
      * intros _ (c & Hc & Hcw). exfalso. apply (Hw c); [by apply Hmem|done].
      * intros _ _. exists best.1. split; [done|]. intros c v' Hc Hv'.
        apply Hmem in Hc. rewrite Hsplit in Hc, Hsorted.
        apply elem_of_app in Hc as [Hc|Hc].
        { specialize (Hpre c v' Hc Hv'). lia. }
        apply elem_of_cons in Hc as [->|Hc].
        { rewrite (moveValue_fun _ _ _ _ _ _ Hv' Hval). lia. }
        specialize (Hpost c v' Hc Hv'). split; [done|]. intros _.
        apply StronglySorted_app_1_r in Hsorted.
        apply StronglySorted_cons in Hsorted as [Hall _].
        rewrite Forall_forall in Hall. specialize (Hall c Hc). lia.
  - assert (r ≠ -1) as Hr.
    { apply Hlegal in Hin as [Hcol _]. unfold COLS in Hcol. lia. }
    rewrite decide_True by done.
    exists r. split_and!.
    + done.
    + by apply Hlegal.
    + done.
    + intros Hno. exfalso. apply Hno. exists r. split; [by apply Hlegal|done].
    + intros Hno. exfalso. apply Hno. exists r. split; [by apply Hlegal|done].
Qed.

(** ** The matchmaking queue *)

Section queue.
Import matchmaking.

Lemma findPlayerByID_loop_None (ps : list Player) (id : string) :
  findPlayerByID_loop ps id = None ↔ ∀ p, p ∈ ps → Player_ID p ≠ id.
Proof.
  induction ps as [|p rest IH]; simpl.
  - split; [|done]. intros _ p Hp. by apply elem_of_nil in Hp.
  - destruct (decide (Player_ID p = id)) as [Heq|Hne].
    + split; [done|]. intros H. exfalso. apply (H p); [left|done].
    + rewrite IH. split.
      * intros H q Hq. apply elem_of_cons in Hq as [->|Hq]; auto.
      * intros H q Hq. apply H. by right.
Qed.

Lemma isPlayerWaiting_false (s : Service) (id : string) :
  isPlayerWaiting s id = false ↔ ∀ p, p ∈ waitingPlayers s → Player_ID p ≠ id.
Proof.
  unfold isPlayerWaiting, findPlayerByID.
  rewrite <- findPlayerByID_loop_None, bool_decide_eq_false.
  destruct (findPlayerByID_loop (waitingPlayers s) id); naive_solver.
Qed.

Lemma removeWaitingPlayer_gone (s : Service) (id : string) (timers : gmap string Timer) :
  isPlayerWaiting
    (mkService (waitingPlayers (removeWaitingPlayer s id)) timers) id = false.
Proof.
  apply isPlayerWaiting_false. simpl. intros p Hp.
  by apply list_elem_of_filter in Hp as [Hp _].
Qed.

Lemma botTimerFire_not_waiting (s : Service) (player : Player) :
  isPlayerWaiting s (Player_ID player) = false → botTimerFire s player = (s, None).
Proof. intros H. unfold botTimerFire. by rewrite H. Qed.

Lemma applyOp_length (s : Service) (op : QueueOp) :
  (length (waitingPlayers s) ≤ 1)%nat →
  (length (waitingPlayers (applyOp s op)) ≤ 1)%nat.
Proof.
  intros Hlen. destruct op as [player|conn|player|player]; simpl.
  - unfold AddPlayer. destruct (waitingPlayers s) as [|opponent rest] eqn:E; simpl.
    + lia.
    + simpl in Hlen. lia.
  - etrans; [apply length_filter|done].
  - done.
  - unfold botTimerFire. destruct (isPlayerWaiting _ _); simpl; [|done].
    etrans; [apply length_filter|done].
Qed.

Lemma runOps_length (ops : list QueueOp) (s : Service) :
  (length (waitingPlayers s) ≤ 1)%nat →
  (length (waitingPlayers (runOps s ops)) ≤ 1)%nat.
Proof.
  revert s. induction ops as [|op ops IH]; intros s Hlen; [done|].
  simpl. apply IH. by apply applyOp_length.
Qed.

(** C7. From the empty queue, any sequence of calls leaves at most one
    waiting player; [AddPlayer] on a queue with a waiting entry pops it,
    pairs it with the arrival ([Matched = true]) and leaves the queue
    empty; [AddPlayer] on an empty queue enqueues the arrival and
    returns [Matched = false]. *)
Theorem AddPlayer_pairs_or_enqueues (ops : list QueueOp) (player : Player) :
  let s := runOps NewService ops in
  (length (waitingPlayers s) ≤ 1)%nat ∧
  (∀ opponent rest, waitingPlayers s = opponent :: rest →
     (AddPlayer s player).2 = mkMatchResult true (Some opponent) (Some player) ∧
     waitingPlayers (AddPlayer s player).1 = []) ∧
  (waitingPlayers s = [] →
     (AddPlayer s player).2 = mkMatchResult false None None ∧
     waitingPlayers (AddPlayer s player).1 = [player]).
Proof.
  intros s.
  assert (length (waitingPlayers s) ≤ 1)%nat as Hlen.
  { apply runOps_length. simpl. lia. }
  split_and!.
  - done.
  - intros opponent rest Hw. unfold AddPlayer. rewrite Hw. simpl. split; [done|].
    rewrite Hw in Hlen. simpl in Hlen. destruct rest; [done|simpl in Hlen; lia].
  - intros Hw. unfold AddPlayer. rewrite Hw. simpl. done.
Qed.

Lemma botTimerFire_twice (s : Service) (player : Player) :
  isPlayerWaiting s (Player_ID player) = true →
  ∃ s1, botTimerFire s player = (s1, Some player) ∧
        waitingPlayers s1 =
          filter (λ p, Player_ID p ≠ Player_ID player) (waitingPlayers s) ∧
        botTimerFire s1 player = (s1, None).
Proof.
  intros Hw. unfold botTimerFire at 1. rewrite Hw. eexists. split; [done|].
  split; [done|]. apply botTimerFire_not_waiting, removeWaitingPlayer_gone.
Qed.

(** C6. A fallback timer that fires for a player of whom the waiting
    queue holds no entry (no waiting player carries its identifier,
    which is printed from the clock at the join) calls nothing and
    changes nothing, whoever else is waiting.  This is so once the
    player was matched, and once the player was withdrawn.  If the
    queue holds an entry of the player, the first firing calls back
    with the player, takes the entry out of the queue and the timer off
    the map and leaves the other waiting players in place, and a second
    firing calls nothing: the callback runs once. *)
Theorem botTimerFire_once (s : Service) (player : Player) :
  ((∀ p, p ∈ waitingPlayers s → Player_ID p ≠ Player_ID player) →
     botTimerFire s player = (s, None)) ∧
  (∀ arrival rest,
     waitingPlayers s = player :: rest →
     (∀ p, p ∈ rest → Player_ID p ≠ Player_ID player) →
     (AddPlayer s arrival).2 = mkMatchResult true (Some player) (Some arrival) ∧
     waitingPlayers (AddPlayer s arrival).1 = rest ∧
     botTimerFire (AddPlayer s arrival).1 player = ((AddPlayer s arrival).1, None)) ∧
  ((∀ p, p ∈ waitingPlayers s → Player_ID p = Player_ID player →
         Player_Conn p = Player_Conn player) →
     waitingPlayers (RemovePlayer s (Player_Conn player))
       = filter (λ p, Player_Conn p ≠ Player_Conn player) (waitingPlayers s) ∧
     botTimerFire (RemovePlayer s (Player_Conn player)) player
       = (RemovePlayer s (Player_Conn player), None)) ∧
  ((∃ p, p ∈ waitingPlayers s ∧ Player_ID p = Player_ID player) →
     ∃ s1, botTimerFire s player = (s1, Some player) ∧
           waitingPlayers s1 =
             filter (λ p, Player_ID p ≠ Player_ID player) (waitingPlayers s) ∧
           (∀ p, p ∈ waitingPlayers s1 → Player_ID p ≠ Player_ID player) ∧
           botTimers s1 = delete (Player_ID player) (botTimers s) ∧
           botTimerFire s1 player = (s1, None)).
Proof.
  split_and!.
  - intros Hgone. by apply botTimerFire_not_waiting, isPlayerWaiting_false.
  - intros arrival rest Hw Hrest. unfold AddPlayer. rewrite Hw. cbn [fst snd].
    split; [done|]. split; [done|].
    by apply botTimerFire_not_waiting, isPlayerWaiting_false.
  - intros Hconn. split; [done|].
    apply botTimerFire_not_waiting, isPlayerWaiting_false.
    unfold RemovePlayer. cbn [waitingPlayers]. intros p Hp Hid.
    apply list_elem_of_filter in Hp as [Hne Hp]. apply Hne. by apply Hconn.
  - intros (p & Hp & Hid).
    destruct (botTimerFire_twice s player) as (s1 & Hfire & Hrest & Hagain).
    { destruct (isPlayerWaiting s (Player_ID player)) eqn:Hw; [done|].
      exfalso. by apply (proj1 (isPlayerWaiting_false s (Player_ID player)) Hw p). }
    exists s1. split; [done|]. split; [done|]. split.
    { rewrite Hrest. intros q Hq. by apply list_elem_of_filter in Hq as [Hne _]. }
    split; [|done].
    unfold botTimerFire in Hfire.
    destruct (isPlayerWaiting s (Player_ID player)); inversion Hfire; done.
Qed.

(** The test of the closure is on the identifier: were two players to
    carry the same one, the timer of the one who left would call back
    while the other waits. *)
Example botTimerFire_shared_identifier :
  (carol ∉ waitingPlayers (mkService [carolTwin] ∅)) ∧
  botTimerFire (mkService [carolTwin] ∅) carol = (mkService [] ∅, Some carol).
Proof.
  split; [|vm_compute; reflexivity].
  intros H. apply list_elem_of_singleton in H. discriminate H.
Qed.

Lemma AddPlayer_pairs_or_enqueues_witness :
  waitingPlayers (runOps NewService [OpAddPlayer carol]) = [carol] ∧
  (AddPlayer (runOps NewService [OpAddPlayer carol]) dave).2
    = mkMatchResult true (Some carol) (Some dave) ∧
  waitingPlayers (AddPlayer (runOps NewService [OpAddPlayer carol]) dave).1 = [].
Proof.
  split; [reflexivity|].
  destruct (AddPlayer_pairs_or_enqueues [OpAddPlayer carol] dave) as (_ & Hpair & _).
  exact (Hpair carol [] eq_refl).
Defined.

Lemma botTimerFire_once_witness :
  waitingPlayers busyQueue = [dave] ∧
  (∀ p, p ∈ waitingPlayers busyQueue → Player_ID p ≠ Player_ID carol) ∧
  botTimerFire busyQueue carol = (busyQueue, None) ∧
  (∃ p, p ∈ waitingPlayers busyQueue ∧ Player_ID p = Player_ID dave) ∧
  ∃ s1, botTimerFire busyQueue dave = (s1, Some dave) ∧
        waitingPlayers s1 = [] ∧
        botTimers s1 = delete "p4" (botTimers busyQueue) ∧
        botTimerFire s1 dave = (s1, None).
Proof.
  assert (∀ p, p ∈ waitingPlayers busyQueue → Player_ID p ≠ Player_ID carol)
    as Hgone.
  { intros p Hp. apply list_elem_of_singleton in Hp. subst p. discriminate. }
  assert (∃ p, p ∈ waitingPlayers busyQueue ∧ Player_ID p = Player_ID dave)
    as Hwaits.
  { exists dave. split; [apply list_elem_of_singleton|]; reflexivity. }
  split; [reflexivity|]. split; [exact Hgone|].
  split.
  - destruct (botTimerFire_once busyQueue carol) as [Hnothing _].
    exact (Hnothing Hgone).
  - split; [exact Hwaits|].
    destruct (botTimerFire_once busyQueue dave) as (_ & _ & _ & Honce).
    destruct (Honce Hwaits) as (s1 & Hfire & Hrest & _ & Htimers & Hagain).
    exists s1. split; [exact Hfire|]. split; [rewrite Hrest; reflexivity|].
    split; [exact Htimers|exact Hagain].
Defined.

End queue.

(** ** Move requests *)

Lemma IsBoardFull_loop_total (board : Board) (cols : list Z) :
  wf_board board → (∀ c, c ∈ cols → 0 ≤ c < COLS) →
  ∃ b, IsBoardFull_loop cols board = Ok b.
Proof.
  intros Hwf. induction cols as [|col rest IH]; intros Hcols; simpl.
  - by exists true.
  - destruct (wf_cellAt board 0 col Hwf) as [c ->];
      [unfold ROWS; lia|apply Hcols; left|].
    simpl. destruct (decide (c = None)); [by exists false|].
    apply IH. intros; apply Hcols; by right.
Qed.

Lemma IsBoardFull_total (board : Board) :
  wf_board board → ∃ b, IsBoardFull board = Ok b.
Proof.
  intros Hwf. apply IsBoardFull_loop_total; [done|].
  intros c Hc. apply elem_of_seqZ in Hc. lia.
Qed.

Lemma set_Board_same (g : Game) : set_Board g (Game_Board g) = g.
Proof. by destruct g. Qed.

Lemma store_same (m : Manager) (gameID : string) (g : Game) :
  games m !! gameID = Some g → store m gameID g = m.
Proof. intros H. destruct m as [gs ws]. unfold store. simpl in *. f_equal. by apply insert_id. Qed.

(** C3. [Manager.MakeMove] returns on a session with a 6 x 7 board.  A
    request that is turned down (game not found, game not active,
    requester's connection not the one stored for the side to move,
    column out of range, column full) gets [Success = false] with the
    message of its reason and leaves the manager, hence every field of
    the session, as it was; and a result with [Success = false] has one
    of these reasons. *)
Theorem Manager_MakeMove_rejects (fuel : nat) (now : nat → Z) (m : Manager)
    (gameID : string) (column : Z) (conn : Conn) :
  (∀ g, games m !! gameID = Some g → wf_board (Game_Board g)) →
  (7 ≤ fuel)%nat →
  ∃ m' r, Manager_MakeMove fuel now m gameID column conn = Ok (m', r) ∧
    (∀ msg, MoveError m gameID column conn msg →
       r = mkGameMoveResult false msg None ∧ m' = m) ∧
    (GameMoveResult_Success r = false →
       m' = m ∧ MoveError m gameID column conn (GameMoveResult_Message r)).
Proof.
  intros Hwf Hfuel. unfold Manager_MakeMove.
  destruct (games m !! gameID) as [game|] eqn:Hgame.
  2:{ eexists _, _. split; [done|]. split.
      - intros msg Herr. inversion Herr; subst; try congruence. done.
      - intros _. split; [done|]. by constructor. }
  specialize (Hwf game eq_refl).
  destruct (decide (Game_Status game ≠ "active")) as [Hstatus|Hstatus].
  { eexists _, _. split; [done|]. split.
    - intros msg Herr. inversion Herr; subst; try congruence. done.
    - intros _. split; [done|]. by econstructor. }
  apply dec_stable in Hstatus.
  fold (mover game).
  destruct (Player_IsBot (mover game)) eqn:Hbot.
  { eexists _, _. split; [done|]. split.
    - intros msg Herr. inversion Herr; subst; try congruence. done.
    - intros _. split; [done|]. eapply NotYourTurn; eauto. }
  destruct (decide (Player_Conn (mover game) ≠ conn)) as [Hconn|Hconn].
  { eexists _, _. split; [done|]. split.
    - intros msg Herr. inversion Herr; subst; try congruence. done.
    - intros _. split; [done|]. eapply NotYourTurn; eauto. }
  apply dec_stable in Hconn.
  destruct ((column <? 0) || (column >=? 7)) eqn:Hcol.
  { assert (¬ 0 ≤ column < COLS) as Hout.
    { apply orb_true_iff in Hcol. unfold COLS. lia. }
    eexists _, _. split; [done|]. split.
    - intros msg Herr. inversion Herr; subst; try congruence; try done.
      destruct H1; congruence.
    - intros _. split; [done|]. eapply ColumnOutOfRange; eauto. }
  assert (0 ≤ column < COLS) as Hin.
  { apply orb_false_iff in Hcol. unfold COLS. lia. }
  destruct (MakeMove_spec (Game_Board game) column (Some (Game_CurrentPlayer game)) Hwf)
    as (board' & mr & Hrun & Hcases).
  rewrite Hrun. cbn [mbind res_bind].
  destruct Hcases as [(? & _)|[(_ & -> & -> & Hfull)|(_ & Hmr & Hrow & Hempty & Hset & _)]].
  - tauto.
  - cbn [MoveResult_Success MoveResult_Message negb].
    rewrite set_Board_same, (store_same m gameID game Hgame).
    eexists _, _. split; [done|]. split.
    + intros msg Herr. inversion Herr; subst; try congruence; try done.
      destruct H1; congruence.
    + intros _. split; [done|]. eapply ColumnFull; eauto.
  - assert (MoveResult_Success mr = true) as Hok by (by rewrite Hmr).
    rewrite Hok. cbn [negb].
    assert (wf_board board') as Hwf' by (by eapply setCell_wf).
    cbn [Game_Board set_Board set_Moves set_LastMoveAt].
    destruct (CheckWin_spec fuel board' (MoveResult_Row mr) column Hwf' Hrow Hin Hfuel)
      as (w & -> & _).
    cbn [mbind res_bind].
    destruct (IsBoardFull_total board' Hwf') as [full ->].
    assert (∀ msg, MoveError m gameID column conn msg → False) as Hnone.
    { intros msg Herr. inversion Herr; subst; try congruence.
      - destruct H1; congruence.
      - assert (g = game) as -> by congruence.
        destruct (H4 (MoveResult_Row mr) Hrow) as [s Hs]. congruence. }
    destruct (WinResult_Won w); [|destruct full; [|repeat case_match]];
      cbn [mbind res_bind]; eexists _, _; (split; [done|]);
      (split; [intros msg Herr; by destruct (Hnone msg)|discriminate]).
Qed.

(** ** Reconnection and the end of a session *)

Lemma forfeitTimer_no_window (now : nat → Z) (m : Manager) (gameID playerID : string) :
  reconnectWindows m !! gameID = None →
  forfeitTimer now m gameID playerID = (m, None).
Proof. intros H. unfold forfeitTimer. by rewrite H. Qed.

(** C8. For a game of the manager with a reconnect window:
    - a rejoin no later than the expiry under the username of a
      participant succeeds: in the game it returns and stores, the
      connection of that participant (the first one if both carry the
      name) is the new connection, and nothing else of the game has
      changed; the window is deleted, so that the forfeit timer finds
      none and does nothing;
    - a rejoin after the expiry fails with the message of a missing
      window, and the window is gone;
    - a rejoin no later than the expiry under another username fails
      with the mismatch message and leaves windows and games as they
      were. *)
Theorem RejoinGame_window (now : nat → Z) (m : Manager) (conn : Conn)
    (username gameID : string) (game : Game) (window : ReconnectWindow) :
  games m !! gameID = Some game →
  reconnectWindows m !! gameID = Some window →
  let m' := (RejoinGame now m conn username gameID).1 in
  let r := (RejoinGame now m conn username gameID).2 in
  (now 0%nat ≤ ReconnectWindow_ExpiresAt window →
   Player_Username (Game_Player1 game) = username ∨
   Player_Username (Game_Player2 game) = username →
     ∃ game',
       r = mkRejoinResult true "" (Some game') ∧
       games m' = <[gameID := game']> (games m) ∧
       reconnectWindows m' = delete gameID (reconnectWindows m) ∧
       (∀ now' playerID, forfeitTimer now' m' gameID playerID = (m', None)) ∧
       (Player_Username (Game_Player1 game) = username →
          Player_Conn (Game_Player1 game') = conn ∧
          Game_Player1 game' =
            mkPlayer (Player_ID (Game_Player1 game))
                     (Player_Username (Game_Player1 game)) conn
                     (Player_IsBot (Game_Player1 game)) ∧
          Game_Player2 game' = Game_Player2 game) ∧
       (Player_Username (Game_Player1 game) ≠ username →
          Player_Conn (Game_Player2 game') = conn ∧
          Game_Player2 game' =
            mkPlayer (Player_ID (Game_Player2 game))
                     (Player_Username (Game_Player2 game)) conn
                     (Player_IsBot (Game_Player2 game)) ∧
          Game_Player1 game' = Game_Player1 game) ∧
       game' =
         mkGame (Game_ID game) (Game_Player1 game') (Game_Player2 game')
           (Game_Board game) (Game_CurrentPlayer game) (Game_Status game)
           (Game_Winner game) (Game_Moves game) (Game_StartedAt game)
           (Game_EndedAt game) (Game_LastMoveAt game)) ∧
  (ReconnectWindow_ExpiresAt window < now 0%nat →
     r = mkRejoinResult false "Reconnection window expired" None ∧
     reconnectWindows m' !! gameID = None) ∧
  (now 0%nat ≤ ReconnectWindow_ExpiresAt window →
   Player_Username (Game_Player1 game) ≠ username →
   Player_Username (Game_Player2 game) ≠ username →
     r = mkRejoinResult false "Username does not match this game" None ∧
     m' = m).
Proof.
  intros Hgame Hwindow. unfold RejoinGame. rewrite Hgame, Hwindow.
  destruct (decide (ReconnectWindow_ExpiresAt window < now 0%nat)) as [Hexp|Hexp].
  { split_and!; try (intros; lia). intros _.
    unfold ForfeitGame. cbn [games reconnectWindows]. rewrite Hgame.
    destruct (decide (Game_Status game ≠ "active")); simpl.
    - split; [done|]. apply lookup_delete_eq.
    - split; [done|]. rewrite lookup_delete_eq. done. }
  destruct (decide (Player_Username (Game_Player1 game) = username)) as [H1|H1].
  { split_and!; try (intros; lia); try (intros; congruence). intros _ _.
    eexists. split; [reflexivity|]. cbn [fst snd games reconnectWindows].
    split; [reflexivity|]. split; [reflexivity|]. split.
    { intros. apply forfeitTimer_no_window. simpl. apply lookup_delete_eq. }
    split; [intros _; destruct game; done|]. split; [done|].
    destruct game; reflexivity. }
  destruct (decide (Player_Username (Game_Player2 game) = username)) as [H2|H2].
  { split_and!; try (intros; lia); try (intros; congruence). intros _ _.
    eexists. split; [reflexivity|]. cbn [fst snd games reconnectWindows].
    split; [reflexivity|]. split; [reflexivity|]. split.
    { intros. apply forfeitTimer_no_window. simpl. apply lookup_delete_eq. }
    split; [done|]. split; [intros _; destruct game; done|].
    destruct game; reflexivity. }
  split_and!; try (intros; lia); try (intros; tauto).
Qed.

Lemma exampleBoard_wf : wf_board exampleBoard.
Proof. split; [reflexivity|]. repeat constructor. Qed.

(** C2, on the code.  Alice's fourth piece in the bottom row wins
    the example session: the session is finished, yet it is still in
    [games], and a later forfeit or move request leaves it there.  With
    a reconnect window opened for Bob before the winning move, a later
    rejoin rebinds Bob's connection in the finished session. *)
Theorem finished_session_stays_live :
  ∃ (m1 : Manager) (g1 : Game),
    Manager_MakeMove 7 (clockAt 7) exampleManager "g1" 3 (Some 1%nat)
      = Ok (m1, mkGameMoveResult true "" (Some g1)) ∧
    Game_Status g1 = "finished" ∧ Game_Winner g1 = "p1" ∧
    games m1 !! "g1" = Some g1 ∧
    ForfeitGame (clockAt 8) m1 "g1" "p2" = (m1, None) ∧
    Manager_MakeMove 7 (clockAt 8) m1 "g1" 4 (Some 2%nat)
      = Ok (m1, mkGameMoveResult false "Game is not active" None) ∧
    ∃ (m0 m2 m3 : Manager) (g2 : Game),
      (HandleDisconnect (λ _, 6) exampleManager (Some 2%nat)).1 = m0 ∧
      reconnectWindows m0 !! "g1" = Some (mkReconnectWindow "p2" (6 + 30 * Second)) ∧
      Manager_MakeMove 7 (clockAt 7) m0 "g1" 3 (Some 1%nat)
        = Ok (m2, mkGameMoveResult true "" (Some g2)) ∧
      Game_Status g2 = "finished" ∧
      RejoinGame (clockAt 9) m2 (Some 9%nat) "bob" "g1"
        = (m3, mkRejoinResult true ""
                 (Some (set_Player2 g2 (set_Conn bob (Some 9%nat))))) ∧
      games m3 !! "g1" = Some (set_Player2 g2 (set_Conn bob (Some 9%nat))) ∧
      set_Player2 g2 (set_Conn bob (Some 9%nat)) ≠ g2.
Proof.
  eexists _, _. split; [vm_compute; reflexivity|].
  split_and!; try (vm_compute; reflexivity).
  eexists _, _, _, _. split; [reflexivity|].
  split; [vm_compute; reflexivity|].
  split; [vm_compute; reflexivity|].
  split; [vm_compute; reflexivity|].
  split; [vm_compute; reflexivity|].
  split; [vm_compute; reflexivity|].
  vm_compute. discriminate.
Qed.

(** ** Finished sessions and the map of live games *)

Lemma fmap_Ok {A B : Type} (f : A → B) (m : res A) (y : B) :
  f <$> m = Ok y ↔ ∃ x, m = Ok x ∧ y = f x.
Proof.
  destruct m; simpl; split; intros H; try discriminate.
  - inversion H. eauto.
  - destruct H as (x & Hx & ->). by inversion Hx.
  - destruct H as (x & Hx & _). discriminate.
  - destruct H as (x & Hx & _). discriminate.
Qed.

(** A call on one game leaves the other games of the map alone. *)
Lemma Manager_MakeMove_other (fuel : nat) (now : nat → Z) (m m' : Manager)
    (gameID id : string) (column : Z) (conn : Conn) (r : GameMoveResult) :
  Manager_MakeMove fuel now m gameID column conn = Ok (m', r) →
  id ≠ gameID → games m' !! id = games m !! id.
Proof.
  intros Hrun Hne. unfold Manager_MakeMove in Hrun.
  destruct (games m !! gameID) as [game|]; [|by inversion Hrun].
  destruct (decide (Game_Status game ≠ "active")); [by inversion Hrun|].
  destruct (Player_IsBot _); [by inversion Hrun|].
  destruct (decide (Player_Conn _ ≠ conn)); [by inversion Hrun|].
  destruct (_ || _); [by inversion Hrun|].
  apply bind_Ok in Hrun as ([board mr] & _ & Hrun).
  destruct (negb _).
  { inversion Hrun; subst. simpl. by rewrite lookup_insert_ne. }
  apply bind_Ok in Hrun as (wres & _ & Hrun).
  apply bind_Ok in Hrun as (gres & _ & Hrun).
  inversion Hrun; subst. simpl. by rewrite lookup_insert_ne.
Qed.

Lemma BotMakeMove_other (fuel : nat) (now : nat → Z) (m m' : Manager)
    (gameID id : string) (column : Z) (r : GameMoveResult) :
  BotMakeMove fuel now m gameID column = Ok (m', r) →
  id ≠ gameID → games m' !! id = games m !! id.
Proof.
  intros Hrun Hne. unfold BotMakeMove in Hrun.
  destruct (games m !! gameID) as [game|]; [|by inversion Hrun].
  destruct (decide (Game_Status game ≠ "active")); [by inversion Hrun|].
  destruct (decide (Game_CurrentPlayer game ≠ "bot")); [by inversion Hrun|].
  apply bind_Ok in Hrun as ([board mr] & _ & Hrun).
  destruct (negb _).
  { inversion Hrun; subst. simpl. by rewrite lookup_insert_ne. }
  apply bind_Ok in Hrun as (wres & _ & Hrun).
  apply bind_Ok in Hrun as (gres & _ & Hrun).
  inversion Hrun; subst. simpl. by rewrite lookup_insert_ne.
Qed.

Lemma ForfeitGame_finished (now : nat → Z) (m : Manager) (gameID id playerID : string)
    (g : Game) :
  games m !! id = Some g → Game_Status g = "finished" →
  games (ForfeitGame now m gameID playerID).1 !! id = Some g.
Proof.
  intros Hg Hfin. unfold ForfeitGame.
  destruct (games m !! gameID) as [game|] eqn:Hgame; [|done].
  destruct (decide (Game_Status game ≠ "active")) as [|Hactive]; [done|].
  apply dec_stable in Hactive. simpl.
  rewrite lookup_delete_ne; [done|]. intros ->. congruence.
Qed.

(** No call on the manager takes a finished session out of [games] or
    changes its status: the eviction [ForfeitGame] performs has no
    counterpart for a session finished by a move. *)
Lemma finished_session_never_evicted (fuel : nat) (now : nat → Z) (m m' : Manager)
    (op : ManagerOp) (id : string) (g : Game) :
  games m !! id = Some g → Game_Status g = "finished" →
  applyManagerOp fuel now m op = Ok m' →
  ∃ g', games m' !! id = Some g' ∧ Game_Status g' = "finished".
Proof.
  intros Hg Hfin Hop. destruct op as [gameID column conn|gameID column|
    conn username gameID|conn|gameID playerID|gameID playerID]; simpl in Hop.
  - apply fmap_Ok in Hop as ([m1 r] & Hrun & ->). simpl.
    destruct (decide (id = gameID)) as [->|Hne].
    + unfold Manager_MakeMove in Hrun. rewrite Hg in Hrun.
      rewrite decide_True in Hrun by (rewrite Hfin; discriminate).
      inversion Hrun; subst. eauto.
    + erewrite Manager_MakeMove_other by done. eauto.
  - apply fmap_Ok in Hop as ([m1 r] & Hrun & ->). simpl.
    destruct (decide (id = gameID)) as [->|Hne].
    + unfold BotMakeMove in Hrun. rewrite Hg in Hrun.
      rewrite decide_True in Hrun by (rewrite Hfin; discriminate).
      inversion Hrun; subst. eauto.
    + erewrite BotMakeMove_other by done. eauto.
  - inversion Hop; subst. clear Hop. unfold RejoinGame.
    destruct (games m !! gameID) as [game|] eqn:Hgame; [|eauto].
    destruct (reconnectWindows m !! gameID) as [w|]; [|eauto].
    destruct (decide (_ < _)).
    + pose proof (ForfeitGame_finished (λ k, now (S k))
                    (mkManager (games m) (delete gameID (reconnectWindows m)))
                    gameID id (ReconnectWindow_PlayerID w) g Hg Hfin) as H.
      destruct (ForfeitGame _ _ _ _) as [m1 o]. simpl in *. eauto.
    + destruct (decide (id = gameID)) as [->|Hne].
      * assert (game = g) as -> by congruence.
        repeat case_decide; simpl; rewrite ?lookup_insert_eq; eauto.
      * repeat case_decide; simpl; rewrite ?lookup_insert_ne by done; eauto.
  - inversion Hop; subst. simpl. eauto.
  - inversion Hop; subst. unfold forfeitTimer.
    destruct (reconnectWindows m !! gameID); [|eauto].
    exists g. split; [|done]. by apply ForfeitGame_finished.
  - inversion Hop; subst. exists g. split; [|done]. by apply ForfeitGame_finished.
Qed.

(** What does hold of eviction: a forfeit takes an active session and
    its window out of the maps, and a second forfeit finds nothing. *)
Lemma ForfeitGame_evicts_once (now now' : nat → Z) (m : Manager)
    (gameID playerID playerID' : string) (g : Game) :
  games m !! gameID = Some g → Game_Status g = "active" →
  ∃ m' g', ForfeitGame now m gameID playerID = (m', Some g') ∧
    Game_Status g' = "finished" ∧
    games m' !! gameID = None ∧ reconnectWindows m' !! gameID = None ∧
    ForfeitGame now' m' gameID playerID' = (m', None).
Proof.
  intros Hg Hactive. unfold ForfeitGame at 1. rewrite Hg.
  rewrite decide_False by (intros H; by apply H).
  eexists _, _. split; [done|]. simpl. split_and!.
  - by repeat case_match.
  - apply lookup_delete_eq.
  - apply lookup_delete_eq.
  - unfold ForfeitGame. simpl. by rewrite lookup_delete_eq.
Qed.

(** ** The shape of the boards is an invariant of the manager *)

Lemma NewManager_wf : wf_manager NewManager.
Proof. intros id g H. simpl in H. by rewrite lookup_empty in H. Qed.

Lemma store_wf (m : Manager) (gameID : string) (g : Game) :
  wf_manager m → wf_board (Game_Board g) → wf_manager (store m gameID g).
Proof.
  intros Hm Hg id g' H. simpl in H.
  destruct (decide (gameID = id)) as [->|Hne].
  - rewrite lookup_insert_eq in H. by inversion H; subst.
  - rewrite lookup_insert_ne in H by done. by eapply Hm.
Qed.

Lemma CreateGame_wf (now : nat → Z) (gameID : string) (m : Manager)
    (player1 player2 : Player) :
  wf_manager m → wf_manager (CreateGame now gameID m player1 player2).1.
Proof. intros Hm. apply store_wf; [done|]. apply CreateBoard_wf. Qed.

Lemma Manager_MakeMove_wf (fuel : nat) (now : nat → Z) (m m' : Manager)
    (gameID : string) (column : Z) (conn : Conn) (r : GameMoveResult) :
  wf_manager m →
  Manager_MakeMove fuel now m gameID column conn = Ok (m', r) → wf_manager m'.
Proof.
  intros Hm Hrun. unfold Manager_MakeMove in Hrun.
  destruct (games m !! gameID) as [game|] eqn:Hgame; [|by inversion Hrun; subst].
  destruct (decide (Game_Status game ≠ "active")); [by inversion Hrun; subst|].
  destruct (Player_IsBot _); [by inversion Hrun; subst|].
  destruct (decide (Player_Conn _ ≠ conn)); [by inversion Hrun; subst|].
  destruct (_ || _); [by inversion Hrun; subst|].
  apply bind_Ok in Hrun as ([board mr] & Hdrop & Hrun).
  assert (wf_board board) as Hboard.
  { eapply MakeMove_wf; [|exact Hdrop]. by eapply Hm. }
  destruct (negb _).
  { inversion Hrun; subst. by apply store_wf. }
  apply bind_Ok in Hrun as (wres & _ & Hrun).
  apply bind_Ok in Hrun as (gres & Hgres & Hrun).
  inversion Hrun; subst. apply store_wf; [done|].
  destruct (WinResult_Won wres); [by inversion Hgres; subst|].
  apply bind_Ok in Hgres as (full & _ & Hgres).
  repeat case_match; by inversion Hgres; subst.
Qed.

Lemma BotMakeMove_wf (fuel : nat) (now : nat → Z) (m m' : Manager)
    (gameID : string) (column : Z) (r : GameMoveResult) :
  wf_manager m →
  BotMakeMove fuel now m gameID column = Ok (m', r) → wf_manager m'.
Proof.
  intros Hm Hrun. unfold BotMakeMove in Hrun.
  destruct (games m !! gameID) as [game|] eqn:Hgame; [|by inversion Hrun; subst].
  destruct (decide (Game_Status game ≠ "active")); [by inversion Hrun; subst|].
  destruct (decide (Game_CurrentPlayer game ≠ "bot")); [by inversion Hrun; subst|].
  apply bind_Ok in Hrun as ([board mr] & Hdrop & Hrun).
  assert (wf_board board) as Hboard.
  { eapply MakeMove_wf; [|exact Hdrop]. by eapply Hm. }
  destruct (negb _).
  { inversion Hrun; subst. by apply store_wf. }
  apply bind_Ok in Hrun as (wres & _ & Hrun).
  apply bind_Ok in Hrun as (gres & Hgres & Hrun).
  inversion Hrun; subst. apply store_wf; [done|].
  destruct (WinResult_Won wres); [by inversion Hgres; subst|].
  apply bind_Ok in Hgres as (full & _ & Hgres).
  repeat case_match; by inversion Hgres; subst.
Qed.

Lemma ForfeitGame_wf (now : nat → Z) (m : Manager) (gameID playerID : string) :
  wf_manager m → wf_manager (ForfeitGame now m gameID playerID).1.
Proof.
  intros Hm. unfold ForfeitGame.
  destruct (games m !! gameID) as [game|]; [|done].
  destruct (decide (Game_Status game ≠ "active")); [done|].
  intros id g H. simpl in H. apply lookup_delete_Some in H as [_ H]. by eapply Hm.
Qed.

Lemma RejoinGame_wf (now : nat → Z) (m : Manager) (conn : Conn)
    (username gameID : string) :
  wf_manager m → wf_manager (RejoinGame now m conn username gameID).1.
Proof.
  intros Hm. unfold RejoinGame.
  destruct (games m !! gameID) as [game|] eqn:Hgame; [|done].
  destruct (reconnectWindows m !! gameID) as [w|]; [|done].
  assert (wf_board (Game_Board game)) as Hboard by (by eapply Hm).
  destruct (decide (_ < _)).
  - pose proof (ForfeitGame_wf (λ k, now (S k))
                  (mkManager (games m) (delete gameID (reconnectWindows m)))
                  gameID (ReconnectWindow_PlayerID w) Hm) as H.
    by destruct (ForfeitGame _ _ _ _).
  - repeat case_decide; try done;
      apply (store_wf (mkManager (games m) (delete gameID (reconnectWindows m))));
      done.
Qed.

(** Every call keeps the boards of the manager 6 x 7. *)
Lemma applyManagerOp_wf (fuel : nat) (now : nat → Z) (m m' : Manager)
    (op : ManagerOp) :
  wf_manager m → applyManagerOp fuel now m op = Ok m' → wf_manager m'.
Proof.
  intros Hm Hop. destruct op; simpl in Hop.
  - apply fmap_Ok in Hop as ([m1 r] & Hrun & ->). by eapply Manager_MakeMove_wf.
  - apply fmap_Ok in Hop as ([m1 r] & Hrun & ->). by eapply BotMakeMove_wf.
  - inversion Hop; subst. by apply RejoinGame_wf.
  - inversion Hop; subst. done.
  - inversion Hop; subst. unfold forfeitTimer.
    destruct (reconnectWindows m !! gameID); [|done]. by apply ForfeitGame_wf.
  - inversion Hop; subst. by apply ForfeitGame_wf.
Qed.

(** On its turn the bot plays the column of its selection. *)
Lemma Player_MakeMove_plays (fuel : nat) (now : nat → Z) (m : Manager) (g : Game)
    (column : Z) :
  Game_Status g = "active" → Game_CurrentPlayer g = "bot" →
  bot.chooseColumn fuel (Game_Board g) (Player_ID (Game_Player1 g))
    = Ok (Some column) →
  bot.Player_MakeMove fuel now m g = bot.executeMove fuel now m g column.
Proof.
  intros Hs Hc Hchoice. unfold bot.Player_MakeMove.
  rewrite decide_False by (intros [H|H]; by apply H).
  by rewrite Hchoice.
Qed.

(** ** The theorems at work on the example session *)

Example CheckWin_wonBoard :
  CheckWin 7 wonBoard 5 3 = Ok (mkWinResult true "horizontal").
Proof. reflexivity. Qed.

(** Three iterations are too few for a row with four pieces. *)
Example CheckWin_short_budget : CheckWin 3 wonBoard 5 3 = Diverge.
Proof. reflexivity. Qed.

(** The bot blocks Alice's open row; on the empty board it takes the
    central column. *)
Example chooseColumn_blocks : bot.chooseColumn 7 exampleBoard "p1" = Ok (Some 3).
Proof. vm_compute. reflexivity. Qed.

Example chooseColumn_centre : bot.chooseColumn 7 CreateBoard "p1" = Ok (Some 3).
Proof. vm_compute. reflexivity. Qed.

Example EvaluatePosition_exampleBoard :
  EvaluatePosition exampleBoard (Some "p1") (Some "p2") = Ok (-60) ∧
  EvaluatePosition exampleBoard (Some "p2") (Some "p1") = Ok 60.
Proof. split; vm_compute; reflexivity. Qed.

(** The two sides of the evaluator have to differ for the antisymmetry. *)
Example EvaluatePosition_same_side :
  EvaluatePosition exampleBoard (Some "p1") (Some "p1") = Ok 1170.
Proof. vm_compute. reflexivity. Qed.

Lemma wonBoard_wf : wf_board wonBoard.
Proof. split; [reflexivity|]. repeat constructor. Qed.

Lemma exampleBoard_gravity : gravity exampleBoard.
Proof.
  intros row col Hr Hc [side Hocc] row' Hr'. unfold occupied, ROWS, COLS in *.
  assert (row = 0 ∨ row = 1 ∨ row = 2 ∨ row = 3 ∨ row = 4 ∨ row = 5) as Hrow by lia.
  assert (col = 0 ∨ col = 1 ∨ col = 2 ∨ col = 3 ∨ col = 4 ∨ col = 5 ∨ col = 6)
    as Hcol by lia.
  assert (row' = 0 ∨ row' = 1 ∨ row' = 2 ∨ row' = 3 ∨ row' = 4 ∨ row' = 5)
    as Hrow' by lia.
  destruct Hrow as [-> | [-> | [-> | [-> | [-> | ->]]]]];
    destruct Hcol as [->|[-> | [-> | [-> | [-> | [-> | ->]]]]]];
    try (vm_compute in Hocc; discriminate);
    destruct Hrow' as [-> | [-> | [-> | [-> | [-> | ->]]]]];
    try lia; eexists; vm_compute; reflexivity.
Qed.

Lemma CheckWin_correct_witness :
  wf_board wonBoard ∧ 0 ≤ 5 < ROWS ∧ 0 ≤ 3 < COLS ∧ (7 ≤ 7)%nat ∧
  ∃ w : WinResult,
    CheckWin 7 wonBoard 5 3 = Ok w ∧
    (WinResult_Won w = true ↔ fourThrough wonBoard 5 3) ∧
    (cellAt wonBoard 5 3 = Ok None → WinResult_Won w = false).
Proof.
  split; [exact wonBoard_wf|].
  split; [unfold ROWS; lia|]. split; [unfold COLS; lia|]. split; [lia|].
  apply (CheckWin_correct 7 wonBoard 5 3).
  - exact wonBoard_wf.
  - unfold ROWS; lia.
  - unfold COLS; lia.
  - lia.
Defined.

Lemma Manager_MakeMove_rejects_witness :
  (∀ g, games exampleManager !! "g1" = Some g → wf_board (Game_Board g)) ∧
  (7 ≤ 7)%nat ∧
  ∃ m' r, Manager_MakeMove 7 (clockAt 7) exampleManager "g1" 3 (Some 2%nat)
            = Ok (m', r) ∧
    (∀ msg, MoveError exampleManager "g1" 3 (Some 2%nat) msg →
       r = mkGameMoveResult false msg None ∧ m' = exampleManager) ∧
    (GameMoveResult_Success r = false →
       m' = exampleManager ∧
       MoveError exampleManager "g1" 3 (Some 2%nat) (GameMoveResult_Message r)).
Proof.
  assert (∀ g, games exampleManager !! "g1" = Some g → wf_board (Game_Board g))
    as Hwf.
  { intros g Hg. vm_compute in Hg. inversion Hg. exact exampleBoard_wf. }
  split; [exact Hwf|]. split; [lia|].
  apply (Manager_MakeMove_rejects 7 (clockAt 7) exampleManager "g1" 3 (Some 2%nat)).
  - exact Hwf.
  - lia.
Defined.

Lemma chooseColumn_policy_witness :
  wf_board exampleBoard ∧ (7 ≤ 7)%nat ∧ (∃ c, legal exampleBoard c) ∧
  ∃ col, bot.chooseColumn 7 exampleBoard "p1" = Ok (Some col) ∧
    legal exampleBoard col ∧
    ((∃ c, legal exampleBoard c ∧ winsAt 7 exampleBoard (Some "p1") c) →
       winsAt 7 exampleBoard (Some "p1") col) ∧
    (¬ (∃ c, legal exampleBoard c ∧ winsAt 7 exampleBoard (Some "p1") c) →
     (∃ c, legal exampleBoard c ∧ winsAt 7 exampleBoard (Some "bot") c) →
       winsAt 7 exampleBoard (Some "bot") col) ∧
    (¬ (∃ c, legal exampleBoard c ∧ winsAt 7 exampleBoard (Some "p1") c) →
     ¬ (∃ c, legal exampleBoard c ∧ winsAt 7 exampleBoard (Some "bot") c) →
       ∃ v, moveValue exampleBoard (Some "bot") (Some "p1") col v ∧
         ∀ c v', legal exampleBoard c →
           moveValue exampleBoard (Some "bot") (Some "p1") c v' →
           v' ≤ v ∧ (v' = v → col ≤ c)).
Proof.
  assert (∃ c, legal exampleBoard c) as Hlegal.
  { exists 3. split; [unfold COLS; lia|reflexivity]. }
  split; [exact exampleBoard_wf|]. split; [lia|]. split; [exact Hlegal|].
  apply (chooseColumn_policy 7 exampleBoard "p1").
  - exact exampleBoard_wf.
  - lia.
  - exact Hlegal.
Defined.

Lemma fullColumnBoard_wf : wf_board fullColumnBoard.
Proof. split; [reflexivity|]. repeat constructor. Qed.

Lemma fullColumnBoard_full (row : Z) :
  0 ≤ row < ROWS → cellAt fullColumnBoard row 0 ≠ Ok None.
Proof.
  unfold ROWS. intros Hrow.
  assert (row = 0 ∨ row = 1 ∨ row = 2 ∨ row = 3 ∨ row = 4 ∨ row = 5) as Hcases by lia.
  destruct Hcases as [-> | [-> | [-> | [-> | [-> | ->]]]]]; vm_compute; discriminate.
Qed.

Lemma MakeMove_column_capacity_witness :
  wf_board fullColumnBoard ∧ pieces fullColumnBoard 0 = 6%nat ∧
  0 ≤ 0 < COLS ∧
  (∀ row, 0 ≤ row < ROWS → cellAt fullColumnBoard row 0 ≠ Ok None) ∧
  (∃ board, drops fullColumnBoard [(0, Some "p1"); (3, Some "p2")] = Ok board ∧
     wf_board board ∧ ∀ col, (pieces board col ≤ 6)%nat) ∧
  MakeMove fullColumnBoard 0 (Some "p1") =
    Ok (fullColumnBoard, mkMoveResult false "Column is full" 0).
Proof.
  assert (0 ≤ 0 < COLS) as Hcol by (unfold COLS; lia).
  destruct (MakeMove_column_capacity fullColumnBoard [(0, Some "p1"); (3, Some "p2")]
              fullColumnBoard_wf) as [Hcapacity Hfull].
  split; [exact fullColumnBoard_wf|]. split; [vm_compute; reflexivity|].
  split; [exact Hcol|]. split; [exact fullColumnBoard_full|].
  split; [exact Hcapacity|].
  exact (Hfull 0 (Some "p1") Hcol fullColumnBoard_full).
Defined.

Lemma MakeMove_preserves_gravity_witness :
  wf_board exampleBoard ∧ gravity exampleBoard ∧
  MakeMove exampleBoard 3 (Some "p1") = Ok (wonBoard, mkMoveResult true "" 5) ∧
  0 ≤ 5 < ROWS ∧
  cellAt exampleBoard 5 3 = Ok None ∧
  (∀ row, 5 < row < ROWS → occupied exampleBoard row 3) ∧
  cellAt wonBoard 5 3 = Ok (Some "p1") ∧
  (∀ row col, ¬ (row = 5 ∧ col = 3) →
     cellAt wonBoard row col = cellAt exampleBoard row col) ∧
  wf_board wonBoard ∧
  gravity wonBoard.
Proof.
  split; [exact exampleBoard_wf|]. split; [exact exampleBoard_gravity|].
  split; [reflexivity|].
  apply (MakeMove_preserves_gravity exampleBoard wonBoard 3 (Some "p1")
           (mkMoveResult true "" 5)).
  - exact exampleBoard_wf.
  - exact exampleBoard_gravity.
  - reflexivity.
  - reflexivity.
Defined.

Lemma EvaluatePosition_antisymmetric_witness :
  wf_board exampleBoard ∧ Some "p1" ≠ Some "p2" ∧
  ∃ s, EvaluatePosition exampleBoard (Some "p1") (Some "p2") = Ok s ∧
       EvaluatePosition exampleBoard (Some "p2") (Some "p1") = Ok (- s).
Proof.
  split; [exact exampleBoard_wf|]. split; [discriminate|].
  apply (EvaluatePosition_antisymmetric exampleBoard (Some "p1") (Some "p2")).
  - exact exampleBoard_wf.
  - discriminate.
Defined.

Lemma RejoinGame_window_witness :
  games disconnectedManager !! "g1" = Some exampleGame ∧
  reconnectWindows disconnectedManager !! "g1"
    = Some (mkReconnectWindow "p2" (6 + 30 * Second)) ∧
  clockAt 9 0%nat ≤ 6 + 30 * Second ∧
  Player_Username (Game_Player1 exampleGame) ≠ "bob" ∧
  Player_Conn (Game_Player2 exampleGame) = Some 2%nat ∧
  ∃ game',
    (RejoinGame (clockAt 9) disconnectedManager (Some 9%nat) "bob" "g1").2
      = mkRejoinResult true "" (Some game') ∧
    games (RejoinGame (clockAt 9) disconnectedManager (Some 9%nat) "bob" "g1").1
      !! "g1" = Some game' ∧
    Player_Conn (Game_Player2 game') = Some 9%nat ∧
    Game_Player1 game' = alice ∧
    reconnectWindows
      (RejoinGame (clockAt 9) disconnectedManager (Some 9%nat) "bob" "g1").1
      !! "g1" = None.
Proof.
  assert (games disconnectedManager !! "g1" = Some exampleGame) as Hg
    by (vm_compute; reflexivity).
  assert (reconnectWindows disconnectedManager !! "g1"
          = Some (mkReconnectWindow "p2" (6 + 30 * Second))) as Hw
    by (vm_compute; reflexivity).
  assert (clockAt 9 0%nat ≤ 6 + 30 * Second) as Hnow
    by (unfold clockAt, Second; lia).
  assert (Player_Username (Game_Player1 exampleGame) ≠ "bob") as Hother
    by discriminate.
  split; [exact Hg|]. split; [exact Hw|]. split; [exact Hnow|].
  split; [exact Hother|]. split; [reflexivity|].
  destruct (RejoinGame_window (clockAt 9) disconnectedManager (Some 9%nat) "bob" "g1"
              exampleGame (mkReconnectWindow "p2" (6 + 30 * Second)) Hg Hw)
    as [Hrejoin _].
  destruct (Hrejoin Hnow (or_intror eq_refl))
    as (game' & Hr & Hgames & Hwin & _ & _ & Hsecond & _).
  destruct (Hsecond Hother) as (Hconn & _ & Hfirst).
  exists game'. split; [exact Hr|].
  split; [rewrite Hgames; apply lookup_insert_eq|].
  split; [exact Hconn|]. split; [exact Hfirst|].
  rewrite Hwin. apply lookup_delete_eq.
Defined.

(** ** More on the board engine *)

Lemma setCell_gravity (board board' : Board) (row column : Z) (playerID : Cell) :
  gravity board →
  cellAt board row column = Ok None →
  (∀ r, row < r < ROWS → occupied board r column) →
  setCell board row column playerID = Ok board' →
  gravity board'.
Proof.
  intros Hgrav Hempty Hbelow Hset.
  assert (Hget : ∀ r c, cellAt board' r c =
            if decide (r = row ∧ c = column) then Ok playerID
            else cellAt board r c)
    by (intros; by eapply cellAt_setCell).
  intros r c Hr Hc [side Hocc] r' Hr'.
  unfold occupied. rewrite Hget in Hocc. rewrite Hget.
  destruct (decide (r' = row ∧ c = column)) as [[-> ->]|Hne'].
  - destruct (decide (r = row ∧ column = column)) as [_|Hne]; [eauto|].
    exfalso. assert (occupied board row column) as [s Hs].
    { apply (Hgrav r column); [lia|done|by exists side|lia]. }
    rewrite Hempty in Hs. discriminate.
  - destruct (decide (r = row ∧ c = column)) as [[-> ->]|Hne].
    + apply Hbelow. lia.
    + apply (Hgrav r c); [lia|done|by exists side|lia].
Qed.

Lemma MakeMove_keeps_gravity (board board' : Board) (column : Z) (playerID : Cell)
    (mr : MoveResult) :
  wf_board board → gravity board →
  MakeMove board column playerID = Ok (board', mr) → gravity board'.
Proof.
  intros Hwf Hgrav Hrun.
  destruct (MakeMove_spec board column playerID Hwf) as (b & r & Hrun' & Hcases).
  rewrite Hrun in Hrun'. inversion Hrun'; subst b r.
  destruct Hcases as [(_ & _ & ->)|[(_ & _ & -> & _)|(_ & _ & _ & Hempty & Hset & Hbelow)]];
    try done.
  by eapply setCell_gravity.
Qed.

Lemma CreateBoard_cellAt (row col : Z) :
  0 ≤ row < ROWS → 0 ≤ col < COLS → cellAt CreateBoard row col = Ok None.
Proof.
  intros Hr Hc. apply cellAt_Ok. split; [lia|]. split; [lia|].
  exists (replicate (Z.to_nat COLS) None). unfold CreateBoard. split.
  - apply lookup_replicate_2. unfold ROWS in *. lia.
  - apply lookup_replicate_2. unfold COLS in *. lia.
Qed.

Lemma CreateBoard_gravity : gravity CreateBoard.
Proof.
  intros row col Hr Hc [side Hocc]. rewrite CreateBoard_cellAt in Hocc by done.
  discriminate.
Qed.

Lemma drops_keep_gravity (ms : list (Z * Cell)) (board : Board) :
  wf_board board → gravity board →
  ∃ board', drops board ms = Ok board' ∧ wf_board board' ∧ gravity board'.
Proof.
  revert board. induction ms as [|[column playerID] rest IH]; intros board Hwf Hgrav.
  - by exists board.
  - simpl.
    destruct (MakeMove_spec board column playerID Hwf) as (b & r & Hrun & _).
    rewrite Hrun. simpl. apply IH.
    + by eapply MakeMove_wf.
    + by eapply MakeMove_keeps_gravity.
Qed.

(** X1. Every board reached from the empty board by calls of the
    board-level [MakeMove], in any columns and for any sides, failed
    calls included, is a 6 x 7 board that satisfies gravity. *)
Theorem drops_from_CreateBoard_gravity (ms : list (Z * Cell)) :
  ∃ board, drops CreateBoard ms = Ok board ∧ wf_board board ∧ gravity board.
Proof. apply drops_keep_gravity; [apply CreateBoard_wf|apply CreateBoard_gravity]. Qed.

Lemma pieces_insert (board : Board) (i : nat) (r r' : list Cell) (col : Z) :
  board !! i = Some r →
  pieces (<[i := r']> board) col =
    (pieces board col + (if isPiece r' col then 1 else 0)
                      - (if isPiece r col then 1 else 0))%nat.
Proof.
  intros Hi. unfold pieces.
  rewrite insert_take_drop by (by eapply lookup_lt_Some).
  rewrite <- (take_drop_middle board i r Hi) at 3.
  rewrite !filter_app, !filter_cons, !length_app.
  destruct (isPiece r' col), (isPiece r col); simpl;
    repeat case_decide; try done; simpl; lia.
Qed.

Lemma isPiece_insert (r : list Cell) (col col' : Z) (v : Cell) :
  0 ≤ col → (Z.to_nat col < length r)%nat →
  isPiece (<[Z.to_nat col := v]> r) col' =
    if decide (col' = col) then bool_decide (v ≠ None) else isPiece r col'.
Proof.
  intros Hcol Hlen. unfold isPiece, index.
  destruct (decide (col' = col)) as [->|Hne].
  - rewrite decide_True by done. rewrite list_lookup_insert_eq by done.
    by destruct v.
  - destruct (decide (0 ≤ col')); [|done].
    rewrite list_lookup_insert_ne by lia. done.
Qed.

(** X2. A successful drop of a side adds one piece to its column and none to
    another; a failed drop changes no count. *)
Theorem MakeMove_pieces (board board' : Board) (column : Z) (side : string)
    (mr : MoveResult) :
  wf_board board →
  MakeMove board column (Some side) = Ok (board', mr) →
  ∀ col, pieces board' col =
    if MoveResult_Success mr && bool_decide (col = column)
    then S (pieces board col) else pieces board col.
Proof.
  intros Hwf Hrun col.
  destruct (MakeMove_spec board column (Some side) Hwf) as (b & r & Hrun' & Hcases).
  rewrite Hrun in Hrun'. inversion Hrun'; subst b r.
  destruct Hcases as [(_ & -> & ->)|[(_ & -> & -> & _)|(Hcol & Hmr & Hrow & Hempty & Hset & _)]];
    try done.
  rewrite Hmr. cbn [MoveResult_Success andb].
  apply setCell_Ok in Hset as (r & _ & _ & Hr & Hlen & ->).
  rewrite (pieces_insert board _ r) by done.
  rewrite isPiece_insert by (done || lia).
  assert (isPiece r column = false) as Hnot.
  { apply cellAt_Ok in Hempty as (_ & _ & r0 & Hr0 & Hc0).
    assert (r0 = r) as -> by congruence.
    unfold isPiece, index. rewrite decide_True by lia. by rewrite Hc0. }
  destruct (decide (col = column)) as [->|Hne].
  - rewrite bool_decide_eq_true_2 by done. rewrite Hnot.
    rewrite bool_decide_eq_true_2 by done. lia.
  - rewrite bool_decide_eq_false_2 by done.
    destruct (isPiece r col) eqn:E; [|lia].
    assert (0 < pieces board col)%nat; [|lia].
    unfold pieces. apply Nat.neq_0_lt_0. intros Hz.
    apply length_zero_iff_nil in Hz.
    assert (r ∈ filter (λ r0, isPiece r0 col = true) board) as Hin.
    { apply list_elem_of_filter. split; [done|]. by eapply list_elem_of_lookup_2. }
    rewrite Hz in Hin. by apply elem_of_nil in Hin.
Qed.

(** X3. On a board that satisfies gravity the columns [GetValidMoves] lists
    are those in which a drop succeeds. *)
Theorem MakeMove_succeeds_iff_legal (board : Board) (column : Z) (playerID : Cell) :
  wf_board board → gravity board →
  ∃ board' mr vm,
    MakeMove board column playerID = Ok (board', mr) ∧
    GetValidMoves board = Ok vm ∧
    (MoveResult_Success mr = true ↔ column ∈ vm).
Proof.
  intros Hwf Hgrav.
  destruct (MakeMove_spec board column playerID Hwf) as (board' & mr & Hrun & Hcases).
  destruct (GetValidMoves_spec board Hwf) as (vm & Hvm & Hmem & _).
  exists board', mr, vm. split; [done|]. split; [done|].
  rewrite Hmem.
  destruct Hcases as [(Hout & -> & _)|[(Hin & -> & _ & Hfull)|(Hin & Hmr & Hrow & Hempty & _)]].
  - split; [discriminate|]. intros [? _]. tauto.
  - split; [discriminate|]. intros [_ Htop].
    destruct (Hfull 0) as [s Hs]; [unfold ROWS; lia|]. congruence.
  - rewrite Hmr. split; [intros _|done]. split; [done|].
    destruct (wf_cellAt board 0 column Hwf) as [[s|] Htop];
      [unfold ROWS; lia|done| |done].
    exfalso. assert (occupied board (MoveResult_Row mr) column) as [s' Hs'].
    { apply (Hgrav 0 column); [unfold ROWS; lia|done|by exists s|lia]. }
    congruence.
Qed.

Lemma IsBoardFull_loop_spec (board : Board) (cols : list Z) :
  wf_board board → (∀ c, c ∈ cols → 0 ≤ c < COLS) →
  ∃ b, IsBoardFull_loop cols board = Ok b ∧
       (b = true ↔ ∀ c, c ∈ cols → cellAt board 0 c ≠ Ok None).
Proof.
  intros Hwf. induction cols as [|col rest IH]; intros Hcols; simpl.
  - exists true. split; [done|]. split; [|done]. intros _ c Hc. by apply elem_of_nil in Hc.
  - destruct (wf_cellAt board 0 col Hwf) as [c Hc];
      [unfold ROWS; lia|apply Hcols; left|].
    rewrite Hc. simpl. destruct (decide (c = None)) as [->|Hne].
    + exists false. split; [done|]. split; [discriminate|].
      intros H. exfalso. apply (H col); [left|done].
    + destruct IH as (b & -> & Hb); [intros; apply Hcols; by right|].
      exists b. split; [done|]. rewrite Hb. split.
      * intros H c' Hc'. apply elem_of_cons in Hc' as [->|Hc']; [|by apply H].
        rewrite Hc. congruence.
      * intros H c' Hc'. apply H. by right.
Qed.

(** X4. On a 6 x 7 board [GetValidMoves] returns the legal columns in
    increasing order, and [IsBoardFull] answers true exactly when that
    list is empty. *)
Theorem IsBoardFull_iff_no_valid_move (board : Board) :
  wf_board board →
  ∃ (vm : list Z) (full : bool),
    GetValidMoves board = Ok vm ∧ IsBoardFull board = Ok full ∧
    StronglySorted Z.lt vm ∧
    (∀ c, c ∈ vm ↔ 0 ≤ c < COLS ∧ cellAt board 0 c = Ok None) ∧
    (full = true ↔ vm = []).
Proof.
  intros Hwf.
  destruct (GetValidMoves_spec board Hwf) as (vm & Hvm & Hmem & Hsorted).
  destruct (IsBoardFull_loop_spec board (seqZ 0 COLS) Hwf) as (full & Hfull & Hiff).
  { intros c Hc. apply elem_of_seqZ in Hc. lia. }
  exists vm, full. split_and!; try done.
  rewrite Hiff. split.
  - intros Hnone. destruct vm as [|c rest]; [done|]. exfalso.
    destruct (Hmem c) as [[Hc Htop] _]; [left|].
    apply (Hnone c); [|done]. apply elem_of_seqZ. lia.
  - intros -> c Hc Htop. apply elem_of_seqZ in Hc.
    assert (c ∈ ([] : list Z)) as Hin by (apply Hmem; split; [lia|done]).
    by apply elem_of_nil in Hin.
Qed.

(** X5. The direction [CheckWin] reports for an occupied cell: the first of
    horizontal, vertical, diagonal on which four are connected through
    the cell, and none when it reports no win. *)
Theorem CheckWin_direction (fuel : nat) (board : Board) (row col : Z) (side : string) :
  wf_board board → 0 ≤ row < ROWS → 0 ≤ col < COLS → (7 ≤ fuel)%nat →
  cellAt board row col = Ok (Some side) →
  ∃ w : WinResult,
    CheckWin fuel board row col = Ok w ∧
    (WinResult_Direction w = "horizontal" ↔ fourOnAxis board row col 0 1 side) ∧
    (WinResult_Direction w = "vertical" ↔
       ¬ fourOnAxis board row col 0 1 side ∧ fourOnAxis board row col 1 0 side) ∧
    (WinResult_Direction w = "diagonal" ↔
       ¬ fourOnAxis board row col 0 1 side ∧ ¬ fourOnAxis board row col 1 0 side ∧
       (fourOnAxis board row col 1 1 side ∨ fourOnAxis board row col 1 (-1) side)) ∧
    (WinResult_Direction w = "" ↔ WinResult_Won w = false).
Proof.
  intros Hwf Hr Hc Hfuel Hcell. unfold CheckWin. rewrite Hcell. simpl.
  destruct (checkDirection_spec fuel board row col 0 1 side) as (h & -> & Hh);
    try done; [unfold unitStep; lia|].
  destruct (checkDirection_spec fuel board row col 1 0 side) as (v & Hv' & Hv);
    try done; [unfold unitStep; lia|].
  destruct (checkDirection_spec fuel board row col 1 1 side) as (d & Hd' & Hd);
    try done; [unfold unitStep; lia|].
  destruct (checkDirection_spec fuel board row col 1 (-1) side) as (a & Ha' & Ha);
    try done; [unfold unitStep; lia|].
  assert (Hdone : ∀ w : WinResult,
            (WinResult_Direction w = "horizontal" ↔ h = true) ∧
            (WinResult_Direction w = "vertical" ↔ ¬ h = true ∧ v = true) ∧
            (WinResult_Direction w = "diagonal" ↔
               ¬ h = true ∧ ¬ v = true ∧ (d = true ∨ a = true)) ∧
            (WinResult_Direction w = "" ↔ WinResult_Won w = false) →
            (WinResult_Direction w = "horizontal" ↔ fourOnAxis board row col 0 1 side) ∧
            (WinResult_Direction w = "vertical" ↔
               ¬ fourOnAxis board row col 0 1 side ∧ fourOnAxis board row col 1 0 side) ∧
            (WinResult_Direction w = "diagonal" ↔
               ¬ fourOnAxis board row col 0 1 side ∧
               ¬ fourOnAxis board row col 1 0 side ∧
               (fourOnAxis board row col 1 1 side ∨
                fourOnAxis board row col 1 (-1) side)) ∧
            (WinResult_Direction w = "" ↔ WinResult_Won w = false)).
  { intros w. rewrite Hh, Hv, Hd, Ha. done. }
  simpl. destruct h.
  { eexists. split; [reflexivity|]. apply Hdone. simpl. split_and!; split;
      try done; try discriminate; intuition discriminate. }
  rewrite Hv'. simpl. destruct v.
  { eexists. split; [reflexivity|]. apply Hdone. simpl. split_and!; split;
      try done; try discriminate; intuition discriminate. }
  rewrite Hd'. simpl. destruct d.
  { eexists. split; [reflexivity|]. apply Hdone. simpl. split_and!; split;
      try done; try discriminate; intuition discriminate. }
  rewrite Ha'. simpl. destruct a.
  { eexists. split; [reflexivity|]. apply Hdone. simpl. split_and!; split;
      try done; try discriminate; intuition discriminate. }
  eexists. split; [reflexivity|]. apply Hdone. simpl. split_and!; split;
    try done; try discriminate; intuition discriminate.
Qed.

Lemma lineScore_ceil (pc oc ec : Z) :
  0 ≤ pc → 0 ≤ oc → 0 ≤ ec → pc + oc + ec = 4 → lineScore pc oc ec ≤ 10000.
Proof.
  intros. unfold lineScore, WIN_LENGTH.
  repeat match goal with
  | |- context [?a <? ?b] => destruct (Z.ltb_spec a b)
  | |- context [?a =? ?b] => destruct (Z.eqb_spec a b)
  end; simpl; lia.
Qed.

Lemma evaluateLine_loop_ceil (board : Board) (startRow startCol dRow dCol : Z)
    (a b : Cell) :
  ∀ (n : nat) (i pc oc ec v : Z),
    0 ≤ pc → 0 ≤ oc → 0 ≤ ec → pc + oc + ec + Z.of_nat n = 4 →
    evaluateLine_loop n i board startRow startCol dRow dCol a b pc oc ec = Ok v →
    v ≤ 10000.
Proof.
  intros n. induction n as [|n IH]; intros i pc oc ec v Hpc Hoc Hec Hsum; simpl.
  - intros H. inversion H; subst. apply lineScore_ceil; lia.
  - destruct (_ || _); [intros H; inversion H; lia|].
    destruct (cellAt board _ _) as [cell| |]; simpl; [|done|done].
    repeat case_decide; apply IH; lia.
Qed.

Lemma evaluateLine_range (board : Board) (row col dRow dCol : Z) (a b : Cell) :
  wf_board board →
  ∃ v, evaluateLine board row col dRow dCol a b = Ok v ∧
       (if windowOn row col dRow dCol then -10000 else 0) ≤ v ∧
       v ≤ (if windowOn row col dRow dCol then 10000 else 0).
Proof.
  intros Hwf.
  destruct (evaluateLine_floor board row col dRow dCol a b Hwf) as (v & Hv & Hlow).
  exists v. split; [done|]. split; [done|].
  destruct (windowOn row col dRow dCol) eqn:Hw.
  - unfold evaluateLine in Hv. eapply evaluateLine_loop_ceil; [..|exact Hv]; done.
  - unfold evaluateLine in Hv.
    destruct (evaluateLine_loop_floor board row col dRow dCol a b Hwf
                (Z.to_nat WIN_LENGTH) 0 0 0 0) as (v' & Hv' & _ & Hwin); try done.
    assert (v' = v) as -> by congruence.
    destruct (decide (v = 0)) as [->|Hv0]; [done|].
    rewrite windowOn_true in Hw; [done|].
    intros j Hj. apply Hwin; [done|]. unfold WIN_LENGTH. lia.
Qed.

Lemma forEach_range (lb : Z → Z) (idx : list Z) (body : Z → Z → res Z) :
  (∀ i s, ∃ s', body i s = Ok s' ∧ s + lb i ≤ s' ≤ s - lb i) →
  ∀ s, ∃ s', forEach idx body s = Ok s' ∧
             s + sumZ (lb <$> idx) ≤ s' ≤ s - sumZ (lb <$> idx).
Proof.
  intros Hbody. induction idx as [|i rest IH]; intros s.
  - exists s. split; [done|]. unfold sumZ. simpl. lia.
  - cbn [forEach]. destruct (Hbody i s) as (s1 & -> & H1).
    destruct (IH s1) as (s2 & Hs2 & H2). exists s2. split; [done|].
    rewrite fmap_cons. unfold sumZ in *. cbn [foldr]. lia.
Qed.

(** X6. On a 6 x 7 board the evaluator returns a score between -690000 and
    690000, whatever the two sides are: 69 windows of four cells lie on
    the board and each adds between -10000 and 10000. *)
Theorem EvaluatePosition_bounds (board : Board) (a b : Cell) :
  wf_board board →
  ∃ s, EvaluatePosition board a b = Ok s ∧ -690000 ≤ s ≤ 690000.
Proof.
  intros Hwf. unfold EvaluatePosition.
  destruct (forEach_range (λ row, sumZ (cellFloor row <$> seqZ 0 COLS))
              (seqZ 0 ROWS)
              (λ row score, forEach (seqZ 0 COLS)
                              (EvaluatePosition_cell board a b row) score))
    with (s := 0) as (s & Hs & Hrange).
  { intros row s. apply (forEach_range (cellFloor row)).
    intros col s'. unfold EvaluatePosition_cell, cellFloor.
    destruct (evaluateLine_range board row col 0 1 a b Hwf) as (h & -> & Hh).
    destruct (evaluateLine_range board row col 1 0 a b Hwf) as (v & -> & Hv).
    destruct (evaluateLine_range board row col 1 1 a b Hwf) as (d & -> & Hd).
    destruct (evaluateLine_range board row col 1 (-1) a b Hwf) as (u & -> & Hu).
    simpl. eexists. split; [done|].
    destruct (windowOn row col 0 1), (windowOn row col 1 0),
      (windowOn row col 1 1), (windowOn row col 1 (-1)); lia. }
  exists s. split; [done|].
  change (0 + boardFloor ≤ s ≤ 0 - boardFloor) in Hrange.
  assert (boardFloor = -690000) as Heq by (vm_compute; reflexivity).
  lia.
Qed.

(** ** Accepted moves *)

(** What a successful drop returns. *)
Lemma MakeMove_success (board board' : Board) (column : Z) (playerID : Cell)
    (mr : MoveResult) :
  wf_board board → MakeMove board column playerID = Ok (board', mr) →
  MoveResult_Success mr = true →
  mr = mkMoveResult true "" (MoveResult_Row mr) ∧
  0 ≤ column < COLS ∧ 0 ≤ MoveResult_Row mr < ROWS ∧
  cellAt board (MoveResult_Row mr) column = Ok None ∧
  setCell board (MoveResult_Row mr) column playerID = Ok board' ∧
  wf_board board'.
Proof.
  intros Hwf Hrun Hok.
  destruct (MakeMove_spec board column playerID Hwf) as (b & r & Hrun' & Hcases).
  rewrite Hrun in Hrun'. inversion Hrun'; subst b r.
  destruct Hcases as [(_ & Hmr & _)|[(_ & Hmr & _)|(Hcol & Hmr & Hrow & Hempty & Hset & _)]];
    try (rewrite Hmr in Hok; discriminate).
  split_and!; try done; try lia. by eapply setCell_wf.
Qed.

(** The session an accepted move leaves behind, field by field. *)
Lemma Manager_MakeMove_accepts (fuel : nat) (now : nat → Z) (m m' : Manager)
    (gameID : string) (column : Z) (conn : Conn) (r : GameMoveResult) :
  (∀ g, games m !! gameID = Some g → wf_board (Game_Board g)) →
  Manager_MakeMove fuel now m gameID column conn = Ok (m', r) →
  GameMoveResult_Success r = true →
  ∃ (game : Game) (board' : Board) (row : Z) (w : WinResult) (full : bool),
    games m !! gameID = Some game ∧ Game_Status game = "active" ∧
    Player_IsBot (mover game) = false ∧ Player_Conn (mover game) = conn ∧
    MakeMove (Game_Board game) column (Some (Game_CurrentPlayer game))
      = Ok (board', mkMoveResult true "" row) ∧
    CheckWin fuel board' row column = Ok w ∧
    IsBoardFull board' = Ok full ∧
    let over := WinResult_Won w || full in
    let game' :=
      mkGame (Game_ID game) (Game_Player1 game) (Game_Player2 game) board'
        (if over then Game_CurrentPlayer game else nextTurn game)
        (if over then "finished" else Game_Status game)
        (if WinResult_Won w then Game_CurrentPlayer game
         else if full then "draw" else Game_Winner game)
        (Game_Moves game ++ [mkMove (Game_CurrentPlayer game) column row (now 0%nat)])
        (Game_StartedAt game)
        (if over then Some (now 2%nat) else Game_EndedAt game)
        (now 1%nat) in
    m' = store m gameID game' ∧ r = mkGameMoveResult true "" (Some game').
Proof.
  intros Hwf Hrun Hsucc. unfold Manager_MakeMove in Hrun.
  destruct (games m !! gameID) as [game|] eqn:Hgame;
    [|inversion Hrun; subst; discriminate].
  specialize (Hwf game eq_refl).
  destruct (decide (Game_Status game ≠ "active")) as [|Hstatus];
    [inversion Hrun; subst; discriminate|].
  apply dec_stable in Hstatus. fold (mover game) in Hrun.
  destruct (Player_IsBot (mover game)) eqn:Hbot;
    [inversion Hrun; subst; discriminate|].
  destruct (decide (Player_Conn (mover game) ≠ conn)) as [|Hconn];
    [inversion Hrun; subst; discriminate|].
  apply dec_stable in Hconn.
  destruct (_ || _); [inversion Hrun; subst; discriminate|].
  apply bind_Ok in Hrun as ([board' mr] & Hdrop & Hrun).
  destruct (MoveResult_Success mr) eqn:Hok; cbn [negb] in Hrun;
    [|inversion Hrun; subst; discriminate].
  destruct (MakeMove_success _ _ _ _ _ Hwf Hdrop Hok)
    as (Hmr & Hcol & Hrow & _ & _ & Hwf').
  cbn [Game_Board set_Board set_Moves set_LastMoveAt] in Hrun.
  apply bind_Ok in Hrun as (w & Hw & Hrun).
  apply bind_Ok in Hrun as (game' & Hgame' & Hrun).
  inversion Hrun; subst m' r. clear Hrun Hsucc.
  destruct (IsBoardFull_total board' Hwf') as [full Hfull].
  exists game, board', (MoveResult_Row mr), w, full.
  rewrite <- Hmr. split_and!; try done.
  cbn zeta.
  assert (game' =
    mkGame (Game_ID game) (Game_Player1 game) (Game_Player2 game) board'
      (if WinResult_Won w || full then Game_CurrentPlayer game else nextTurn game)
      (if WinResult_Won w || full then "finished" else Game_Status game)
      (if WinResult_Won w then Game_CurrentPlayer game
       else if full then "draw" else Game_Winner game)
      (Game_Moves game ++
       [mkMove (Game_CurrentPlayer game) column (MoveResult_Row mr) (now 0%nat)])
      (Game_StartedAt game)
      (if WinResult_Won w || full then Some (now 2%nat) else Game_EndedAt game)
      (now 1%nat)) as ->; [|done].
  destruct (WinResult_Won w); cbn [orb] in *.
  { inversion Hgame'. reflexivity. }
  rewrite Hfull in Hgame'. cbn [mbind res_bind] in Hgame'.
  destruct full.
  { inversion Hgame'. reflexivity. }
  unfold nextTurn. cbn [Game_CurrentPlayer set_Board set_Moves set_LastMoveAt
    Game_Player1 Game_Player2] in Hgame'.
  repeat case_match; inversion Hgame'; reflexivity.
Qed.

(** X7. An accepted move: the mover's piece lands in the lowest empty row
    of the column, the log grows by this one move, and the session is
    finished with the mover as winner if [CheckWin] reports a win,
    finished as a draw if the board is full, and otherwise stays active
    with the turn passed to the other side (the token "bot" when that
    side is the bot). *)
Theorem Manager_MakeMove_success (fuel : nat) (now : nat → Z) (m m' : Manager)
    (gameID : string) (column : Z) (conn : Conn) (r : GameMoveResult) :
  (∀ g, games m !! gameID = Some g → wf_board (Game_Board g)) →
  Manager_MakeMove fuel now m gameID column conn = Ok (m', r) →
  GameMoveResult_Success r = true →
  ∃ (game game' : Game) (row : Z) (w : WinResult) (full : bool),
    games m !! gameID = Some game ∧
    games m' = <[gameID := game']> (games m) ∧
    reconnectWindows m' = reconnectWindows m ∧
    GameMoveResult_Game r = Some game' ∧
    cellAt (Game_Board game) row column = Ok None ∧
    (∀ below, row < below < ROWS → occupied (Game_Board game) below column) ∧
    (∀ r0 c0, cellAt (Game_Board game') r0 c0 =
       if decide (r0 = row ∧ c0 = column) then Ok (Some (Game_CurrentPlayer game))
       else cellAt (Game_Board game) r0 c0) ∧
    Game_Moves game' =
      Game_Moves game ++ [mkMove (Game_CurrentPlayer game) column row (now 0%nat)] ∧
    Game_Player1 game' = Game_Player1 game ∧ Game_Player2 game' = Game_Player2 game ∧
    CheckWin fuel (Game_Board game') row column = Ok w ∧
    IsBoardFull (Game_Board game') = Ok full ∧
    (WinResult_Won w = true →
       Game_Status game' = "finished" ∧ Game_Winner game' = Game_CurrentPlayer game ∧
       Game_EndedAt game' = Some (now 2%nat)) ∧
    (WinResult_Won w = false → full = true →
       Game_Status game' = "finished" ∧ Game_Winner game' = "draw" ∧
       Game_EndedAt game' = Some (now 2%nat)) ∧
    (WinResult_Won w = false → full = false →
       Game_Status game' = "active" ∧ Game_Winner game' = Game_Winner game ∧
       Game_EndedAt game' = Game_EndedAt game ∧
       Game_CurrentPlayer game' = nextTurn game).
Proof.
  intros Hwf Hrun Hsucc.
  destruct (Manager_MakeMove_accepts fuel now m m' gameID column conn r
              Hwf Hrun Hsucc)
    as (game & board' & row & w & full & Hgame & Hactive & _ & _ & Hdrop & Hw &
        Hfull & Hm' & Hr).
  cbn zeta in Hm', Hr.
  destruct (MakeMove_spec (Game_Board game) column (Some (Game_CurrentPlayer game))
              (Hwf game Hgame)) as (b & mr & Hrun' & Hcases).
  rewrite Hdrop in Hrun'. inversion Hrun'; subst b mr. clear Hrun'.
  destruct Hcases as [(_ & Hmr & _)|[(_ & Hmr & _)|(_ & _ & _ & Hempty & Hset & Hbelow)]];
    try discriminate.
  cbn [MoveResult_Row] in *.
  eexists game, _, row, w, full. split; [done|].
  split; [by rewrite Hm'|]. split; [by rewrite Hm'|]. split; [by rewrite Hr|].
  cbn [Game_Board Game_Moves Game_Player1 Game_Player2 Game_Status Game_Winner
       Game_EndedAt Game_CurrentPlayer].
  split_and!; try done.
  - intros r0 c0. by eapply cellAt_setCell.
  - by intros ->.
  - by intros -> ->.
  - by intros -> ->.
Qed.

(** ** Moves of the bot *)

(** What [BotMakeMove] returns, case by case. *)
Lemma BotMakeMove_cases (fuel : nat) (now : nat → Z) (m : Manager)
    (gameID : string) (column : Z) :
  (∀ g, games m !! gameID = Some g → wf_board (Game_Board g)) →
  (7 ≤ fuel)%nat →
  (BotMakeMove fuel now m gameID column = Ok (m, mkGameMoveResult false "" None) ∧
   ∀ game, games m !! gameID = Some game → Game_Status game = "active" →
     Game_CurrentPlayer game = "bot" → 0 ≤ column < COLS →
     ∀ row, 0 ≤ row < ROWS → occupied (Game_Board game) row column) ∨
  (∃ (game : Game) (board' : Board) (row : Z) (w : WinResult) (full : bool),
     games m !! gameID = Some game ∧ Game_Status game = "active" ∧
     Game_CurrentPlayer game = "bot" ∧
     MakeMove (Game_Board game) column (Some "bot")
       = Ok (board', mkMoveResult true "" row) ∧
     CheckWin fuel board' row column = Ok w ∧
     IsBoardFull board' = Ok full ∧
     let over := WinResult_Won w || full in
     let game' :=
       mkGame (Game_ID game) (Game_Player1 game) (Game_Player2 game) board'
         (if over then "bot" else Player_ID (Game_Player1 game))
         (if over then "finished" else Game_Status game)
         (if WinResult_Won w then "bot"
          else if full then "draw" else Game_Winner game)
         (Game_Moves game ++ [mkMove "bot" column row (now 0%nat)])
         (Game_StartedAt game)
         (if over then Some (now 2%nat) else Game_EndedAt game)
         (now 1%nat) in
     BotMakeMove fuel now m gameID column
       = Ok (store m gameID game', mkGameMoveResult true "" (Some game'))).
Proof.
  intros Hwf Hfuel. unfold BotMakeMove.
  destruct (games m !! gameID) as [game|] eqn:Hgame.
  2:{ left. split; [done|]. intros g Hg. discriminate. }
  specialize (Hwf game eq_refl).
  destruct (decide (Game_Status game ≠ "active")) as [Hstatus|Hstatus].
  { left. split; [done|]. intros g Hg. inversion Hg; subst. done. }
  apply dec_stable in Hstatus.
  destruct (decide (Game_CurrentPlayer game ≠ "bot")) as [Hturn|Hturn].
  { left. split; [done|]. intros g Hg. inversion Hg; subst. done. }
  apply dec_stable in Hturn.
  destruct (MakeMove_spec (Game_Board game) column (Some "bot") Hwf)
    as (board' & mr & Hdrop & Hcases).
  rewrite Hdrop. cbn [mbind res_bind].
  destruct Hcases as [(Hout & -> & ->)|[(Hin & -> & -> & Hfull)|(Hin & Hmr & Hrow & Hempty & Hset & _)]].
  - left. cbn [MoveResult_Success negb].
    rewrite set_Board_same, (store_same m gameID game Hgame). split; [done|].
    intros g Hg _ _ Hcol. tauto.
  - left. cbn [MoveResult_Success negb].
    rewrite set_Board_same, (store_same m gameID game Hgame). split; [done|].
    intros g Hg _ _ _. inversion Hg; subst. done.
  - right. assert (MoveResult_Success mr = true) as Hok by (by rewrite Hmr).
    rewrite Hok. cbn [negb].
    assert (wf_board board') as Hwf' by (by eapply setCell_wf).
    cbn [Game_Board set_Board set_Moves set_LastMoveAt].
    destruct (CheckWin_spec fuel board' (MoveResult_Row mr) column Hwf' Hrow Hin Hfuel)
      as (w & Hw & _).
    destruct (IsBoardFull_total board' Hwf') as [full Hfull].
    exists game, board', (MoveResult_Row mr), w, full.
    rewrite <- Hmr. split_and!; try done.
    cbn zeta. rewrite Hw. cbn [mbind res_bind].
    clear Hgame Hwf Hdrop Hempty Hset.
    destruct game as [gid p1 p2 gb cp st wn mvs t0 te tl].
    cbn in Hstatus, Hturn. subst cp st.
    destruct (WinResult_Won w); cbn [orb mbind res_bind]; [reflexivity|].
    rewrite Hfull. cbn [mbind res_bind]. by destruct full.
Qed.

(** X8. [BotMakeMove] returns on a session with a 6 x 7 board, never with a
    message.  It succeeds exactly when the session is in the map,
    active, the turn token is "bot" and the column is in range with an
    empty cell; a refusal leaves the manager as it was.  An accepted
    move puts a "bot" piece in the column, logs it, and ends the
    session with winner "bot" on a win, with "draw" on a full board, and
    otherwise hands the turn to the first participant. *)
Theorem BotMakeMove_outcome (fuel : nat) (now : nat → Z) (m : Manager)
    (gameID : string) (column : Z) :
  (∀ g, games m !! gameID = Some g → wf_board (Game_Board g)) →
  (7 ≤ fuel)%nat →
  ∃ m' r, BotMakeMove fuel now m gameID column = Ok (m', r) ∧
    GameMoveResult_Message r = "" ∧
    (GameMoveResult_Success r = true ↔
       ∃ game row, games m !! gameID = Some game ∧ Game_Status game = "active" ∧
         Game_CurrentPlayer game = "bot" ∧ 0 ≤ column < COLS ∧
         0 ≤ row < ROWS ∧ cellAt (Game_Board game) row column = Ok None) ∧
    (GameMoveResult_Success r = false → m' = m ∧ GameMoveResult_Game r = None) ∧
    (GameMoveResult_Success r = true →
       ∃ game game' row,
         games m !! gameID = Some game ∧
         games m' = <[gameID := game']> (games m) ∧
         GameMoveResult_Game r = Some game' ∧
         cellAt (Game_Board game') row column = Ok (Some "bot") ∧
         Game_Moves game' = Game_Moves game ++ [mkMove "bot" column row (now 0%nat)] ∧
         (Game_Status game' = "finished" ∧
          (Game_Winner game' = "bot" ∨ Game_Winner game' = "draw") ∧
          Game_EndedAt game' = Some (now 2%nat) ∨
          Game_Status game' = "active" ∧
          Game_CurrentPlayer game' = Player_ID (Game_Player1 game))).
Proof.
  intros Hwf Hfuel.
  destruct (BotMakeMove_cases fuel now m gameID column Hwf Hfuel)
    as [[Hrun Hwhy]|(game & board' & row & w & full & Hgame & Hactive & Hturn &
                      Hdrop & Hw & Hfull & Hrun)].
  - eexists _, _. split; [exact Hrun|]. cbn. split; [done|]. split_and!.
    + split; [discriminate|].
      intros (game & row & Hgame & Hactive & Hturn & Hcol & Hrow & Hempty).
      destruct (Hwhy game Hgame Hactive Hturn Hcol row Hrow) as [s Hs]. congruence.
    + done.
    + discriminate.
  - cbn zeta in Hrun. eexists _, _. split; [exact Hrun|]. cbn. split; [done|].
    destruct (MakeMove_success _ _ _ _ _ (Hwf game Hgame) Hdrop eq_refl)
      as (_ & Hcol & Hrow & Hempty & Hset & _).
    cbn [MoveResult_Row] in *.
    split_and!.
    + split; [intros _|done]. exists game, row. done.
    + discriminate.
    + intros _. eexists game, _, row. split; [done|]. split; [done|]. split; [done|].
      cbn. split_and!.
      * rewrite (cellAt_setCell _ _ _ _ row column _ Hset).
        by rewrite decide_True.
      * done.
      * destruct (WinResult_Won w), full; cbn; rewrite ?Hactive; auto.
Qed.

(** ** Invariants of the sessions of a manager *)

Lemma drops_app (board : Board) (ms1 ms2 : list (Z * Cell)) :
  drops board (ms1 ++ ms2) = drops board ms1 ≫= λ board', drops board' ms2.
Proof.
  revert board. induction ms1 as [|[column playerID] rest IH]; intros board; [done|].
  simpl. destruct (MakeMove board column playerID) as [[b mr]| |]; simpl; [|done|done].
  apply IH.
Qed.

Lemma Manager_MakeMove_refusal (fuel : nat) (now : nat → Z) (m m' : Manager)
    (gameID : string) (column : Z) (conn : Conn) (r : GameMoveResult) :
  (∀ g, games m !! gameID = Some g → wf_board (Game_Board g)) →
  Manager_MakeMove fuel now m gameID column conn = Ok (m', r) →
  GameMoveResult_Success r = false → m' = m.
Proof.
  intros Hwf Hrun Hfail. unfold Manager_MakeMove in Hrun.
  destruct (games m !! gameID) as [game|] eqn:Hgame; [|by inversion Hrun].
  specialize (Hwf game eq_refl).
  destruct (decide (Game_Status game ≠ "active")); [by inversion Hrun|].
  destruct (Player_IsBot _); [by inversion Hrun|].
  destruct (decide (Player_Conn _ ≠ conn)); [by inversion Hrun|].
  destruct (_ || _); [by inversion Hrun|].
  apply bind_Ok in Hrun as ([board' mr] & Hdrop & Hrun).
  destruct (MoveResult_Success mr) eqn:Hok; cbn [negb] in Hrun.
  - apply bind_Ok in Hrun as (w & _ & Hrun).
    apply bind_Ok in Hrun as (g' & _ & Hrun).
    inversion Hrun; subst. discriminate.
  - inversion Hrun; subst.
    destruct (MakeMove_failure _ _ _ _ _ Hwf Hdrop Hok) as [-> _].
    rewrite set_Board_same. by apply store_same.
Qed.

(** The session after an accepted drop of [side] keeps the invariants
    when its other fields are set as the two move operations set them. *)
Lemma session_ok_after_drop (game : Game) (board' : Board) (column row t1 t2 : Z)
    (side turn status winner : string) (endedAt : option Z) :
  wf_board (Game_Board game) → session_ok game →
  MakeMove (Game_Board game) column (Some side)
    = Ok (board', mkMoveResult true "" row) →
  let game' :=
    mkGame (Game_ID game) (Game_Player1 game) (Game_Player2 game) board'
      turn status winner (Game_Moves game ++ [mkMove side column row t1])
      (Game_StartedAt game) endedAt t2 in
  turn_ok game' → lifecycle_ok game' → session_ok game'.
Proof.
  intros Hwf (_ & _ & Hreplay & Hcells) Hdrop game' Hturn Hlife.
  split; [done|]. split; [done|].
  destruct (MakeMove_success _ _ _ _ _ Hwf Hdrop eq_refl)
    as (_ & _ & _ & Hempty & Hset & _).
  cbn [MoveResult_Row] in *.
  split.
  - unfold logDrops, game'. cbn [Game_Moves Game_Board].
    rewrite fmap_app, drops_app. fold (logDrops game). rewrite Hreplay.
    cbn [mbind res_bind fmap list_fmap drops Move_Column Move_Player].
    rewrite Hdrop. done.
  - intros mv Hmv. unfold game' in *. cbn [Game_Moves Game_Board] in *.
    rewrite (cellAt_setCell _ _ _ _ _ _ _ Hset).
    apply elem_of_app in Hmv as [Hmv|Hmv].
    + case_decide as Hsame; [|by apply Hcells].
      destruct Hsame as [Hr Hc]. specialize (Hcells mv Hmv).
      rewrite Hr, Hc in Hcells. congruence.
    + apply list_elem_of_singleton in Hmv as ->. cbn. by rewrite decide_True.
Qed.

Lemma store_ok (m : Manager) (gameID : string) (g : Game) :
  manager_ok m → session_ok g → manager_ok (store m gameID g).
Proof.
  intros Hm Hg id g' H. simpl in H.
  destruct (decide (gameID = id)) as [->|Hne].
  - rewrite lookup_insert_eq in H. by inversion H; subst.
  - rewrite lookup_insert_ne in H by done. by eapply Hm.
Qed.

Lemma Manager_MakeMove_ok (fuel : nat) (now : nat → Z) (m m' : Manager)
    (gameID : string) (column : Z) (conn : Conn) (r : GameMoveResult) :
  wf_manager m → manager_ok m →
  Manager_MakeMove fuel now m gameID column conn = Ok (m', r) → manager_ok m'.
Proof.
  intros Hwf Hm Hrun.
  assert (∀ g, games m !! gameID = Some g → wf_board (Game_Board g)) as Hwf'
    by (intros; by eapply Hwf).
  destruct (GameMoveResult_Success r) eqn:Hsucc.
  2:{ by rewrite (Manager_MakeMove_refusal _ _ _ _ _ _ _ _ Hwf' Hrun Hsucc). }
  destruct (Manager_MakeMove_accepts _ _ _ _ _ _ _ _ Hwf' Hrun Hsucc)
    as (game & board' & row & w & full & Hgame & Hactive & _ & _ & Hdrop & _ & _ &
        Hm' & _).
  cbn zeta in Hm'. rewrite Hm'. apply store_ok; [done|].
  pose proof (Hm _ _ Hgame) as Hok. pose proof Hok as (Hturn & Hlife & _).
  apply (session_ok_after_drop game board' column row); try done.
  - by eapply Hwf.
  - unfold turn_ok, nextTurn in *. cbn.
    destruct (WinResult_Won w || full); [done|].
    repeat case_match; auto.
  - unfold lifecycle_ok in *. cbn.
    destruct Hlife as [(_ & Hend & Hwin)|(Hfin & _)]; [|congruence].
    destruct (WinResult_Won w); cbn [orb].
    + right. split; [done|]. split; [done|]. unfold turn_ok in Hturn.
      destruct Hturn as [->|[->|[_ ->]]]; auto.
    + destruct full.
      * right. split; [done|]. split; [done|]. auto.
      * left. done.
Qed.

Lemma BotMakeMove_ok (fuel : nat) (now : nat → Z) (m m' : Manager)
    (gameID : string) (column : Z) (r : GameMoveResult) :
  wf_manager m → manager_ok m → (7 ≤ fuel)%nat →
  BotMakeMove fuel now m gameID column = Ok (m', r) → manager_ok m'.
Proof.
  intros Hwf Hm Hfuel Hrun.
  assert (∀ g, games m !! gameID = Some g → wf_board (Game_Board g)) as Hwf'
    by (intros; by eapply Hwf).
  destruct (BotMakeMove_cases fuel now m gameID column Hwf' Hfuel)
    as [[Hrun' _]|(game & board' & row & w & full & Hgame & Hactive & Hbot &
                    Hdrop & _ & _ & Hrun')].
  { rewrite Hrun in Hrun'. by inversion Hrun'; subst. }
  cbn zeta in Hrun'. rewrite Hrun in Hrun'. inversion Hrun'; subst m' r.
  apply store_ok; [done|].
  pose proof (Hm _ _ Hgame) as Hok. pose proof Hok as (Hturn & Hlife & _).
  apply (session_ok_after_drop game board' column row); try done.
  - by eapply Hwf.
  - unfold turn_ok in *. cbn. rewrite Hbot in Hturn.
    destruct (WinResult_Won w || full); [|auto]. done.
  - unfold lifecycle_ok in *. cbn.
    destruct Hlife as [(_ & Hend & Hwin)|(Hfin & _)]; [|congruence].
    destruct (WinResult_Won w); cbn [orb].
    + right. split; [done|]. split; [done|]. auto.
    + destruct full.
      * right. split; [done|]. split; [done|]. auto.
      * left. done.
Qed.

Lemma ForfeitGame_ok (now : nat → Z) (m : Manager) (gameID playerID : string) :
  manager_ok m → manager_ok (ForfeitGame now m gameID playerID).1.
Proof.
  intros Hm. unfold ForfeitGame.
  destruct (games m !! gameID) as [game|]; [|done].
  destruct (decide (Game_Status game ≠ "active")); [done|].
  intros id g H. simpl in H. apply lookup_delete_Some in H as [_ H]. by eapply Hm.
Qed.

Lemma set_Conn_ok_1 (g : Game) (conn : Conn) :
  session_ok g → session_ok (set_Player1 g (set_Conn (Game_Player1 g) conn)).
Proof. by destruct g. Qed.

Lemma set_Conn_ok_2 (g : Game) (conn : Conn) :
  session_ok g → session_ok (set_Player2 g (set_Conn (Game_Player2 g) conn)).
Proof. by destruct g. Qed.

Lemma RejoinGame_ok (now : nat → Z) (m : Manager) (conn : Conn)
    (username gameID : string) :
  manager_ok m → manager_ok (RejoinGame now m conn username gameID).1.
Proof.
  intros Hm. unfold RejoinGame.
  destruct (games m !! gameID) as [game|] eqn:Hgame; [|done].
  destruct (reconnectWindows m !! gameID) as [w|]; [|done].
  pose proof (Hm _ _ Hgame) as Hok.
  destruct (decide (_ < _)).
  - pose proof (ForfeitGame_ok (λ k, now (S k))
                  (mkManager (games m) (delete gameID (reconnectWindows m)))
                  gameID (ReconnectWindow_PlayerID w) Hm) as H.
    by destruct (ForfeitGame _ _ _ _).
  - repeat case_decide; try done;
      apply (store_ok (mkManager (games m) (delete gameID (reconnectWindows m))));
      try done; first [by apply set_Conn_ok_1|by apply set_Conn_ok_2].
Qed.

Lemma applyManagerOp_ok (fuel : nat) (now : nat → Z) (m m' : Manager)
    (op : ManagerOp) :
  wf_manager m → manager_ok m → (7 ≤ fuel)%nat →
  applyManagerOp fuel now m op = Ok m' → manager_ok m'.
Proof.
  intros Hwf Hm Hfuel Hop. destruct op; simpl in Hop.
  - apply fmap_Ok in Hop as ([m1 r] & Hrun & ->). by eapply Manager_MakeMove_ok.
  - apply fmap_Ok in Hop as ([m1 r] & Hrun & ->). by eapply BotMakeMove_ok.
  - inversion Hop; subst. by apply RejoinGame_ok.
  - inversion Hop; subst. done.
  - inversion Hop; subst. unfold forfeitTimer.
    destruct (reconnectWindows m !! gameID); [|done]. by apply ForfeitGame_ok.
  - inversion Hop; subst. by apply ForfeitGame_ok.
Qed.

Lemma CreateGame_ok (now : nat → Z) (gameID : string) (m : Manager)
    (player1 player2 : Player) :
  manager_ok m → manager_ok (CreateGame now gameID m player1 player2).1.
Proof.
  intros Hm. apply store_ok; [done|]. split_and!.
  - by left.
  - by left.
  - split; [reflexivity|]. intros mv Hmv. by apply elem_of_nil in Hmv.
Qed.

Lemma reachable_ok (fuel : nat) (m : Manager) :
  (7 ≤ fuel)%nat → reachable fuel m → wf_manager m ∧ manager_ok m.
Proof.
  intros Hfuel. induction 1 as [|now gameID m p1 p2 _ [Hwf Hok]|now m m' op _ [Hwf Hok] Hop].
  - split; [apply NewManager_wf|]. intros id g H. simpl in H.
    by rewrite lookup_empty in H.
  - split; [by apply CreateGame_wf|by apply CreateGame_ok].
  - split; [by eapply applyManagerOp_wf|by eapply applyManagerOp_ok].
Qed.

(** X9. In every state of the manager the turn token of a session names one
    of its two participants, or is "bot" in a session against the bot. *)
Theorem reachable_turn (fuel : nat) (m : Manager) (id : string) (g : Game) :
  (7 ≤ fuel)%nat → reachable fuel m → games m !! id = Some g →
  Game_CurrentPlayer g = Player_ID (Game_Player1 g) ∨
  Game_CurrentPlayer g = Player_ID (Game_Player2 g) ∨
  (Player_IsBot (Game_Player2 g) = true ∧ Game_CurrentPlayer g = "bot").
Proof.
  intros Hfuel Hreach Hg. destruct (reachable_ok fuel m Hfuel Hreach) as [_ Hok].
  by destruct (Hok id g Hg) as (Hturn & _).
Qed.

(** X10. In every state of the manager a session is active with no end time
    and an empty winner, or finished with an end time and the winner one
    of its participants, "bot" or "draw". *)
Theorem reachable_lifecycle (fuel : nat) (m : Manager) (id : string) (g : Game) :
  (7 ≤ fuel)%nat → reachable fuel m → games m !! id = Some g →
  (Game_Status g = "active" ∧ Game_EndedAt g = None ∧ Game_Winner g = "") ∨
  (Game_Status g = "finished" ∧ Game_EndedAt g ≠ None ∧
   (Game_Winner g = Player_ID (Game_Player1 g) ∨
    Game_Winner g = Player_ID (Game_Player2 g) ∨
    Game_Winner g = "bot" ∨ Game_Winner g = "draw")).
Proof.
  intros Hfuel Hreach Hg. destruct (reachable_ok fuel m Hfuel Hreach) as [_ Hok].
  by destruct (Hok id g Hg) as (_ & Hlife & _).
Qed.

(** X11. In every state of the manager the move log of a session replays,
    drop by drop from the empty board, to the board of the session, and
    each logged move names the cell that holds its piece. *)
Theorem reachable_log_replays (fuel : nat) (m : Manager) (id : string) (g : Game) :
  (7 ≤ fuel)%nat → reachable fuel m → games m !! id = Some g →
  drops CreateBoard
    ((λ mv, (Move_Column mv, Some (Move_Player mv))) <$> Game_Moves g)
    = Ok (Game_Board g) ∧
  ∀ mv, mv ∈ Game_Moves g →
    cellAt (Game_Board g) (Move_Row mv) (Move_Column mv) = Ok (Some (Move_Player mv)).
Proof.
  intros Hfuel Hreach Hg. destruct (reachable_ok fuel m Hfuel Hreach) as [_ Hok].
  by destruct (Hok id g Hg) as (_ & _ & Hlog).
Qed.

(** X12. In every state of the manager the board of a session is 6 x 7 and
    satisfies gravity. *)
Theorem reachable_board_gravity (fuel : nat) (m : Manager) (id : string) (g : Game) :
  (7 ≤ fuel)%nat → reachable fuel m → games m !! id = Some g →
  wf_board (Game_Board g) ∧ gravity (Game_Board g).
Proof.
  intros Hfuel Hreach Hg. destruct (reachable_ok fuel m Hfuel Hreach) as [Hwf Hok].
  split; [by eapply Hwf|].
  destruct (Hok id g Hg) as (_ & _ & Hreplay & _).
  destruct (drops_keep_gravity (logDrops g) CreateBoard CreateBoard_wf CreateBoard_gravity)
    as (b & Hb & _ & Hgrav).
  rewrite Hreplay in Hb. by inversion Hb; subst.
Qed.

(** ** Disconnection, forfeit and return *)

Lemma ForfeitGame_active (now : nat → Z) (m : Manager) (gameID playerID : string)
    (g : Game) :
  games m !! gameID = Some g → Game_Status g = "active" →
  ForfeitGame now m gameID playerID =
    (mkManager (delete gameID (games m)) (delete gameID (reconnectWindows m)),
     Some (mkGame (Game_ID g) (Game_Player1 g) (Game_Player2 g) (Game_Board g)
             (Game_CurrentPlayer g) "finished" (forfeitWinner g playerID)
             (Game_Moves g) (Game_StartedAt g) (Some (now 0%nat))
             (Game_LastMoveAt g))).
Proof.
  intros Hg Hactive. unfold ForfeitGame, forfeitWinner. rewrite Hg.
  rewrite decide_False by (intros H; by apply H).
  do 2 f_equal. cbn. by repeat case_match.
Qed.

Lemma ForfeitGame_inactive (now : nat → Z) (m : Manager) (gameID playerID : string) :
  games m !! gameID = None ∨
  (∃ g, games m !! gameID = Some g ∧ Game_Status g ≠ "active") →
  ForfeitGame now m gameID playerID = (m, None).
Proof.
  intros [Hnone|(g & Hg & Hst)]; unfold ForfeitGame.
  - by rewrite Hnone.
  - rewrite Hg. by rewrite decide_True.
Qed.

(** X13. A forfeit of an active session ends it at the clock of the call,
    with the first participant as winner unless it is the first
    participant who forfeits (then the second one wins, as "bot" if it
    is the bot); board, log and participants stay; session and window
    leave the maps, so that a second forfeit finds nothing.  A forfeit
    of a missing or finished session does nothing. *)
Theorem ForfeitGame_outcome (now now' : nat → Z) (m : Manager)
    (gameID playerID playerID' : string) :
  (∀ g, games m !! gameID = Some g → Game_Status g = "active" →
     ∃ g', ForfeitGame now m gameID playerID
             = (mkManager (delete gameID (games m))
                          (delete gameID (reconnectWindows m)), Some g') ∧
       Game_Status g' = "finished" ∧ Game_EndedAt g' = Some (now 0%nat) ∧
       Game_Winner g' =
         (if decide (Player_ID (Game_Player1 g) = playerID) then
            if Player_IsBot (Game_Player2 g) then "bot"
            else Player_ID (Game_Player2 g)
          else Player_ID (Game_Player1 g)) ∧
       Game_Board g' = Game_Board g ∧ Game_Moves g' = Game_Moves g ∧
       Game_Player1 g' = Game_Player1 g ∧ Game_Player2 g' = Game_Player2 g ∧
       ForfeitGame now' (ForfeitGame now m gameID playerID).1 gameID playerID'
         = ((ForfeitGame now m gameID playerID).1, None)) ∧
  ((games m !! gameID = None ∨
    ∃ g, games m !! gameID = Some g ∧ Game_Status g ≠ "active") →
     ForfeitGame now m gameID playerID = (m, None)).
Proof.
  split.
  - intros g Hg Hactive. rewrite (ForfeitGame_active now m gameID playerID g Hg Hactive).
    eexists. split; [done|]. cbn. split_and!; try done.
    apply ForfeitGame_inactive. left. cbn. apply lookup_delete_eq.
  - apply ForfeitGame_inactive.
Qed.

Lemma HandleDisconnect_window (now : string → Z) (m : Manager) (conn : Conn)
    (id : string) :
  reconnectWindows (HandleDisconnect now m conn).1 !! id =
    match games m !! id ≫= disconnectedPlayer conn with
    | Some p => Some (mkReconnectWindow (Player_ID p) (now id + 30 * Second))
    | None => reconnectWindows m !! id
    end.
Proof.
  unfold HandleDisconnect. cbn [fst reconnectWindows].
  rewrite lookup_union, map_lookup_imap.
  destruct (games m !! id) as [g|]; cbn.
  - destruct (disconnectedPlayer conn g); cbn.
    + by destruct (reconnectWindows m !! id).
    + by destruct (reconnectWindows m !! id).
  - by destruct (reconnectWindows m !! id).
Qed.

Lemma HandleDisconnect_timers (now : string → Z) (m : Manager) (conn : Conn)
    (id pid : string) :
  (id, pid) ∈ (HandleDisconnect now m conn).2 ↔
  ∃ g p, games m !! id = Some g ∧ disconnectedPlayer conn g = Some p ∧
         pid = Player_ID p.
Proof.
  unfold HandleDisconnect. cbn [snd]. rewrite list_elem_of_fmap. split.
  - intros ([id' w] & Heq & Hin). cbn in Heq. inversion Heq; subst.
    apply elem_of_map_to_list in Hin. rewrite map_lookup_imap in Hin.
    destruct (games m !! id') as [g|]; cbn in Hin; [|done].
    destruct (disconnectedPlayer conn g) as [p|] eqn:Hp; cbn in Hin; [|done].
    inversion Hin; subst. by exists g, p.
  - intros (g & p & Hg & Hp & ->).
    exists (id, mkReconnectWindow (Player_ID p) (now id + 30 * Second)).
    split; [done|]. apply elem_of_map_to_list. rewrite map_lookup_imap, Hg. cbn.
    by rewrite Hp.
Qed.

(** X14. A lost connection opens a window of 30 seconds in, and arms a
    forfeit timer for, exactly the active sessions in which it is the
    connection of the first participant or of a second participant that
    is not the bot; the games themselves are not touched and the other
    windows stay. *)
Theorem HandleDisconnect_opens_windows (now : string → Z) (m : Manager) (conn : Conn) :
  games (HandleDisconnect now m conn).1 = games m ∧
  ∀ id : string,
    (∀ g, games m !! id = Some g → Game_Status g = "active" →
       (Player_Conn (Game_Player1 g) = conn →
          reconnectWindows (HandleDisconnect now m conn).1 !! id
            = Some (mkReconnectWindow (Player_ID (Game_Player1 g))
                                      (now id + 30 * Second)) ∧
          (id, Player_ID (Game_Player1 g)) ∈ (HandleDisconnect now m conn).2) ∧
       (Player_Conn (Game_Player1 g) ≠ conn →
        Player_Conn (Game_Player2 g) = conn →
        Player_IsBot (Game_Player2 g) = false →
          reconnectWindows (HandleDisconnect now m conn).1 !! id
            = Some (mkReconnectWindow (Player_ID (Game_Player2 g))
                                      (now id + 30 * Second)) ∧
          (id, Player_ID (Game_Player2 g)) ∈ (HandleDisconnect now m conn).2)) ∧
    ((games m !! id = None ∨
      ∃ g, games m !! id = Some g ∧
        (Game_Status g ≠ "active" ∨
         Player_Conn (Game_Player1 g) ≠ conn ∧
         (Player_Conn (Game_Player2 g) ≠ conn ∨
          Player_IsBot (Game_Player2 g) = true))) →
       reconnectWindows (HandleDisconnect now m conn).1 !! id
         = reconnectWindows m !! id ∧
       ∀ pid, (id, pid) ∉ (HandleDisconnect now m conn).2).
Proof.
  split; [done|]. intros id. split.
  - intros g Hg Hactive. split.
    + intros Hc1. rewrite HandleDisconnect_window, HandleDisconnect_timers, Hg. cbn.
      unfold disconnectedPlayer.
      rewrite decide_False by (intros H; by apply H). rewrite decide_True by done.
      split; [done|]. exists g, (Game_Player1 g). split; [done|]. split; [|done].
      rewrite decide_False by (intros H; by apply H). by rewrite decide_True.
    + intros Hc1 Hc2 Hbot.
      rewrite HandleDisconnect_window, HandleDisconnect_timers, Hg. cbn.
      unfold disconnectedPlayer.
      rewrite decide_False by (intros H; by apply H). rewrite decide_False by done.
      rewrite decide_True by done. rewrite Hbot.
      split; [done|]. exists g, (Game_Player2 g). split; [done|]. split; [|done].
      rewrite decide_False by (intros H; by apply H). rewrite decide_False by done.
      rewrite decide_True by done. by rewrite Hbot.
  - intros Hno.
    assert (games m !! id ≫= disconnectedPlayer conn = None) as Hnone.
    { destruct Hno as [->|(g & -> & Hwhy)]; [done|]. cbn. unfold disconnectedPlayer.
      destruct Hwhy as [Hst|[Hc1 [Hc2|Hbot]]].
      - by rewrite decide_True.
      - by repeat case_decide.
      - repeat case_decide; try done. by rewrite Hbot. }
    split.
    + by rewrite HandleDisconnect_window, Hnone.
    + intros pid Hin. apply HandleDisconnect_timers in Hin as (g & p & Hg & Hp & _).
      rewrite Hg in Hnone. cbn in Hnone. congruence.
Qed.

Lemma Manager_MakeMove_keeps_session (fuel : nat) (now : nat → Z) (m m' : Manager)
    (gameID : string) (column : Z) (conn : Conn) (r : GameMoveResult) :
  Manager_MakeMove fuel now m gameID column conn = Ok (m', r) →
  reconnectWindows m' = reconnectWindows m ∧
  ∀ id g, games m !! id = Some g →
    ∃ g', games m' !! id = Some g' ∧
          Game_Player1 g' = Game_Player1 g ∧ Game_Player2 g' = Game_Player2 g.
Proof.
  intros Hrun. unfold Manager_MakeMove in Hrun.
  assert (∀ id g, games m !! id = Some g →
            ∃ g', games m !! id = Some g' ∧
                  Game_Player1 g' = Game_Player1 g ∧ Game_Player2 g' = Game_Player2 g)
    as Hsame by (intros id g Hg; by exists g).
  destruct (games m !! gameID) as [game|] eqn:Hgame; [|by inversion Hrun; subst].
  destruct (decide (Game_Status game ≠ "active")); [by inversion Hrun; subst|].
  destruct (Player_IsBot _); [by inversion Hrun; subst|].
  destruct (decide (Player_Conn _ ≠ conn)); [by inversion Hrun; subst|].
  destruct (_ || _); [by inversion Hrun; subst|].
  apply bind_Ok in Hrun as ([board mr] & _ & Hrun).
  assert (∀ game', Game_Player1 game' = Game_Player1 game →
            Game_Player2 game' = Game_Player2 game →
            ∀ id g, games m !! id = Some g →
              ∃ g', games (store m gameID game') !! id = Some g' ∧
                    Game_Player1 g' = Game_Player1 g ∧
                    Game_Player2 g' = Game_Player2 g) as Hstore.
  { intros game' H1 H2 id g Hg. cbn. destruct (decide (id = gameID)) as [->|Hne].
    - rewrite lookup_insert_eq. exists game'. rewrite Hgame in Hg.
      inversion Hg; subst. done.
    - rewrite lookup_insert_ne by done. by exists g. }
  destruct (negb _).
  { inversion Hrun; subst. split; [done|]. by apply Hstore. }
  apply bind_Ok in Hrun as (wres & _ & Hrun).
  apply bind_Ok in Hrun as (gres & Hgres & Hrun).
  inversion Hrun; subst. split; [done|].
  destruct (WinResult_Won wres).
  { inversion Hgres; subst. by apply Hstore. }
  apply bind_Ok in Hgres as (full & _ & Hgres).
  destruct full; [inversion Hgres; subst; by apply Hstore|].
  cbn in Hgres. repeat case_match; inversion Hgres; subst; by apply Hstore.
Qed.

Lemma BotMakeMove_keeps_session (fuel : nat) (now : nat → Z) (m m' : Manager)
    (gameID : string) (column : Z) (r : GameMoveResult) :
  BotMakeMove fuel now m gameID column = Ok (m', r) →
  reconnectWindows m' = reconnectWindows m ∧
  ∀ id g, games m !! id = Some g →
    ∃ g', games m' !! id = Some g' ∧
          Game_Player1 g' = Game_Player1 g ∧ Game_Player2 g' = Game_Player2 g.
Proof.
  intros Hrun. unfold BotMakeMove in Hrun.
  assert (∀ id g, games m !! id = Some g →
            ∃ g', games m !! id = Some g' ∧
                  Game_Player1 g' = Game_Player1 g ∧ Game_Player2 g' = Game_Player2 g)
    as Hsame by (intros id g Hg; by exists g).
  destruct (games m !! gameID) as [game|] eqn:Hgame; [|by inversion Hrun; subst].
  destruct (decide (Game_Status game ≠ "active")); [by inversion Hrun; subst|].
  destruct (decide (Game_CurrentPlayer game ≠ "bot")); [by inversion Hrun; subst|].
  apply bind_Ok in Hrun as ([board mr] & _ & Hrun).
  assert (∀ game', Game_Player1 game' = Game_Player1 game →
            Game_Player2 game' = Game_Player2 game →
            ∀ id g, games m !! id = Some g →
              ∃ g', games (store m gameID game') !! id = Some g' ∧
                    Game_Player1 g' = Game_Player1 g ∧
                    Game_Player2 g' = Game_Player2 g) as Hstore.
  { intros game' H1 H2 id g Hg. cbn. destruct (decide (id = gameID)) as [->|Hne].
    - rewrite lookup_insert_eq. exists game'. rewrite Hgame in Hg.
      inversion Hg; subst. done.
    - rewrite lookup_insert_ne by done. by exists g. }
  destruct (negb _).
  { inversion Hrun; subst. split; [done|]. by apply Hstore. }
  apply bind_Ok in Hrun as (wres & _ & Hrun).
  apply bind_Ok in Hrun as (gres & Hgres & Hrun).
  inversion Hrun; subst. split; [done|].
  destruct (WinResult_Won wres).
  { inversion Hgres; subst. by apply Hstore. }
  apply bind_Ok in Hgres as (full & _ & Hgres).
  destruct full; inversion Hgres; subst; by apply Hstore.
Qed.

Lemma moves_keep_session (fuel : nat) (ops : list ((nat → Z) * ManagerOp))
    (m m' : Manager) :
  Forall (λ o, isMoveOp o.2 = true) ops →
  applyManagerOps fuel m ops = Ok m' →
  reconnectWindows m' = reconnectWindows m ∧
  ∀ id g, games m !! id = Some g →
    ∃ g', games m' !! id = Some g' ∧
          Game_Player1 g' = Game_Player1 g ∧ Game_Player2 g' = Game_Player2 g.
Proof.
  intros Hmoves. revert m. induction Hmoves as [|[now op] ops Hop _ IH]; intros m Hrun.
  - cbn in Hrun. inversion Hrun; subst. split; [done|]. intros id g Hg. by exists g.
  - cbn [applyManagerOps] in Hrun. apply bind_Ok in Hrun as (m1 & Hstep & Hrun).
    destruct (IH m1 Hrun) as [Hwin Hgames].
    assert (reconnectWindows m1 = reconnectWindows m ∧
            ∀ id g, games m !! id = Some g →
              ∃ g', games m1 !! id = Some g' ∧
                    Game_Player1 g' = Game_Player1 g ∧
                    Game_Player2 g' = Game_Player2 g) as [Hwin1 Hgames1].
    { destruct op as [gameID column conn|gameID column| | | | ]; cbn in Hop;
        try discriminate; cbn [applyManagerOp] in Hstep.
      - destruct (Manager_MakeMove fuel now m gameID column conn) as [[m0 r]| |] eqn:Hmv;
          cbn in Hstep; inversion Hstep; subst.
        by eapply Manager_MakeMove_keeps_session.
      - destruct (BotMakeMove fuel now m gameID column) as [[m0 r]| |] eqn:Hmv;
          cbn in Hstep; inversion Hstep; subst.
        by eapply BotMakeMove_keeps_session. }
    split; [by rewrite Hwin|].
    intros id g Hg. destruct (Hgames1 id g Hg) as (g1 & Hg1 & Hp1 & Hp2).
    destruct (Hgames id g1 Hg1) as (g2 & Hg2 & Hq1 & Hq2).
    exists g2. split; [done|]. split; congruence.
Qed.

(** X15. A connection is lost, and then only move requests follow, of
    participants or of the bot, on any games.  The session is still in
    the map with its two participants and the window of the lost one.
    When the forfeit timer fires: if the session is still active it is
    forfeited, that is, it leaves the map with its window, finished at
    the clock of the timer, and the winner is the other participant
    (provided the two identifiers differ when it is the second
    participant who was lost); if a move has finished the session in
    between, the timer does nothing, and session and window stay. *)
Theorem disconnect_then_timer_forfeits (fuel : nat) (now : string → Z)
    (now' : nat → Z) (m m2 : Manager) (conn : Conn) (id : string) (g : Game)
    (p : Player) (ops : list ((nat → Z) * ManagerOp)) :
  games m !! id = Some g → disconnectedPlayer conn g = Some p →
  Forall (λ o, isMoveOp o.2 = true) ops →
  applyManagerOps fuel (HandleDisconnect now m conn).1 ops = Ok m2 →
  (id, Player_ID p) ∈ (HandleDisconnect now m conn).2 ∧
  ∃ g2, games m2 !! id = Some g2 ∧
    Game_Player1 g2 = Game_Player1 g ∧ Game_Player2 g2 = Game_Player2 g ∧
    reconnectWindows m2 !! id
      = Some (mkReconnectWindow (Player_ID p) (now id + 30 * Second)) ∧
    (Game_Status g2 = "active" →
       ∃ g', forfeitTimer now' m2 id (Player_ID p)
               = (mkManager (delete id (games m2)) (delete id (reconnectWindows m2)),
                  Some g') ∧
         Game_Status g' = "finished" ∧ Game_EndedAt g' = Some (now' 0%nat) ∧
         Game_Board g' = Game_Board g2 ∧ Game_Moves g' = Game_Moves g2 ∧
         (p = Game_Player1 g →
            Game_Winner g' = if Player_IsBot (Game_Player2 g) then "bot"
                             else Player_ID (Game_Player2 g)) ∧
         (p ≠ Game_Player1 g →
          Player_ID (Game_Player1 g) ≠ Player_ID (Game_Player2 g) →
            p = Game_Player2 g ∧ Game_Winner g' = Player_ID (Game_Player1 g))) ∧
    (Game_Status g2 ≠ "active" →
       forfeitTimer now' m2 id (Player_ID p) = (m2, None) ∧
       games m2 !! id = Some g2).
Proof.
  intros Hg Hp Hmoves Hrun. split.
  { apply HandleDisconnect_timers. by exists g, p. }
  destruct (moves_keep_session fuel ops _ m2 Hmoves Hrun) as [Hwin Hgames].
  assert (games (HandleDisconnect now m conn).1 !! id = Some g) as Hg1 by done.
  destruct (Hgames id g Hg1) as (g2 & Hg2 & Hp1 & Hp2).
  assert (reconnectWindows m2 !! id
          = Some (mkReconnectWindow (Player_ID p) (now id + 30 * Second))) as Hw.
  { rewrite Hwin, HandleDisconnect_window, Hg. cbn [mbind option_bind].
    by rewrite Hp. }
  exists g2. split; [done|]. split; [done|]. split; [done|]. split; [done|].
  unfold forfeitTimer. rewrite Hw. split.
  - intros Hactive.
    rewrite (ForfeitGame_active now' m2 id (Player_ID p) g2 Hg2 Hactive).
    eexists. split; [done|]. cbn. split; [done|]. split; [done|].
    split; [done|]. split; [done|].
    unfold forfeitWinner. rewrite Hp1, Hp2. split.
    + intros ->. by rewrite decide_True.
    + intros Hne Hids. unfold disconnectedPlayer in Hp.
      destruct (decide (Game_Status g ≠ "active")); [done|].
      destruct (decide (Player_Conn (Game_Player1 g) = conn)); [congruence|].
      destruct (decide (Player_Conn (Game_Player2 g) = conn)); [|done].
      destruct (Player_IsBot (Game_Player2 g)); [done|].
      inversion Hp; subst p. split; [done|]. by rewrite decide_False.
  - intros Hfinished. split; [|done].
    apply ForfeitGame_inactive. right. by exists g2.
Qed.

(** Bob is lost, Alice plays the winning column, the timer fires: it
    does nothing, and the finished session and the window stay. *)
Example timer_after_the_winning_move :
  ∃ m2 g2,
    applyManagerOps 7 disconnectedManager [(clockAt 7, MOpMakeMove "g1" 3 (Some 1%nat))]
      = Ok m2 ∧
    games m2 !! "g1" = Some g2 ∧ Game_Status g2 = "finished" ∧
    Game_Winner g2 = "p1" ∧
    forfeitTimer (clockAt 40) m2 "g1" "p2" = (m2, None) ∧
    reconnectWindows m2 !! "g1" = Some (mkReconnectWindow "p2" (6 + 30 * Second)).
Proof.
  eexists _, _. split; [vm_compute; reflexivity|].
  split; [vm_compute; reflexivity|]. split; [reflexivity|]. split; [reflexivity|].
  split; vm_compute; reflexivity.
Qed.

(** ** Rejoining, stale timers and the turn of the bot *)

(** A request of the side to move, over its stored connection, for a
    legal column is accepted. *)
Lemma Manager_MakeMove_accepted (fuel : nat) (now : nat → Z) (m : Manager)
    (gameID : string) (column : Z) (conn : Conn) (g : Game) :
  games m !! gameID = Some g → Game_Status g = "active" →
  Player_IsBot (mover g) = false → Player_Conn (mover g) = conn →
  wf_board (Game_Board g) → legal (Game_Board g) column → (7 ≤ fuel)%nat →
  ∃ m' r, Manager_MakeMove fuel now m gameID column conn = Ok (m', r) ∧
          GameMoveResult_Success r = true.
Proof.
  intros Hg Hactive Hbot Hconn Hwf Hlegal Hfuel. unfold Manager_MakeMove.
  rewrite Hg. rewrite decide_False by (intros H; by apply H).
  fold (mover g). rewrite Hbot. rewrite decide_False by (intros H; by apply H).
  destruct Hlegal as [Hcol Htop].
  assert ((column <? 0) || (column >=? 7) = false) as ->.
  { apply orb_false_iff. unfold COLS in Hcol. lia. }
  destruct (legal_drop (Game_Board g) column (Some (Game_CurrentPlayer g)) Hwf
              (conj Hcol Htop)) as (board' & mr & -> & Hok & Hwf' & Hrow).
  cbn [mbind res_bind]. rewrite Hok. cbn [negb].
  cbn [Game_Board set_Board set_Moves set_LastMoveAt].
  destruct (CheckWin_spec fuel board' (MoveResult_Row mr) column Hwf' Hrow Hcol Hfuel)
    as (w & -> & _).
  cbn [mbind res_bind].
  destruct (IsBoardFull_total board' Hwf') as [full ->].
  destruct (WinResult_Won w); [|destruct full; [|repeat case_match]];
    cbn [mbind res_bind]; by eexists _, _.
Qed.

(** X16. After a rejoin that rebinds the connection of the side to move, a
    move request over any other connection, the old one included, is
    turned down with "Not your turn", and a request over the new
    connection for a legal column is accepted. *)
Theorem rejoin_transfers_the_move (fuel : nat) (now now' : nat → Z) (m : Manager)
    (conn' : Conn) (username id : string) (g : Game) (w : ReconnectWindow)
    (column : Z) :
  games m !! id = Some g → reconnectWindows m !! id = Some w →
  now 0%nat ≤ ReconnectWindow_ExpiresAt w →
  Game_Status g = "active" → wf_board (Game_Board g) → (7 ≤ fuel)%nat →
  Player_IsBot (mover g) = false →
  Player_Username (mover g) = username →
  (mover g = Game_Player2 g → Player_Username (Game_Player1 g) ≠ username) →
  let m1 := (RejoinGame now m conn' username id).1 in
  (∀ other, other ≠ conn' →
     Manager_MakeMove fuel now' m1 id column other
       = Ok (m1, mkGameMoveResult false "Not your turn" None)) ∧
  (legal (Game_Board g) column →
     ∃ m2 r, Manager_MakeMove fuel now' m1 id column conn' = Ok (m2, r) ∧
             GameMoveResult_Success r = true).
Proof.
  intros Hg Hw Hnow Hactive Hwf Hfuel Hbot Hname Hsecond m1.
  assert (∃ g', games m1 !! id = Some g' ∧ Game_Status g' = "active" ∧
                Game_Board g' = Game_Board g ∧
                Player_IsBot (mover g') = false ∧ Player_Conn (mover g') = conn')
    as (g' & Hg' & Hactive' & Hboard & Hbot' & Hconn').
  { subst m1. unfold RejoinGame. rewrite Hg, Hw. rewrite decide_False by lia.
    unfold mover in *.
    destruct (decide (Game_CurrentPlayer g = Player_ID (Game_Player1 g))) as [Hturn|Hturn].
    - rewrite decide_True by done. eexists. cbn. rewrite lookup_insert_eq.
      split; [done|]. cbn. rewrite decide_True by done. done.
    - rewrite decide_False by (by apply Hsecond). rewrite decide_True by done.
      eexists. cbn. rewrite lookup_insert_eq. split; [done|]. cbn.
      rewrite decide_False by done. done. }
  split.
  - intros other Hother. unfold Manager_MakeMove. rewrite Hg'.
    rewrite decide_False by (intros H; by apply H).
    fold (mover g'). rewrite Hbot'. by rewrite decide_True by congruence.
  - intros Hlegal. apply (Manager_MakeMove_accepted fuel now' m1 id column conn' g');
      try done; by rewrite Hboard.
Qed.

(** X17. The forfeit timer of a first disconnection still forfeits after the
    participant came back and was lost again: it only asks whether the
    session has a window, not whose it is nor when it expires.  Here the
    first participant is lost, returns in time under its name over a
    new connection, and is lost again; the first timer, whenever it
    fires, ends the session in favour of the second participant. *)
Theorem stale_timer_forfeits (now1 now3 : string → Z) (now2 now4 : nat → Z)
    (m : Manager) (conn conn' : Conn) (id : string) (g : Game) :
  games m !! id = Some g → Game_Status g = "active" →
  Player_Conn (Game_Player1 g) = conn →
  now2 0%nat ≤ now1 id + 30 * Second →
  let m1 := (HandleDisconnect now1 m conn).1 in
  let m2 := (RejoinGame now2 m1 conn' (Player_Username (Game_Player1 g)) id).1 in
  let m3 := (HandleDisconnect now3 m2 conn').1 in
  (id, Player_ID (Game_Player1 g)) ∈ (HandleDisconnect now1 m conn).2 ∧
  reconnectWindows m2 !! id = None ∧
  reconnectWindows m3 !! id
    = Some (mkReconnectWindow (Player_ID (Game_Player1 g)) (now3 id + 30 * Second)) ∧
  ∃ g', forfeitTimer now4 m3 id (Player_ID (Game_Player1 g))
          = (mkManager (delete id (games m3)) (delete id (reconnectWindows m3)),
             Some g') ∧
        Game_Status g' = "finished" ∧
        Game_Winner g' = if Player_IsBot (Game_Player2 g) then "bot"
                         else Player_ID (Game_Player2 g).
Proof.
  intros Hg Hactive Hconn Hnow m1 m2 m3.
  assert (disconnectedPlayer conn g = Some (Game_Player1 g)) as Hp.
  { unfold disconnectedPlayer. rewrite decide_False by (intros H; by apply H).
    by rewrite decide_True. }
  assert (reconnectWindows m1 !! id
          = Some (mkReconnectWindow (Player_ID (Game_Player1 g)) (now1 id + 30 * Second)))
    as Hw1.
  { subst m1. rewrite HandleDisconnect_window, Hg. cbn [mbind option_bind].
    by rewrite Hp. }
  assert (games m1 !! id = Some g) as Hg1 by done.
  set (g2 := set_Player1 g (set_Conn (Game_Player1 g) conn')).
  assert (m2 = mkManager (<[id := g2]> (games m1)) (delete id (reconnectWindows m1)))
    as Hm2.
  { subst m2. unfold RejoinGame. rewrite Hg1, Hw1. cbn [ReconnectWindow_ExpiresAt].
    rewrite decide_False by lia. by rewrite decide_True. }
  assert (games m2 !! id = Some g2) as Hg2.
  { rewrite Hm2. cbn. apply lookup_insert_eq. }
  assert (disconnectedPlayer conn' g2 = Some (Game_Player1 g2)) as Hp2.
  { unfold disconnectedPlayer. cbn. rewrite decide_False by (intros H; by apply H).
    by rewrite decide_True. }
  assert (reconnectWindows m3 !! id
          = Some (mkReconnectWindow (Player_ID (Game_Player1 g)) (now3 id + 30 * Second)))
    as Hw3.
  { subst m3. rewrite HandleDisconnect_window, Hg2. cbn [mbind option_bind].
    by rewrite Hp2. }
  split_and!.
  - apply HandleDisconnect_timers. by exists g, (Game_Player1 g).
  - rewrite Hm2. cbn. apply lookup_delete_eq.
  - done.
  - unfold forfeitTimer. rewrite Hw3.
    assert (games m3 !! id = Some g2) as Hg3 by done.
    rewrite (ForfeitGame_active now4 m3 id _ g2 Hg3 ltac:(by cbn)).
    eexists. split; [done|]. cbn. split; [done|]. unfold forfeitWinner. cbn.
    by rewrite decide_True.
Qed.

(** What the selection of the bot returns: nothing on a board without
    a legal column, and a legal column otherwise. *)
Lemma chooseColumn_legal (fuel : nat) (board : Board) (player1ID : string) :
  wf_board board → (7 ≤ fuel)%nat →
  (bot.chooseColumn fuel board player1ID = Ok None ∧ ∀ c, ¬ legal board c) ∨
  (∃ col, bot.chooseColumn fuel board player1ID = Ok (Some col) ∧ legal board col).
Proof.
  intros Hwf Hfuel.
  destruct (GetValidMoves_spec board Hwf) as (vm & Hvm & Hmem & _).
  unfold bot.chooseColumn. rewrite Hvm. cbn [mbind res_bind].
  destruct vm as [|first rest] eqn:Evm.
  { left. split; [done|]. intros c Hc. apply Hmem in Hc. by apply elem_of_nil in Hc. }
  rewrite <- Evm in *. right.
  assert (Hlegal : ∀ c, c ∈ vm → legal board c) by (intros; by apply Hmem).
  destruct (findBlocking_spec fuel board (Some player1ID) vm Hwf Hfuel Hlegal)
    as (r & -> & Hblock).
  cbn [mbind res_bind].
  destruct Hblock as [[-> _]|[Hin _]].
  - rewrite decide_False by (intros H; by apply H).
    destruct (findWinning_spec fuel board (Some "bot") vm Hwf Hfuel Hlegal)
      as (w & -> & Hw).
    cbn [mbind res_bind]. destruct w as [col|].
    + destruct Hw as [Hin _]. exists col. split; [done|]. by apply Hlegal.
    + destruct (scoreLoop_spec board (Some "bot") (Some player1ID) vm Hwf Hlegal
                  (-999999, first)) as (best & -> & Hcases).
      cbn [mbind res_bind]. exists best.2. split; [done|].
      destruct Hcases as [[-> _]|(pre & post & Hsplit & _)].
      * apply Hlegal. rewrite Evm. left.
      * apply Hlegal. rewrite Hsplit. apply elem_of_app. right. left.
  - assert (r ≠ -1) as Hr.
    { apply Hlegal in Hin as [Hcol _]. unfold COLS in Hcol. lia. }
    rewrite decide_True by done. exists r. split; [done|]. by apply Hlegal.
Qed.

(** What a call of [Player.MakeMove] on a session of the map does. *)
Lemma Player_MakeMove_turn (fuel : nat) (now : nat → Z) (m : Manager)
    (g : Game) :
  games m !! Game_ID g = Some g → wf_board (Game_Board g) → (7 ≤ fuel)%nat →
  ∃ m' out, bot.Player_MakeMove fuel now m g = Ok (m', out) ∧
    (Game_Status g ≠ "active" ∨ Game_CurrentPlayer g ≠ "bot" ∨
     (∀ c, ¬ legal (Game_Board g) c) → m' = m ∧ out = None) ∧
    (Game_Status g = "active" → Game_CurrentPlayer g = "bot" →
     (∃ c, legal (Game_Board g) c) →
       ∃ g' col row,
         out = Some g' ∧ legal (Game_Board g) col ∧
         games m' = <[Game_ID g := g']> (games m) ∧
         Game_Moves g' = Game_Moves g ++ [mkMove "bot" col row (now 0%nat)] ∧
         cellAt (Game_Board g') row col = Ok (Some "bot") ∧
         (Game_Status g' = "finished" ∧
          (Game_Winner g' = "bot" ∨ Game_Winner g' = "draw") ∨
          Game_Status g' = "active" ∧
          Game_CurrentPlayer g' = Player_ID (Game_Player1 g))).
Proof.
  intros Hg Hwf Hfuel. unfold bot.Player_MakeMove.
  destruct (decide (Game_Status g ≠ "active" ∨ Game_CurrentPlayer g ≠ "bot"))
    as [Hskip|Hturn].
  { eexists _, _. split; [done|]. split; [done|]. intros Ha Hb. tauto. }
  assert (Game_Status g = "active" ∧ Game_CurrentPlayer g = "bot") as [Hactive Hbot].
  { split; apply dec_stable; intros H; apply Hturn; auto. }
  destruct (chooseColumn_legal fuel (Game_Board g) (Player_ID (Game_Player1 g)) Hwf Hfuel)
    as [[-> Hnone]|(col & -> & Hlegal)]; cbn [mbind res_bind].
  { eexists _, _. split; [done|]. split; [done|]. intros _ _ [c Hc]. by destruct (Hnone c). }
  unfold bot.executeMove.
  assert (∀ g0, games m !! Game_ID g = Some g0 → wf_board (Game_Board g0)) as Hwf'.
  { intros g0 Hg0. rewrite Hg in Hg0. by inversion Hg0; subst. }
  destruct (BotMakeMove_cases fuel now m (Game_ID g) col Hwf' Hfuel)
    as [[_ Hfull]|(game & board' & row & w & full & Hgame & _ & _ & Hdrop & _ & _ & Hrun)].
  { exfalso. destruct Hlegal as [Hcol Htop].
    destruct (Hfull g Hg Hactive Hbot Hcol 0) as [s Hs]; [unfold ROWS; lia|].
    congruence. }
  rewrite Hg in Hgame. inversion Hgame; subst game. clear Hgame.
  cbn zeta in Hrun. rewrite Hrun. cbn [mbind res_bind GameMoveResult_Success
    GameMoveResult_Game].
  eexists _, _. split; [done|]. split.
  { intros [H|[H|H]]; [done|done|]. by destruct (H col). }
  intros _ _ _. eexists _, col, row. split; [done|]. split; [done|].
  destruct (MakeMove_success _ _ _ _ _ Hwf Hdrop eq_refl) as (_ & _ & _ & _ & Hset & _).
  cbn [MoveResult_Row] in Hset. cbn. split_and!; try done.
  - rewrite (cellAt_setCell _ _ _ _ row col _ Hset). by rewrite decide_True.
  - destruct (WinResult_Won w), full; cbn; rewrite ?Hactive; auto.
Qed.

(** X18. The turn of the bot.  Called on a session of the map it does
    nothing unless the session is active, the turn token is "bot" and a
    legal column is left; then it plays one "bot" piece in a legal
    column, and the session is finished (won by "bot", or drawn) or the
    turn goes to the first participant. *)
Theorem Player_MakeMove_plays_once (fuel : nat) (now : nat → Z) (m : Manager)
    (g : Game) :
  games m !! Game_ID g = Some g → wf_board (Game_Board g) → (7 ≤ fuel)%nat →
  ∃ m' out, bot.Player_MakeMove fuel now m g = Ok (m', out) ∧
    (Game_Status g ≠ "active" ∨ Game_CurrentPlayer g ≠ "bot" ∨
     (∀ c, ¬ legal (Game_Board g) c) → m' = m ∧ out = None) ∧
    (Game_Status g = "active" → Game_CurrentPlayer g = "bot" →
     (∃ c, legal (Game_Board g) c) →
       ∃ g' col row,
         out = Some g' ∧ legal (Game_Board g) col ∧
         games m' = <[Game_ID g := g']> (games m) ∧
         Game_Moves g' = Game_Moves g ++ [mkMove "bot" col row (now 0%nat)] ∧
         cellAt (Game_Board g') row col = Ok (Some "bot") ∧
         (Game_Status g' = "finished" ∧
          (Game_Winner g' = "bot" ∨ Game_Winner g' = "draw") ∨
          Game_Status g' = "active" ∧
          Game_CurrentPlayer g' = Player_ID (Game_Player1 g))).
Proof. apply Player_MakeMove_turn. Qed.

(** ** More on the matchmaking queue *)

Section queue_more.
Import matchmaking.

Lemma findPlayerByID_loop_Some (ps : list Player) (id : string) (p : Player) :
  findPlayerByID_loop ps id = Some p → p ∈ ps ∧ Player_ID p = id.
Proof.
  induction ps as [|q rest IH]; simpl; [done|].
  destruct (decide (Player_ID q = id)) as [Heq|Hne].
  - intros H. inversion H; subst. split; [left|done].
  - intros H. destruct (IH H) as [Hin Hid]. split; [by right|done].
Qed.

Lemma findPlayerByID_loop_is_Some (ps : list Player) (id : string) :
  (∃ p, p ∈ ps ∧ Player_ID p = id) → ∃ q, findPlayerByID_loop ps id = Some q.
Proof.
  intros (p & Hin & Hid).
  destruct (findPlayerByID_loop ps id) as [q|] eqn:E; [eauto|].
  exfalso. by eapply (findPlayerByID_loop_None ps id).
Qed.

Lemma RemovePlayer_timer_iff (s : Service) (conn : option nat) (id : string)
    (t : Timer) :
  botTimers (RemovePlayer s conn) !! id = Some t ↔
  botTimers s !! id = Some t ∧
  ∃ p, p ∈ waitingPlayers (RemovePlayer s conn) ∧ Player_ID p = id.
Proof.
  unfold RemovePlayer. cbn [botTimers waitingPlayers].
  rewrite map_lookup_filter_Some. cbn [fst].
  unfold stopsTimer, findPlayerByID. cbn [waitingPlayers].
  split.
  - intros [Ht Hkeep]. split; [done|].
    destruct (findPlayerByID_loop _ id) as [p|] eqn:E; [|done].
    apply findPlayerByID_loop_Some in E as [Hin Hid]. by exists p.
  - intros [Ht Hp]. split; [done|].
    destruct (findPlayerByID_loop_is_Some _ id Hp) as [q Hq]. rewrite Hq.
    apply findPlayerByID_loop_Some in Hq as [Hin _].
    apply list_elem_of_filter in Hin as [Hc _].
    by apply bool_decide_eq_false.
Qed.

Lemma RemovePlayer_timer_waiting (s : Service) (conn : option nat) (id : string)
    (t : Timer) :
  botTimers (RemovePlayer s conn) !! id = Some t →
  ∃ p, p ∈ waitingPlayers (RemovePlayer s conn) ∧ Player_ID p = id.
Proof. intros H. by apply RemovePlayer_timer_iff in H as [_ H]. Qed.

(** X19. [RemovePlayer] takes the players of the lost connection, and only
    them, out of the queue, and keeps exactly the timers whose player
    is still waiting: no timer is left for a player that is gone. *)
Theorem RemovePlayer_purges (s : Service) (conn : option nat) :
  (∀ p, p ∈ waitingPlayers (RemovePlayer s conn) ↔
        p ∈ waitingPlayers s ∧ Player_Conn p ≠ conn) ∧
  (∀ id t, botTimers (RemovePlayer s conn) !! id = Some t ↔
           botTimers s !! id = Some t ∧
           ∃ p, p ∈ waitingPlayers (RemovePlayer s conn) ∧ Player_ID p = id).
Proof.
  split.
  - intros p. unfold RemovePlayer. cbn. rewrite list_elem_of_filter. tauto.
  - apply RemovePlayer_timer_iff.
Qed.

End queue_more.

(** ** Identifiers printed from the clock *)

Lemma string_app_assoc (s1 s2 s3 : string) :
  (s1 +:+ s2) +:+ s3 = s1 +:+ (s2 +:+ s3).
Proof.
  induction s1 as [|c s1 IH]; [done|].
  change (String c ((s1 +:+ s2) +:+ s3) = String c (s1 +:+ s2 +:+ s3)).
  by rewrite IH.
Qed.

Lemma pretty_N_go_suffix (x : N) (s : string) :
  ∃ pre, pretty_N_go x s = pre +:+ s.
Proof.
  revert s. induction (N.lt_wf_0 x) as [x _ IH]; intros s.
  assert (x = 0 ∨ 0 < x)%N as [->|Hx] by lia.
  - exists "". by rewrite pretty_N_go_0.
  - rewrite pretty_N_go_step by done.
    destruct (IH (x `div` 10)%N (N.div_lt x 10 Hx eq_refl)
                (String (pretty_N_char (x `mod` 10)) s)) as [pre ->].
    exists (pre +:+ String (pretty_N_char (x `mod` 10)) "").
    by rewrite string_app_assoc.
Qed.

(** The decimal form of a number ends with a digit. *)
Lemma pretty_Z_ends_with_digit (z : Z) :
  ∃ pre d, pretty z = pre +:+ String (pretty_N_char d) "".
Proof.
  assert (∀ p : positive, ∃ pre d,
            pretty (N.pos p) = pre +:+ String (pretty_N_char d) "") as Hpos.
  { intros p. unfold pretty, pretty_N. rewrite decide_False by done.
    rewrite pretty_N_go_step by done.
    destruct (pretty_N_go_suffix (N.pos p `div` 10)
                (String (pretty_N_char (N.pos p `mod` 10)) "")) as [pre ->].
    eauto. }
  destruct z as [|p|p].
  - by exists "", 0%N.
  - apply Hpos.
  - destruct (Hpos p) as (pre & d & Hp). exists ("-" +:+ pre), d.
    change (pretty (Z.neg p)) with ("-" +:+ pretty (N.pos p)). by rewrite Hp.
Qed.

(** An identifier printed from the clock is none of the tokens the
    manager gives a meaning to. *)
Lemma pretty_Z_not_token (z : Z) :
  pretty z ≠ "bot" ∧ pretty z ≠ "draw" ∧ pretty z ≠ "".
Proof.
  destruct (pretty_Z_ends_with_digit z) as (pre & d & ->).
  assert (∀ c, pretty_N_char d ≠ c ∨ (c ≠ "t" ∧ c ≠ "w")%char) as Hd.
  { intros c. unfold pretty_N_char. repeat case_match;
      (right; split; intros ->; discriminate) || (left; intros H; rewrite <- H; discriminate) || idtac.
    all: destruct (decide (c = "t"%char)) as [->|]; [left; discriminate|];
         destruct (decide (c = "w"%char)) as [->|]; [left; discriminate|];
         by right. }
  split_and!.
  - destruct pre as [|a [|b [|c pre]]]; cbn; try discriminate.
    + intros H. inversion H. destruct (Hd "t"%char) as [Hn|[Hn _]]; congruence.
    + destruct pre; cbn; discriminate.
  - destruct pre as [|a [|b [|c [|e pre]]]]; cbn; try discriminate.
    + intros H. inversion H. destruct (Hd "w"%char) as [Hn|[_ Hn]]; congruence.
    + destruct pre; cbn; discriminate.
  - destruct pre; cbn; discriminate.
Qed.

(** ** The handlers of the server *)

Lemma handleJoin_waits (clock : nat → Z) (uuid : string) (s : server.Server)
    (conn : Conn) (username : string) :
  username ≠ "" → matchmaking.waitingPlayers (server.matchmakingService s) = [] →
  let p := matchmaking.mkPlayer (pretty (clock 0%nat)) username conn true false in
  ∃ timers,
    server.handleJoin clock uuid s conn username
      = Ok (server.mkServer (server.gameManager s)
              (matchmaking.mkService [p] (<[pretty (clock 0%nat) := matchmaking.mkTimer p]> timers)),
            server.sendMessage conn (server.MsgWaiting "Waiting for opponent..."),
            [server.ArmBotMatch p]).
Proof.
  intros Hname Hempty p. unfold server.handleJoin.
  rewrite decide_False by done. unfold matchmaking.AddPlayer. rewrite Hempty.
  cbn. by eexists.
Qed.

Lemma forFrontend_no_winner (game : Game) (z1 z2 : Z) :
  Player_ID (Game_Player1 game) = pretty z1 →
  Player_ID (Game_Player2 game) = pretty z2 →
  server.forFrontend game "" = "".
Proof.
  intros H1 H2. unfold server.forFrontend. rewrite H1, H2.
  destruct (pretty_Z_not_token z1) as (_ & _ & Hz1).
  destruct (pretty_Z_not_token z2) as (_ & _ & Hz2).
  rewrite decide_False by (intros H; by apply Hz1).
  rewrite decide_False; [done|]. intros [H|H]; [by apply Hz2|discriminate].
Qed.

(** X20. Two joins in a row, over the connections [c1] and [c2], on a
    server with an empty queue.  The first join writes one message, to
    [c1]: "waiting"; it arms the fallback timer of the first player.
    The second join creates one game with the first player as first
    participant and side to move, on an empty board, and writes two
    messages, the same "gameState" to [c1] and then to [c2]: the
    identifier of the game, a board of 6 x 7 empty cells, the user name
    of the first player as side to move, the two user names, neither a
    bot, status "active" and no winner.  The queue is empty afterwards,
    and the fallback timer of the first player then does nothing and
    writes nothing. *)
Theorem two_joins_make_a_game (clock1 clock2 clock3 : nat → Z)
    (uuid1 uuid2 uuid3 : string) (s : server.Server) (c1 c2 : nat)
    (username1 username2 : string) :
  username1 ≠ "" → username2 ≠ "" →
  matchmaking.waitingPlayers (server.matchmakingService s) = [] →
  let p1 :=
    matchmaking.mkPlayer (pretty (clock1 0%nat)) username1 (Some c1) true false in
  let game :=
    mkGame uuid2
      (mkPlayer (pretty (clock1 0%nat)) username1 (Some c1) false)
      (mkPlayer (pretty (clock2 0%nat)) username2 (Some c2) false)
      CreateBoard (pretty (clock1 0%nat)) "active" "" []
      (clock2 1%nat) None (clock2 2%nat) in
  let state :=
    server.MsgGameState
      (server.mkGameView uuid2 (replicate 6 (replicate 7 None)) username1
         (server.mkPlayerView username1 false) (server.mkPlayerView username2 false)
         "active" "") in
  ∃ s1 s2,
    server.handleJoin clock1 uuid1 s (Some c1) username1
      = Ok (s1, [(c1, server.MsgWaiting "Waiting for opponent...")],
            [server.ArmBotMatch p1]) ∧
    server.gameManager s1 = server.gameManager s ∧
    server.handleJoin clock2 uuid2 s1 (Some c2) username2
      = Ok (s2, [(c1, state); (c2, state)], []) ∧
    games (server.gameManager s2) = <[uuid2 := game]> (games (server.gameManager s)) ∧
    matchmaking.waitingPlayers (server.matchmakingService s2) = [] ∧
    server.botMatchTimer clock3 uuid3 s2 p1 = (s2, [], []).
Proof.
  intros Hn1 Hn2 Hempty p1 game state.
  destruct (handleJoin_waits clock1 uuid1 s (Some c1) username1 Hn1 Hempty)
    as [timers Hjoin].
  eexists _, _. split; [exact Hjoin|]. split; [done|].
  unfold server.handleJoin. rewrite decide_False by done.
  unfold matchmaking.AddPlayer. cbn [server.matchmakingService matchmaking.waitingPlayers].
  cbn [fst snd matchmaking.MatchResult_Matched matchmaking.MatchResult_Player1
       matchmaking.MatchResult_Player2].
  unfold CreateGame, server.convertToGamePlayer.
  cbn [matchmaking.Player_ID matchmaking.Player_Username matchmaking.Player_Conn
       matchmaking.Player_IsBot Player_ID].
  fold game.
  assert (server.notifyPlayers game = [(c1, state); (c2, state)]) as ->.
  { unfold server.notifyPlayers, server.sendMessage, server.gameView.
    change (Game_Winner game) with "".
    rewrite (forFrontend_no_winner game (clock1 0%nat) (clock2 0%nat)) by done.
    unfold server.forFrontend. cbn [Game_Player1 Game_Player2 Game_CurrentPlayer
      Player_ID Player_Username Player_Conn Player_IsBot Game_ID Game_Status
      Game_Winner Game_Board game].
    rewrite decide_True by done. reflexivity. }
  split; [reflexivity|]. cbn [server.gameManager server.matchmakingService
    matchmaking.waitingPlayers store games].
  split; [done|]. split; [done|].
  unfold server.botMatchTimer, matchmaking.botTimerFire, matchmaking.isPlayerWaiting,
    matchmaking.findPlayerByID. cbn. done.
Qed.

(** X21. A lone join on a server with an empty queue, then the fallback: a
    game against the bot is created in which the human is the first
    participant and the side to move, so no move of the bot is armed;
    the queue is empty and the timer is off the map; a second firing
    creates nothing. *)
Theorem lone_join_gets_a_bot_game (clock1 clock2 clock3 : nat → Z)
    (uuid1 uuid2 uuid3 : string) (s : server.Server) (conn : Conn)
    (username : string) :
  username ≠ "" →
  matchmaking.waitingPlayers (server.matchmakingService s) = [] →
  let p := matchmaking.mkPlayer (pretty (clock1 0%nat)) username conn true false in
  let game :=
    mkGame uuid2
      (mkPlayer (pretty (clock1 0%nat)) username conn false)
      (mkPlayer "bot" "Bot" None true)
      CreateBoard (pretty (clock1 0%nat)) "active" "" []
      (clock2 0%nat) None (clock2 1%nat) in
  ∃ s1 s2 out1,
    server.handleJoin clock1 uuid1 s conn username
      = Ok (s1, out1, [server.ArmBotMatch p]) ∧
    server.botMatchTimer clock2 uuid2 s1 p = (s2, server.notifyPlayers game, []) ∧
    games (server.gameManager s2) = <[uuid2 := game]> (games (server.gameManager s)) ∧
    Game_CurrentPlayer game ≠ "bot" ∧
    matchmaking.waitingPlayers (server.matchmakingService s2) = [] ∧
    matchmaking.botTimers (server.matchmakingService s2) !! pretty (clock1 0%nat) = None ∧
    server.botMatchTimer clock3 uuid3 s2 p = (s2, [], []).
Proof.
  intros Hname Hempty p game.
  destruct (handleJoin_waits clock1 uuid1 s conn username Hname Hempty) as [timers Hjoin].
  eexists _, _, _. split; [exact Hjoin|].
  assert (pretty (clock1 0%nat) ≠ "bot") as Hid by apply pretty_Z_not_token.
  unfold server.botMatchTimer, matchmaking.botTimerFire, matchmaking.isPlayerWaiting,
    matchmaking.findPlayerByID.
  cbn [server.matchmakingService matchmaking.waitingPlayers
       matchmaking.findPlayerByID_loop matchmaking.Player_ID].
  rewrite decide_True by done. rewrite bool_decide_eq_true_2 by done.
  unfold server.botMatchCallback. cbn.
  rewrite decide_False by (intros H; by apply H).
  rewrite (decide_False (P := pretty (clock1 0%nat) = "bot")) by done.
  split; [done|]. split; [done|]. split; [done|]. split; [done|].
  split; [apply lookup_delete_eq|]. done.
Qed.

(** X22. A player who joins and whose connection is lost while waiting gets
    no game: the queue is empty, and when the fallback timer fires it
    creates nothing and sends nothing. *)
Theorem withdrawn_join_gets_no_game (clock1 clock3 : nat → Z) (clock2 : string → Z)
    (uuid1 uuid3 : string) (s : server.Server) (conn : Conn) (username : string) :
  username ≠ "" →
  matchmaking.waitingPlayers (server.matchmakingService s) = [] →
  let p := matchmaking.mkPlayer (pretty (clock1 0%nat)) username conn true false in
  ∃ s1 out1 armed1,
    server.handleJoin clock1 uuid1 s conn username = Ok (s1, out1, armed1) ∧
    let s2 := (server.connectionLost clock2 s1 conn).1.1 in
    matchmaking.waitingPlayers (server.matchmakingService s2) = [] ∧
    matchmaking.botTimers (server.matchmakingService s2) !! pretty (clock1 0%nat) = None ∧
    games (server.gameManager s2) = games (server.gameManager s) ∧
    server.botMatchTimer clock3 uuid3 s2 p = (s2, [], []).
Proof.
  intros Hname Hempty p.
  destruct (handleJoin_waits clock1 uuid1 s conn username Hname Hempty) as [timers Hjoin].
  subst p. cbv zeta in Hjoin.
  eexists _, _, _. split; [exact Hjoin|].
  unfold server.connectionLost.
  cbn [server.matchmakingService server.gameManager].
  destruct (HandleDisconnect clock2 (server.gameManager s) conn) as [gm tm] eqn:Hd.
  assert (games gm = games (server.gameManager s)) as Hgames.
  { change gm with (gm, tm).1. by rewrite <- Hd. }
  cbn [fst server.matchmakingService server.gameManager].
  remember (matchmaking.RemovePlayer _ conn) as mm eqn:Hmm.
  assert (matchmaking.waitingPlayers mm = []) as Hqueue.
  { rewrite Hmm. unfold matchmaking.RemovePlayer. cbn [matchmaking.waitingPlayers].
    rewrite filter_cons, decide_False by (intros H; by apply H). done. }
  split; [done|]. split.
  { destruct (matchmaking.botTimers mm !! _) as [t|] eqn:Ht; [|done].
    rewrite Hmm in Ht. apply RemovePlayer_timer_waiting in Ht as (q & Hq & _).
    rewrite <- Hmm, Hqueue in Hq. by apply elem_of_nil in Hq. }
  split; [done|].
  unfold server.botMatchTimer. cbn [server.matchmakingService server.gameManager].
  rewrite botTimerFire_not_waiting; [done|].
  apply isPlayerWaiting_false. rewrite Hqueue. intros q Hq. by apply elem_of_nil in Hq.
Qed.

Lemma IsBoardFull_false_legal (board : Board) :
  wf_board board → IsBoardFull board = Ok false → ∃ c, legal board c.
Proof.
  intros Hwf Hfull.
  destruct (GetValidMoves_spec board Hwf) as (vm & _ & Hmem & _).
  destruct (IsBoardFull_loop_spec board (seqZ 0 COLS) Hwf) as (full & Hrun & Hiff).
  { intros c Hc. apply elem_of_seqZ in Hc. lia. }
  unfold IsBoardFull in Hfull. rewrite Hfull in Hrun. inversion Hrun; subst full.
  destruct vm as [|c rest].
  - exfalso. assert (false = true); [|done]. apply Hiff.
    intros c Hc Htop. apply elem_of_seqZ in Hc.
    assert (c ∈ ([] : list Z)) as Hin by (apply Hmem; split; [lia|done]).
    by apply elem_of_nil in Hin.
  - exists c. apply Hmem. left.
Qed.

Lemma cellAt_gameView (game : Game) (row col : Z) (x : string) :
  cellAt (Game_Board game) row col = Ok (Some x) →
  cellAt (server.GameView_board (server.gameView game)) row col
    = Ok (Some (server.forFrontend game x)).
Proof.
  unfold cellAt, index. cbn [server.GameView_board server.gameView].
  destruct (decide (0 ≤ row)); [|done]. rewrite list_lookup_fmap.
  destruct (Game_Board game !! Z.to_nat row) as [r|]; [|done].
  cbn [fmap option_fmap option_map mbind res_bind].
  destruct (decide (0 ≤ col)); [|done]. rewrite list_lookup_fmap.
  destruct (r !! Z.to_nat col) as [cell|]; [|done].
  cbn. intros Hcell. inversion Hcell; subst. done.
Qed.

(** The reply of the bot on a session of the map in which it is to
    move and a legal column is left. *)
Lemma Player_MakeMove_reply (fuel : nat) (now : nat → Z) (m : Manager) (g : Game) :
  games m !! Game_ID g = Some g → wf_board (Game_Board g) → (7 ≤ fuel)%nat →
  Game_Status g = "active" → Game_CurrentPlayer g = "bot" →
  (∃ c, legal (Game_Board g) c) →
  ∃ m' g' col row,
    bot.Player_MakeMove fuel now m g = Ok (m', Some g') ∧
    games m' = <[Game_ID g := g']> (games m) ∧
    Game_ID g' = Game_ID g ∧ Game_Player1 g' = Game_Player1 g ∧
    Game_Player2 g' = Game_Player2 g ∧
    Game_Moves g' = Game_Moves g ++ [mkMove "bot" col row (now 0%nat)] ∧
    cellAt (Game_Board g') row col = Ok (Some "bot") ∧
    (Game_Status g' = "finished" ∨
     Game_Status g' = "active" ∧
     Game_CurrentPlayer g' = Player_ID (Game_Player1 g)).
Proof.
  intros Hg Hwf Hfuel Hactive Hbot [c0 Hc0]. unfold bot.Player_MakeMove.
  rewrite decide_False by (intros [H|H]; by apply H).
  destruct (chooseColumn_legal fuel (Game_Board g) (Player_ID (Game_Player1 g)) Hwf Hfuel)
    as [[-> Hnone]|(col & -> & Hlegal)]; cbn [mbind res_bind].
  { by destruct (Hnone c0). }
  unfold bot.executeMove.
  assert (∀ g0, games m !! Game_ID g = Some g0 → wf_board (Game_Board g0)) as Hwf'.
  { intros g0 Hg0. rewrite Hg in Hg0. by inversion Hg0; subst. }
  destruct (BotMakeMove_cases fuel now m (Game_ID g) col Hwf' Hfuel)
    as [[_ Hfull]|(game & board' & row & w & full & Hgame & _ & _ & Hdrop & _ & _ & Hrun)].
  { exfalso. destruct Hlegal as [Hcol Htop].
    destruct (Hfull g Hg Hactive Hbot Hcol 0) as [s Hs]; [unfold ROWS; lia|].
    congruence. }
  rewrite Hg in Hgame. inversion Hgame; subst game. clear Hgame.
  cbn zeta in Hrun. rewrite Hrun. cbn [mbind res_bind GameMoveResult_Success
    GameMoveResult_Game].
  eexists _, _, col, row. split; [done|].
  destruct (MakeMove_success _ _ _ _ _ Hwf Hdrop eq_refl) as (_ & _ & _ & _ & Hset & _).
  cbn [MoveResult_Row] in Hset. cbn. split_and!; try done.
  - rewrite (cellAt_setCell _ _ _ _ row col _ Hset). by rewrite decide_True.
  - destruct (WinResult_Won w), full; cbn; rewrite ?Hactive; auto.
Qed.

(** X23. A game against the bot (whose participant has no connection), the
    human on connection [c] to move, and a request of the human for a
    legal column.  [handleMakeMove] writes one message, a "gameState"
    to [c] that carries the identifier and the status of the game after
    the move and shows the new piece under the user name of the human.
    If the move ends the game nothing is armed.  Otherwise the move of
    the bot is armed, and when that timer fires the bot plays one piece
    and one "gameState" is written to [c], with the identifier and the
    status after the reply and the piece of the bot under the user name
    of the bot: the log has grown by two moves, and the game is finished
    or it is the human's turn again. *)
Theorem human_move_then_bot_reply (fuel : nat) (clock1 clock2 : nat → Z)
    (s : server.Server) (c : nat) (id : string) (column : Z) (g : Game) :
  games (server.gameManager s) !! id = Some g → Game_ID g = id →
  Game_Status g = "active" → wf_board (Game_Board g) → (7 ≤ fuel)%nat →
  Player_IsBot (Game_Player2 g) = true → Player_Conn (Game_Player2 g) = None →
  Game_CurrentPlayer g = Player_ID (Game_Player1 g) →
  Player_ID (Game_Player1 g) ≠ "bot" →
  Player_IsBot (Game_Player1 g) = false → Player_Conn (Game_Player1 g) = Some c →
  legal (Game_Board g) column →
  ∃ s1 g1 v1 armed,
    server.handleMakeMove fuel clock1 s (Some c) id column
      = Ok (s1, [(c, server.MsgGameState v1)], armed) ∧
    games (server.gameManager s1) !! id = Some g1 ∧
    server.GameView_id v1 = id ∧ server.GameView_status v1 = Game_Status g1 ∧
    (∃ row,
       cellAt (Game_Board g) row column = Ok None ∧
       cellAt (Game_Board g1) row column = Ok (Some (Player_ID (Game_Player1 g))) ∧
       cellAt (server.GameView_board v1) row column
         = Ok (Some (Player_Username (Game_Player1 g)))) ∧
    (Game_Status g1 = "finished" ∧ armed = [] ∨
     Game_Status g1 = "active" ∧ Game_CurrentPlayer g1 = "bot" ∧
     armed = [server.ArmBotMove id] ∧
     ∃ s2 g2 v2,
       server.botMoveTimer fuel clock2 s1 id
         = Ok (s2, [(c, server.MsgGameState v2)], []) ∧
       games (server.gameManager s2) !! id = Some g2 ∧
       server.GameView_id v2 = id ∧ server.GameView_status v2 = Game_Status g2 ∧
       (∃ row col,
          cellAt (Game_Board g2) row col = Ok (Some "bot") ∧
          cellAt (server.GameView_board v2) row col
            = Ok (Some (Player_Username (Game_Player2 g)))) ∧
       length (Game_Moves g2) = (length (Game_Moves g) + 2)%nat ∧
       (Game_Status g2 = "finished" ∨
        Game_Status g2 = "active" ∧
        Game_CurrentPlayer g2 = Player_ID (Game_Player1 g))).
Proof.
  intros Hg Hid Hactive Hwf Hfuel Hbot2 Hconn2 Hturn Hnotbot Hbot1 Hconn Hlegal.
  subst id.
  assert (mover g = Game_Player1 g) as Hmover.
  { unfold mover. by rewrite decide_True. }
  destruct (Manager_MakeMove_accepted fuel clock1 (server.gameManager s) (Game_ID g)
              column (Some c) g)
    as (m1 & r & Hrun & Hsucc); try done; try (by rewrite Hmover).
  assert (∀ g0, games (server.gameManager s) !! Game_ID g = Some g0 →
                wf_board (Game_Board g0)) as Hwf0.
  { intros g0 Hg0. rewrite Hg in Hg0. by inversion Hg0; subst. }
  destruct (Manager_MakeMove_accepts _ _ _ _ _ _ _ _ Hwf0 Hrun Hsucc)
    as (game & board' & row & w & full & Hgame & _ & _ & _ & Hdrop & _ & Hfull &
        Hm1 & Hr).
  rewrite Hg in Hgame. inversion Hgame; subst game. clear Hgame.
  cbn zeta in Hm1, Hr.
  destruct (MakeMove_success _ _ _ _ _ Hwf Hdrop eq_refl)
    as (_ & _ & _ & Hempty & Hset & Hwf').
  cbn [MoveResult_Row] in Hempty, Hset.
  subst m1 r.
  unfold server.handleMakeMove. rewrite Hrun. cbn [mbind res_bind].
  cbn [GameMoveResult_Success negb GameMoveResult_Game].
  match goal with
  | |- context [server.notifyPlayers ?x] => set (g1 := x)
  end.
  assert (cellAt (Game_Board g1) row column = Ok (Some (Player_ID (Game_Player1 g))))
    as Hpiece.
  { cbn [g1 Game_Board]. rewrite (cellAt_setCell _ _ _ _ row column _ Hset).
    rewrite decide_True by done. by rewrite Hturn. }
  assert (server.notifyPlayers g1 = [(c, server.MsgGameState (server.gameView g1))])
    as ->.
  { unfold server.notifyPlayers. cbn [g1 Game_Player1 Game_Player2].
    by rewrite Hconn, Hconn2. }
  eexists _, g1, (server.gameView g1), _. split; [reflexivity|].
  cbn [server.gameManager store games].
  rewrite lookup_insert_eq. split; [reflexivity|].
  split; [reflexivity|]. split; [reflexivity|]. split.
  { exists row. split; [done|]. split; [done|].
    rewrite (cellAt_gameView g1 row column _ Hpiece).
    unfold server.forFrontend. cbn [g1 Game_Player1]. by rewrite decide_True. }
  cbn [g1 Game_Status Game_CurrentPlayer Game_Player2 Game_ID].
  destruct (WinResult_Won w || full) eqn:Hover.
  { left. by rewrite decide_True. }
  right. rewrite Hactive. rewrite decide_False by discriminate.
  unfold nextTurn. rewrite decide_True by done. rewrite Hbot2.
  rewrite decide_True by done.
  split; [done|]. split; [done|]. split; [done|].
  apply orb_false_iff in Hover as [Hw Hnotfull]. subst full.
  set (gm1 := store (server.gameManager s) (Game_ID g) g1).
  assert (games gm1 !! Game_ID g1 = Some g1) as Hg1.
  { cbn. apply lookup_insert_eq. }
  assert (Game_Status g1 = "active") as Hactive1.
  { cbn [g1 Game_Status]. done. }
  assert (Game_CurrentPlayer g1 = "bot") as Hturn1.
  { cbn [g1 Game_CurrentPlayer]. unfold nextTurn.
    rewrite decide_True by done. by rewrite Hbot2. }
  destruct (Player_MakeMove_reply fuel clock2 gm1 g1 Hg1 Hwf' Hfuel Hactive1 Hturn1)
    as (m2 & g2 & col & row2 & Hbotrun & Hm2 & Hid2 & Hp1 & Hp2 & Hmoves & Hbotpiece &
        Hend).
  { by apply IsBoardFull_false_legal. }
  unfold server.botMoveTimer. cbn [server.gameManager].
  change (games gm1 !! Game_ID g) with (games gm1 !! Game_ID g1).
  rewrite Hg1, Hbotrun. cbn [mbind res_bind].
  assert (server.notifyPlayers g2 = [(c, server.MsgGameState (server.gameView g2))])
    as ->.
  { unfold server.notifyPlayers. rewrite Hp1, Hp2. cbn [g1 Game_Player1 Game_Player2].
    by rewrite Hconn, Hconn2. }
  eexists _, g2, _. split; [reflexivity|]. cbn [server.gameManager]. rewrite Hm2.
  change (Game_ID g1) with (Game_ID g). rewrite lookup_insert_eq. split; [done|].
  split; [exact Hid2|]. split; [reflexivity|]. split.
  { exists row2, col. split; [done|].
    rewrite (cellAt_gameView g2 row2 col _ Hbotpiece).
    unfold server.forFrontend. rewrite Hp1, Hp2. cbn [g1 Game_Player1 Game_Player2].
    rewrite decide_False by (intros H; by apply Hnotbot).
    rewrite decide_True by (by right). done. }
  split.
  - rewrite Hmoves. cbn. rewrite !length_app. cbn. lia.
  - destruct Hend as [Hfin|[Hact Hnext]]; [by left|right]. done.
Qed.

(** ** The leaderboard *)

Lemma upsert_balanced (execOk : bool) (lb : gmap string LeaderboardEntry)
    (username : string) (w l d : Z) :
  0 ≤ w → 0 ≤ l → 0 ≤ d → w + l + d = 1 →
  (∀ u e, lb !! u = Some e → balanced e) →
  ∀ u e, upsert execOk lb username w l d 1 !! u = Some e → balanced e.
Proof.
  intros Hw Hl Hd Hsum Hlb u e. unfold upsert.
  destruct execOk; [|apply Hlb].
  destruct (lb !! username) as [e0|] eqn:Hrow.
  - destruct (decide (u = username)) as [->|Hne].
    + rewrite lookup_insert_eq. intros [= <-].
      destruct (Hlb _ _ Hrow) as (? & ? & ? & ?). unfold balanced. cbn. lia.
    + rewrite lookup_insert_ne by done. apply Hlb.
  - destruct (decide (u = username)) as [->|Hne].
    + rewrite lookup_insert_eq. intros [= <-]. unfold balanced. cbn. lia.
    + rewrite lookup_insert_ne by done. apply Hlb.
Qed.

Lemma player1Tally_one (game : Game) :
  ∃ w l d, player1Tally game = (w, l, d) ∧ 0 ≤ w ∧ 0 ≤ l ∧ 0 ≤ d ∧ w + l + d = 1.
Proof.
  unfold player1Tally. repeat case_decide; eexists _, _, _; (split; [reflexivity|lia]).
Qed.

Lemma player2Tally_one (game : Game) :
  ∃ w l d, player2Tally game = (w, l, d) ∧ 0 ≤ w ∧ 0 ≤ l ∧ 0 ≤ d ∧ w + l + d = 1.
Proof.
  unfold player2Tally.
  destruct (decide (Game_Winner game = "bot"));
    [eexists _, _, _; split; [reflexivity|lia]|].
  destruct (decide (Game_Winner game = Player_ID (Game_Player2 game)));
    [eexists _, _, _; split; [reflexivity|lia]|].
  destruct (decide (Game_Winner game ≠ "draw" ∧
                    Game_Winner game ≠ Player_ID (Game_Player2 game))) as [|Hno];
    [eexists _, _, _; split; [reflexivity|lia]|].
  destruct (decide (Game_Winner game = "draw")) as [|Hnd];
    [eexists _, _, _; split; [reflexivity|lia]|].
  exfalso. apply Hno. done.
Qed.

(** X24. [UpdateLeaderboard] keeps the table balanced: if in every row the
    three counters are not negative and add up to the total of games,
    they do so afterwards, whatever the game is and whether or not each
    of the two statements succeeds. *)
Theorem UpdateLeaderboard_keeps_balance (execOk1 execOk2 : bool)
    (lb : gmap string LeaderboardEntry) (game : Game) :
  (∀ u e, lb !! u = Some e → balanced e) →
  ∀ u e, UpdateLeaderboard execOk1 execOk2 lb game !! u = Some e → balanced e.
Proof.
  intros Hlb. unfold UpdateLeaderboard.
  destruct (decide (Game_Status game ≠ "finished")); [done|].
  destruct (player1Tally_one game) as (w1 & l1 & d1 & -> & ? & ? & ? & ?).
  destruct (player2Tally_one game) as (w2 & l2 & d2 & -> & ? & ? & ? & ?).
  pose proof (upsert_balanced execOk1 lb (Player_Username (Game_Player1 game))
                w1 l1 d1 ltac:(done) ltac:(done) ltac:(done) ltac:(done) Hlb) as Hfirst.
  destruct (Player_IsBot (Game_Player2 game)); cbn [negb]; [done|].
  by apply upsert_balanced.
Qed.

Lemma rowOf_upsert (lb : gmap string LeaderboardEntry) (username u : string)
    (w l d t : Z) :
  rowOf (upsert true lb username w l d t) u =
    if decide (u = username) then
      mkLeaderboardEntry (LeaderboardEntry_Wins (rowOf lb u) + w)
                         (LeaderboardEntry_Losses (rowOf lb u) + l)
                         (LeaderboardEntry_Draws (rowOf lb u) + d)
                         (LeaderboardEntry_TotalGames (rowOf lb u) + t)
    else rowOf lb u.
Proof.
  unfold rowOf, upsert. destruct (decide (u = username)) as [->|Hne].
  - destruct (lb !! username) as [e0|]; rewrite lookup_insert_eq; cbn; done.
  - destruct (lb !! username) as [e0|]; rewrite lookup_insert_ne by done; done.
Qed.

(** X25. A finished game between two humans that one of them won (the two
    identifiers differ and are not "draw"), both statements succeeding:
    the row of the winner's user name gets one win and one game, the row
    of the loser's one loss and one game, and no other row changes.  The
    two user names may be the same: that row then gets the win, the loss
    and two games. *)
Theorem UpdateLeaderboard_decided (lb : gmap string LeaderboardEntry) (game : Game)
    (winner loser : Player) :
  Game_Status game = "finished" → Player_IsBot (Game_Player2 game) = false →
  Player_ID (Game_Player1 game) ≠ Player_ID (Game_Player2 game) →
  Game_Winner game = Player_ID winner → Player_ID winner ≠ "draw" →
  Player_ID winner ≠ "bot" →
  (winner = Game_Player1 game ∧ loser = Game_Player2 game ∨
   winner = Game_Player2 game ∧ loser = Game_Player1 game) →
  ∀ u : string,
    let old := rowOf lb u in
    let won := if decide (u = Player_Username winner) then 1 else 0 in
    let lost := if decide (u = Player_Username loser) then 1 else 0 in
    rowOf (UpdateLeaderboard true true lb game) u =
      mkLeaderboardEntry (LeaderboardEntry_Wins old + won)
                         (LeaderboardEntry_Losses old + lost)
                         (LeaderboardEntry_Draws old)
                         (LeaderboardEntry_TotalGames old + won + lost).
Proof.
  intros Hfin Hhuman Hids Hwin Hnd Hnb Hroles u. cbv zeta.
  unfold UpdateLeaderboard. rewrite decide_False by (intros H; by apply H).
  rewrite Hhuman. cbn [negb]. unfold player1Tally, player2Tally.
  destruct Hroles as [[-> ->]|[-> ->]].
  - rewrite (decide_True _ _ Hwin).
    rewrite decide_False by (by rewrite Hwin).
    rewrite decide_False by (by rewrite Hwin).
    rewrite decide_True by (by rewrite Hwin).
    rewrite !rowOf_upsert.
    destruct (decide (u = Player_Username (Game_Player1 game)));
      destruct (decide (u = Player_Username (Game_Player2 game)));
      destruct (rowOf lb u); cbn; f_equal; lia.
  - rewrite decide_False by (rewrite Hwin; congruence).
    rewrite decide_True by (by rewrite Hwin).
    rewrite decide_False by (by rewrite Hwin).
    rewrite (decide_True _ _ Hwin).
    rewrite !rowOf_upsert.
    destruct (decide (u = Player_Username (Game_Player1 game)));
      destruct (decide (u = Player_Username (Game_Player2 game)));
      destruct (rowOf lb u); cbn; f_equal; lia.
Qed.

(** X26. A game against the bot touches the row of the human only, whoever
    won: the bot gets no row.  The human's row gets one game, and with
    it a win if the winner is the human's identifier, a draw if it is
    "draw", a loss otherwise. *)
Theorem UpdateLeaderboard_against_bot (execOk2 : bool)
    (lb : gmap string LeaderboardEntry) (game : Game) :
  Game_Status game = "finished" → Player_IsBot (Game_Player2 game) = true →
  (∀ u, u ≠ Player_Username (Game_Player1 game) →
     UpdateLeaderboard true execOk2 lb game !! u = lb !! u) ∧
  let old := rowOf lb (Player_Username (Game_Player1 game)) in
  let win := bool_decide (Game_Winner game = Player_ID (Game_Player1 game)) in
  let draw := bool_decide (Game_Winner game = "draw") in
  rowOf (UpdateLeaderboard true execOk2 lb game) (Player_Username (Game_Player1 game)) =
    mkLeaderboardEntry
      (LeaderboardEntry_Wins old + (if win then 1 else 0))
      (LeaderboardEntry_Losses old + (if win || draw then 0 else 1))
      (LeaderboardEntry_Draws old + (if negb win && draw then 1 else 0))
      (LeaderboardEntry_TotalGames old + 1).
Proof.
  intros Hfin Hbot. unfold UpdateLeaderboard.
  rewrite decide_False by (intros H; by apply H).
  rewrite Hbot. cbn [negb].
  destruct (player1Tally game) as [[w l] d] eqn:Htally. split.
  - intros u Hu. unfold upsert.
    destruct (lb !! Player_Username (Game_Player1 game));
      by rewrite lookup_insert_ne.
  - cbv zeta. rewrite rowOf_upsert. rewrite decide_True by done.
    unfold player1Tally in Htally.
    destruct (decide (Game_Winner game = Player_ID (Game_Player1 game))).
    + rewrite bool_decide_eq_true_2 by done. inversion Htally; subst. cbn.
      f_equal; lia.
    + rewrite (bool_decide_eq_false_2 _ n).
      destruct (decide (Game_Winner game ≠ "draw")) as [Hnd|Hd].
      * rewrite bool_decide_eq_false_2 by done. inversion Htally; subst. cbn.
        f_equal; lia.
      * apply dec_stable in Hd. rewrite bool_decide_eq_true_2 by done.
        inversion Htally; subst. cbn. f_equal; lia.
Qed.

(** ** The further theorems at work on the example sessions *)

Lemma botTurnBoard_wf : wf_board botTurnBoard.
Proof. split; [reflexivity|]. repeat constructor. Qed.

Lemma exampleManager_wf (g : Game) :
  games exampleManager !! "g1" = Some g → wf_board (Game_Board g).
Proof. intros Hg. vm_compute in Hg. inversion Hg. exact exampleBoard_wf. Qed.

Lemma botTurnManager_wf (g : Game) :
  games botTurnManager !! "g2" = Some g → wf_board (Game_Board g).
Proof. intros Hg. vm_compute in Hg. inversion Hg. exact botTurnBoard_wf. Qed.

Lemma MakeMove_pieces_witness :
  wf_board exampleBoard ∧
  MakeMove exampleBoard 3 (Some "p1") = Ok (wonBoard, mkMoveResult true "" 5) ∧
  ∀ col, pieces wonBoard col =
    if MoveResult_Success (mkMoveResult true "" 5) && bool_decide (col = 3)
    then S (pieces exampleBoard col) else pieces exampleBoard col.
Proof.
  split; [exact exampleBoard_wf|]. split; [vm_compute; reflexivity|].
  apply (MakeMove_pieces exampleBoard wonBoard 3 "p1" (mkMoveResult true "" 5)).
  - exact exampleBoard_wf.
  - vm_compute; reflexivity.
Defined.

Lemma MakeMove_succeeds_iff_legal_witness :
  wf_board exampleBoard ∧ gravity exampleBoard ∧
  ∃ board' mr vm,
    MakeMove exampleBoard 3 (Some "p1") = Ok (board', mr) ∧
    GetValidMoves exampleBoard = Ok vm ∧
    (MoveResult_Success mr = true ↔ 3 ∈ vm).
Proof.
  split; [exact exampleBoard_wf|]. split; [exact exampleBoard_gravity|].
  apply (MakeMove_succeeds_iff_legal exampleBoard 3 (Some "p1")).
  - exact exampleBoard_wf.
  - exact exampleBoard_gravity.
Defined.

Lemma IsBoardFull_iff_no_valid_move_witness :
  wf_board exampleBoard ∧
  ∃ (vm : list Z) (full : bool),
    GetValidMoves exampleBoard = Ok vm ∧ IsBoardFull exampleBoard = Ok full ∧
    StronglySorted Z.lt vm ∧
    (∀ c, c ∈ vm ↔ 0 ≤ c < COLS ∧ cellAt exampleBoard 0 c = Ok None) ∧
    (full = true ↔ vm = []).
Proof.
  split; [exact exampleBoard_wf|].
  apply (IsBoardFull_iff_no_valid_move exampleBoard). exact exampleBoard_wf.
Defined.

Lemma CheckWin_direction_witness :
  wf_board wonBoard ∧ 0 ≤ 5 < ROWS ∧ 0 ≤ 3 < COLS ∧ (7 ≤ 7)%nat ∧
  cellAt wonBoard 5 3 = Ok (Some "p1") ∧
  ∃ w : WinResult,
    CheckWin 7 wonBoard 5 3 = Ok w ∧
    (WinResult_Direction w = "horizontal" ↔ fourOnAxis wonBoard 5 3 0 1 "p1") ∧
    (WinResult_Direction w = "vertical" ↔
       ¬ fourOnAxis wonBoard 5 3 0 1 "p1" ∧ fourOnAxis wonBoard 5 3 1 0 "p1") ∧
    (WinResult_Direction w = "diagonal" ↔
       ¬ fourOnAxis wonBoard 5 3 0 1 "p1" ∧ ¬ fourOnAxis wonBoard 5 3 1 0 "p1" ∧
       (fourOnAxis wonBoard 5 3 1 1 "p1" ∨ fourOnAxis wonBoard 5 3 1 (-1) "p1")) ∧
    (WinResult_Direction w = "" ↔ WinResult_Won w = false).
Proof.
  split; [exact wonBoard_wf|].
  split; [unfold ROWS; lia|]. split; [unfold COLS; lia|]. split; [lia|].
  split; [reflexivity|].
  apply (CheckWin_direction 7 wonBoard 5 3 "p1").
  - exact wonBoard_wf.
  - unfold ROWS; lia.
  - unfold COLS; lia.
  - lia.
  - reflexivity.
Defined.

Lemma EvaluatePosition_bounds_witness :
  wf_board exampleBoard ∧
  ∃ s, EvaluatePosition exampleBoard (Some "bot") (Some "p1") = Ok s ∧
       -690000 ≤ s ≤ 690000.
Proof.
  split; [exact exampleBoard_wf|].
  apply (EvaluatePosition_bounds exampleBoard (Some "bot") (Some "p1")).
  exact exampleBoard_wf.
Defined.

Lemma Manager_MakeMove_success_witness :
  (∀ g, games exampleManager !! "g1" = Some g → wf_board (Game_Board g)) ∧
  Manager_MakeMove 7 (clockAt 7) exampleManager "g1" 3 (Some 1%nat)
    = Ok (exampleAccepted.1, exampleAccepted.2) ∧
  GameMoveResult_Success exampleAccepted.2 = true ∧
  ∃ (game game' : Game) (row : Z) (w : WinResult) (full : bool),
    games exampleManager !! "g1" = Some game ∧
    games exampleAccepted.1 = <["g1" := game']> (games exampleManager) ∧
    reconnectWindows exampleAccepted.1 = reconnectWindows exampleManager ∧
    GameMoveResult_Game exampleAccepted.2 = Some game' ∧
    cellAt (Game_Board game) row 3 = Ok None ∧
    (∀ below, row < below < ROWS → occupied (Game_Board game) below 3) ∧
    (∀ r0 c0, cellAt (Game_Board game') r0 c0 =
       if decide (r0 = row ∧ c0 = 3) then Ok (Some (Game_CurrentPlayer game))
       else cellAt (Game_Board game) r0 c0) ∧
    Game_Moves game' =
      Game_Moves game ++ [mkMove (Game_CurrentPlayer game) 3 row (clockAt 7 0%nat)] ∧
    Game_Player1 game' = Game_Player1 game ∧ Game_Player2 game' = Game_Player2 game ∧
    CheckWin 7 (Game_Board game') row 3 = Ok w ∧
    IsBoardFull (Game_Board game') = Ok full ∧
    (WinResult_Won w = true →
       Game_Status game' = "finished" ∧ Game_Winner game' = Game_CurrentPlayer game ∧
       Game_EndedAt game' = Some (clockAt 7 2%nat)) ∧
    (WinResult_Won w = false → full = true →
       Game_Status game' = "finished" ∧ Game_Winner game' = "draw" ∧
       Game_EndedAt game' = Some (clockAt 7 2%nat)) ∧
    (WinResult_Won w = false → full = false →
       Game_Status game' = "active" ∧ Game_Winner game' = Game_Winner game ∧
       Game_EndedAt game' = Game_EndedAt game ∧
       Game_CurrentPlayer game' = nextTurn game).
Proof.
  split; [exact exampleManager_wf|]. split; [vm_compute; reflexivity|].
  split; [vm_compute; reflexivity|].
  apply (Manager_MakeMove_success 7 (clockAt 7) exampleManager exampleAccepted.1
           "g1" 3 (Some 1%nat) exampleAccepted.2).
  - exact exampleManager_wf.
  - vm_compute; reflexivity.
  - vm_compute; reflexivity.
Defined.

Lemma BotMakeMove_outcome_witness :
  (∀ g, games botTurnManager !! "g2" = Some g → wf_board (Game_Board g)) ∧
  (7 ≤ 7)%nat ∧
  ∃ m' r, BotMakeMove 7 (clockAt 2) botTurnManager "g2" 3 = Ok (m', r) ∧
    GameMoveResult_Message r = "" ∧
    (GameMoveResult_Success r = true ↔
       ∃ game row, games botTurnManager !! "g2" = Some game ∧
         Game_Status game = "active" ∧
         Game_CurrentPlayer game = "bot" ∧ 0 ≤ 3 < COLS ∧
         0 ≤ row < ROWS ∧ cellAt (Game_Board game) row 3 = Ok None) ∧
    (GameMoveResult_Success r = false →
       m' = botTurnManager ∧ GameMoveResult_Game r = None) ∧
    (GameMoveResult_Success r = true →
       ∃ game game' row,
         games botTurnManager !! "g2" = Some game ∧
         games m' = <["g2" := game']> (games botTurnManager) ∧
         GameMoveResult_Game r = Some game' ∧
         cellAt (Game_Board game') row 3 = Ok (Some "bot") ∧
         Game_Moves game' = Game_Moves game ++ [mkMove "bot" 3 row (clockAt 2 0%nat)] ∧
         (Game_Status game' = "finished" ∧
          (Game_Winner game' = "bot" ∨ Game_Winner game' = "draw") ∧
          Game_EndedAt game' = Some (clockAt 2 2%nat) ∨
          Game_Status game' = "active" ∧
          Game_CurrentPlayer game' = Player_ID (Game_Player1 game))).
Proof.
  split; [exact botTurnManager_wf|]. split; [lia|].
  apply (BotMakeMove_outcome 7 (clockAt 2) botTurnManager "g2" 3).
  - exact botTurnManager_wf.
  - lia.
Defined.

Lemma afterOpening_reachable : reachable 7 afterOpening.
Proof.
  apply (reachable_op 7 (clockAt 1) openingManager afterOpening
           (MOpMakeMove "g1" 3 (Some 1%nat))).
  - apply reachable_create, reachable_new.
  - vm_compute; reflexivity.
Qed.

Lemma afterOpening_game : games afterOpening !! "g1" = Some afterOpeningGame.
Proof. vm_compute; reflexivity. Qed.

Lemma reachable_turn_witness :
  (7 ≤ 7)%nat ∧ reachable 7 afterOpening ∧
  games afterOpening !! "g1" = Some afterOpeningGame ∧
  (Game_CurrentPlayer afterOpeningGame = Player_ID (Game_Player1 afterOpeningGame) ∨
   Game_CurrentPlayer afterOpeningGame = Player_ID (Game_Player2 afterOpeningGame) ∨
   (Player_IsBot (Game_Player2 afterOpeningGame) = true ∧
    Game_CurrentPlayer afterOpeningGame = "bot")).
Proof.
  split; [lia|]. split; [exact afterOpening_reachable|].
  split; [exact afterOpening_game|].
  apply (reachable_turn 7 afterOpening "g1" afterOpeningGame).
  - lia.
  - exact afterOpening_reachable.
  - exact afterOpening_game.
Defined.

Lemma reachable_lifecycle_witness :
  (7 ≤ 7)%nat ∧ reachable 7 afterOpening ∧
  games afterOpening !! "g1" = Some afterOpeningGame ∧
  ((Game_Status afterOpeningGame = "active" ∧ Game_EndedAt afterOpeningGame = None ∧
    Game_Winner afterOpeningGame = "") ∨
   (Game_Status afterOpeningGame = "finished" ∧ Game_EndedAt afterOpeningGame ≠ None ∧
    (Game_Winner afterOpeningGame = Player_ID (Game_Player1 afterOpeningGame) ∨
     Game_Winner afterOpeningGame = Player_ID (Game_Player2 afterOpeningGame) ∨
     Game_Winner afterOpeningGame = "bot" ∨ Game_Winner afterOpeningGame = "draw"))).
Proof.
  split; [lia|]. split; [exact afterOpening_reachable|].
  split; [exact afterOpening_game|].
  apply (reachable_lifecycle 7 afterOpening "g1" afterOpeningGame).
  - lia.
  - exact afterOpening_reachable.
  - exact afterOpening_game.
Defined.

Lemma reachable_log_replays_witness :
  (7 ≤ 7)%nat ∧ reachable 7 afterOpening ∧
  games afterOpening !! "g1" = Some afterOpeningGame ∧
  drops CreateBoard
    ((λ mv, (Move_Column mv, Some (Move_Player mv))) <$> Game_Moves afterOpeningGame)
    = Ok (Game_Board afterOpeningGame) ∧
  ∀ mv, mv ∈ Game_Moves afterOpeningGame →
    cellAt (Game_Board afterOpeningGame) (Move_Row mv) (Move_Column mv)
      = Ok (Some (Move_Player mv)).
Proof.
  split; [lia|]. split; [exact afterOpening_reachable|].
  split; [exact afterOpening_game|].
  apply (reachable_log_replays 7 afterOpening "g1" afterOpeningGame).
  - lia.
  - exact afterOpening_reachable.
  - exact afterOpening_game.
Defined.

Lemma reachable_board_gravity_witness :
  (7 ≤ 7)%nat ∧ reachable 7 afterOpening ∧
  games afterOpening !! "g1" = Some afterOpeningGame ∧
  wf_board (Game_Board afterOpeningGame) ∧ gravity (Game_Board afterOpeningGame).
Proof.
  split; [lia|]. split; [exact afterOpening_reachable|].
  split; [exact afterOpening_game|].
  apply (reachable_board_gravity 7 afterOpening "g1" afterOpeningGame).
  - lia.
  - exact afterOpening_reachable.
  - exact afterOpening_game.
Defined.

Lemma ForfeitGame_outcome_witness :
  ∃ g', ForfeitGame (clockAt 9) exampleManager "g1" "p2"
          = (mkManager (delete "g1" (games exampleManager))
                       (delete "g1" (reconnectWindows exampleManager)), Some g') ∧
    Game_Status g' = "finished" ∧ Game_EndedAt g' = Some 9 ∧ Game_Winner g' = "p1" ∧
    ForfeitGame (clockAt 10) (ForfeitGame (clockAt 9) exampleManager "g1" "p2").1
      "g1" "p1"
      = ((ForfeitGame (clockAt 9) exampleManager "g1" "p2").1, None).
Proof.
  destruct (ForfeitGame_outcome (clockAt 9) (clockAt 10) exampleManager "g1" "p2" "p1")
    as [Hactive _].
  destruct (Hactive exampleGame) as (g' & Hrun & Hstatus & Hended & Hwinner & _ & _ &
                                     _ & _ & Hagain).
  - vm_compute; reflexivity.
  - reflexivity.
  - exists g'. split; [exact Hrun|]. split; [exact Hstatus|].
    split; [exact Hended|]. split; [exact Hwinner|]. exact Hagain.
Defined.

Lemma HandleDisconnect_opens_windows_witness :
  reconnectWindows (HandleDisconnect (λ _, 6) exampleManager (Some 2%nat)).1 !! "g1"
    = Some (mkReconnectWindow "p2" (6 + 30 * Second)) ∧
  ("g1", "p2") ∈ (HandleDisconnect (λ _, 6) exampleManager (Some 2%nat)).2.
Proof.
  destruct (HandleDisconnect_opens_windows (λ _, 6) exampleManager (Some 2%nat))
    as [_ Hids].
  destruct (Hids "g1") as [Hopen _].
  destruct (Hopen exampleGame) as [_ Hsecond].
  - vm_compute; reflexivity.
  - reflexivity.
  - apply Hsecond.
    + discriminate.
    + reflexivity.
    + reflexivity.
Defined.

Lemma disconnect_then_timer_forfeits_witness :
  games exampleManager !! "g1" = Some exampleGame ∧
  disconnectedPlayer (Some 2%nat) exampleGame = Some bob ∧
  Forall (λ o : (nat → Z) * ManagerOp, isMoveOp o.2 = true)
    [(clockAt 7, MOpMakeMove "g1" 5 (Some 1%nat))] ∧
  applyManagerOps 7 (HandleDisconnect (λ _, 6) exampleManager (Some 2%nat)).1
    [(clockAt 7, MOpMakeMove "g1" 5 (Some 1%nat))] = Ok afterLoss ∧
  ("g1", "p2") ∈ (HandleDisconnect (λ _, 6) exampleManager (Some 2%nat)).2 ∧
  ∃ g2 g', games afterLoss !! "g1" = Some g2 ∧
    length (Game_Moves g2) = 7%nat ∧ Game_Status g2 = "active" ∧
    forfeitTimer (clockAt 40) afterLoss "g1" "p2"
      = (mkManager (delete "g1" (games afterLoss))
                   (delete "g1" (reconnectWindows afterLoss)), Some g') ∧
    Game_Status g' = "finished" ∧ Game_EndedAt g' = Some 40 ∧
    Game_Winner g' = "p1".
Proof.
  assert (games exampleManager !! "g1" = Some exampleGame) as Hg
    by (vm_compute; reflexivity).
  assert (disconnectedPlayer (Some 2%nat) exampleGame = Some bob) as Hp
    by (vm_compute; reflexivity).
  assert (Forall (λ o : (nat → Z) * ManagerOp, isMoveOp o.2 = true)
            [(clockAt 7, MOpMakeMove "g1" 5 (Some 1%nat))]) as Hmoves.
  { apply Forall_cons. split; [reflexivity|apply Forall_nil; exact I]. }
  assert (applyManagerOps 7 (HandleDisconnect (λ _, 6) exampleManager (Some 2%nat)).1
            [(clockAt 7, MOpMakeMove "g1" 5 (Some 1%nat))] = Ok afterLoss) as Hrun
    by (vm_compute; reflexivity).
  split; [exact Hg|]. split; [exact Hp|]. split; [exact Hmoves|].
  split; [exact Hrun|].
  destruct (disconnect_then_timer_forfeits 7 (λ _, 6) (clockAt 40) exampleManager
              afterLoss (Some 2%nat) "g1" exampleGame bob
              [(clockAt 7, MOpMakeMove "g1" 5 (Some 1%nat))] Hg Hp Hmoves Hrun)
    as (Harmed & g2 & Hg2 & _ & _ & _ & Hactive & _).
  split; [exact Harmed|].
  assert (g2 = default exampleGame (games afterLoss !! "g1")) as Hg2'
    by (rewrite Hg2; reflexivity).
  assert (Game_Status g2 = "active") as Hstatus
    by (rewrite Hg2'; vm_compute; reflexivity).
  destruct (Hactive Hstatus) as (g' & Hfire & Hfinished & Hended & _ & _ & _ & Hsecond).
  destruct Hsecond as [_ Hwinner]; [discriminate|discriminate|].
  exists g2, g'. split; [exact Hg2|].
  split; [rewrite Hg2'; vm_compute; reflexivity|]. split; [exact Hstatus|].
  split; [exact Hfire|]. split; [exact Hfinished|]. split; [exact Hended|].
  exact Hwinner.
Defined.

Lemma rejoin_transfers_the_move_witness :
  games disconnectedManager !! "g1" = Some exampleGame ∧
  reconnectWindows disconnectedManager !! "g1"
    = Some (mkReconnectWindow "p2" (6 + 30 * Second)) ∧
  clockAt 7 0%nat ≤ ReconnectWindow_ExpiresAt (mkReconnectWindow "p2" (6 + 30 * Second)) ∧
  Game_Status exampleGame = "active" ∧ wf_board (Game_Board exampleGame) ∧
  (7 ≤ 7)%nat ∧ Player_IsBot (mover exampleGame) = false ∧
  Player_Username (mover exampleGame) = "alice" ∧
  (mover exampleGame = Game_Player2 exampleGame →
     Player_Username (Game_Player1 exampleGame) ≠ "alice") ∧
  let m1 := (RejoinGame (clockAt 7) disconnectedManager (Some 5%nat) "alice" "g1").1 in
  (∀ other, other ≠ Some 5%nat →
     Manager_MakeMove 7 (clockAt 8) m1 "g1" 3 other
       = Ok (m1, mkGameMoveResult false "Not your turn" None)) ∧
  (legal (Game_Board exampleGame) 3 →
     ∃ m2 r, Manager_MakeMove 7 (clockAt 8) m1 "g1" 3 (Some 5%nat) = Ok (m2, r) ∧
             GameMoveResult_Success r = true).
Proof.
  assert (clockAt 7 0%nat
            ≤ ReconnectWindow_ExpiresAt (mkReconnectWindow "p2" (6 + 30 * Second)))
    as Hintime.
  { unfold clockAt, Second. cbn. lia. }
  assert (mover exampleGame = Game_Player2 exampleGame →
            Player_Username (Game_Player1 exampleGame) ≠ "alice") as Hsecond.
  { intros H. vm_compute in H. discriminate H. }
  split; [vm_compute; reflexivity|]. split; [vm_compute; reflexivity|].
  split; [exact Hintime|]. split; [reflexivity|]. split; [exact exampleBoard_wf|].
  split; [lia|]. split; [vm_compute; reflexivity|]. split; [vm_compute; reflexivity|].
  split; [exact Hsecond|].
  apply (rejoin_transfers_the_move 7 (clockAt 7) (clockAt 8) disconnectedManager
           (Some 5%nat) "alice" "g1" exampleGame
           (mkReconnectWindow "p2" (6 + 30 * Second)) 3).
  - vm_compute; reflexivity.
  - vm_compute; reflexivity.
  - exact Hintime.
  - reflexivity.
  - exact exampleBoard_wf.
  - lia.
  - vm_compute; reflexivity.
  - vm_compute; reflexivity.
  - exact Hsecond.
Defined.

Lemma stale_timer_forfeits_witness :
  games exampleManager !! "g1" = Some exampleGame ∧
  Game_Status exampleGame = "active" ∧
  Player_Conn (Game_Player1 exampleGame) = Some 1%nat ∧
  clockAt 7 0%nat ≤ (λ _ : string, 6) "g1" + 30 * Second ∧
  let m1 := (HandleDisconnect (λ _, 6) exampleManager (Some 1%nat)).1 in
  let m2 := (RejoinGame (clockAt 7) m1 (Some 5%nat)
               (Player_Username (Game_Player1 exampleGame)) "g1").1 in
  let m3 := (HandleDisconnect (λ _, 8) m2 (Some 5%nat)).1 in
  ("g1", Player_ID (Game_Player1 exampleGame))
    ∈ (HandleDisconnect (λ _, 6) exampleManager (Some 1%nat)).2 ∧
  reconnectWindows m2 !! "g1" = None ∧
  reconnectWindows m3 !! "g1"
    = Some (mkReconnectWindow (Player_ID (Game_Player1 exampleGame))
                              ((λ _ : string, 8) "g1" + 30 * Second)) ∧
  ∃ g', forfeitTimer (clockAt 50) m3 "g1" (Player_ID (Game_Player1 exampleGame))
          = (mkManager (delete "g1" (games m3)) (delete "g1" (reconnectWindows m3)),
             Some g') ∧
        Game_Status g' = "finished" ∧
        Game_Winner g' = if Player_IsBot (Game_Player2 exampleGame) then "bot"
                         else Player_ID (Game_Player2 exampleGame).
Proof.
  assert (clockAt 7 0%nat ≤ (λ _ : string, 6) "g1" + 30 * Second) as Hintime.
  { unfold clockAt, Second. cbn. lia. }
  split; [vm_compute; reflexivity|]. split; [reflexivity|]. split; [reflexivity|].
  split; [exact Hintime|].
  apply (stale_timer_forfeits (λ _, 6) (λ _, 8) (clockAt 7) (clockAt 50)
           exampleManager (Some 1%nat) (Some 5%nat) "g1" exampleGame).
  - vm_compute; reflexivity.
  - reflexivity.
  - reflexivity.
  - exact Hintime.
Defined.

Lemma Player_MakeMove_plays_once_witness :
  games botTurnManager !! Game_ID botTurnGame = Some botTurnGame ∧
  wf_board (Game_Board botTurnGame) ∧ (7 ≤ 7)%nat ∧
  ∃ m' out, bot.Player_MakeMove 7 (clockAt 2) botTurnManager botTurnGame = Ok (m', out) ∧
    (Game_Status botTurnGame ≠ "active" ∨ Game_CurrentPlayer botTurnGame ≠ "bot" ∨
     (∀ c, ¬ legal (Game_Board botTurnGame) c) → m' = botTurnManager ∧ out = None) ∧
    (Game_Status botTurnGame = "active" → Game_CurrentPlayer botTurnGame = "bot" →
     (∃ c, legal (Game_Board botTurnGame) c) →
       ∃ g' col row,
         out = Some g' ∧ legal (Game_Board botTurnGame) col ∧
         games m' = <[Game_ID botTurnGame := g']> (games botTurnManager) ∧
         Game_Moves g' = Game_Moves botTurnGame ++ [mkMove "bot" col row (clockAt 2 0%nat)] ∧
         cellAt (Game_Board g') row col = Ok (Some "bot") ∧
         (Game_Status g' = "finished" ∧
          (Game_Winner g' = "bot" ∨ Game_Winner g' = "draw") ∨
          Game_Status g' = "active" ∧
          Game_CurrentPlayer g' = Player_ID (Game_Player1 botTurnGame))).
Proof.
  split; [vm_compute; reflexivity|]. split; [exact botTurnBoard_wf|]. split; [lia|].
  apply (Player_MakeMove_plays_once 7 (clockAt 2) botTurnManager botTurnGame).
  - vm_compute; reflexivity.
  - exact botTurnBoard_wf.
  - lia.
Defined.

Lemma two_joins_make_a_game_witness :
  "alice" ≠ "" ∧ "bob" ≠ "" ∧
  matchmaking.waitingPlayers (server.matchmakingService emptyServer) = [] ∧
  let p1 :=
    matchmaking.mkPlayer (pretty (clockAt 1 0%nat)) "alice" (Some 1%nat) true false in
  let game :=
    mkGame "g1"
      (mkPlayer (pretty (clockAt 1 0%nat)) "alice" (Some 1%nat) false)
      (mkPlayer (pretty (clockAt 2 0%nat)) "bob" (Some 2%nat) false)
      CreateBoard (pretty (clockAt 1 0%nat)) "active" "" []
      (clockAt 2 1%nat) None (clockAt 2 2%nat) in
  let state :=
    server.MsgGameState
      (server.mkGameView "g1" (replicate 6 (replicate 7 None)) "alice"
         (server.mkPlayerView "alice" false) (server.mkPlayerView "bob" false)
         "active" "") in
  ∃ s1 s2,
    server.handleJoin (clockAt 1) "u1" emptyServer (Some 1%nat) "alice"
      = Ok (s1, [(1%nat, server.MsgWaiting "Waiting for opponent...")],
            [server.ArmBotMatch p1]) ∧
    server.gameManager s1 = server.gameManager emptyServer ∧
    server.handleJoin (clockAt 2) "g1" s1 (Some 2%nat) "bob"
      = Ok (s2, [(1%nat, state); (2%nat, state)], []) ∧
    games (server.gameManager s2)
      = <["g1" := game]> (games (server.gameManager emptyServer)) ∧
    matchmaking.waitingPlayers (server.matchmakingService s2) = [] ∧
    server.botMatchTimer (clockAt 3) "u3" s2 p1 = (s2, [], []).
Proof.
  split; [discriminate|]. split; [discriminate|]. split; [reflexivity|].
  apply (two_joins_make_a_game (clockAt 1) (clockAt 2) (clockAt 3) "u1" "g1" "u3"
           emptyServer 1%nat 2%nat "alice" "bob").
  - discriminate.
  - discriminate.
  - reflexivity.
Defined.

Lemma lone_join_gets_a_bot_game_witness :
  "alice" ≠ "" ∧
  matchmaking.waitingPlayers (server.matchmakingService emptyServer) = [] ∧
  let p :=
    matchmaking.mkPlayer (pretty (clockAt 1 0%nat)) "alice" (Some 1%nat) true false in
  let game :=
    mkGame "g2"
      (mkPlayer (pretty (clockAt 1 0%nat)) "alice" (Some 1%nat) false)
      (mkPlayer "bot" "Bot" None true)
      CreateBoard (pretty (clockAt 1 0%nat)) "active" "" []
      (clockAt 11 0%nat) None (clockAt 11 1%nat) in
  ∃ s1 s2 out1,
    server.handleJoin (clockAt 1) "u1" emptyServer (Some 1%nat) "alice"
      = Ok (s1, out1, [server.ArmBotMatch p]) ∧
    server.botMatchTimer (clockAt 11) "g2" s1 p = (s2, server.notifyPlayers game, []) ∧
    games (server.gameManager s2)
      = <["g2" := game]> (games (server.gameManager emptyServer)) ∧
    Game_CurrentPlayer game ≠ "bot" ∧
    matchmaking.waitingPlayers (server.matchmakingService s2) = [] ∧
    matchmaking.botTimers (server.matchmakingService s2) !! pretty (clockAt 1 0%nat)
      = None ∧
    server.botMatchTimer (clockAt 12) "u3" s2 p = (s2, [], []).
Proof.
  split; [discriminate|]. split; [reflexivity|].
  apply (lone_join_gets_a_bot_game (clockAt 1) (clockAt 11) (clockAt 12) "u1" "g2" "u3"
           emptyServer (Some 1%nat) "alice").
  - discriminate.
  - reflexivity.
Defined.

Lemma withdrawn_join_gets_no_game_witness :
  "alice" ≠ "" ∧
  matchmaking.waitingPlayers (server.matchmakingService emptyServer) = [] ∧
  let p :=
    matchmaking.mkPlayer (pretty (clockAt 1 0%nat)) "alice" (Some 1%nat) true false in
  ∃ s1 out1 armed1,
    server.handleJoin (clockAt 1) "u1" emptyServer (Some 1%nat) "alice"
      = Ok (s1, out1, armed1) ∧
    let s2 := (server.connectionLost (λ _, 5) s1 (Some 1%nat)).1.1 in
    matchmaking.waitingPlayers (server.matchmakingService s2) = [] ∧
    matchmaking.botTimers (server.matchmakingService s2) !! pretty (clockAt 1 0%nat)
      = None ∧
    games (server.gameManager s2) = games (server.gameManager emptyServer) ∧
    server.botMatchTimer (clockAt 11) "u3" s2 p = (s2, [], []).
Proof.
  split; [discriminate|]. split; [reflexivity|].
  apply (withdrawn_join_gets_no_game (clockAt 1) (clockAt 11) (λ _, 5) "u1" "u3"
           emptyServer (Some 1%nat) "alice").
  - discriminate.
  - reflexivity.
Defined.

Lemma human_move_then_bot_reply_witness :
  games (server.gameManager botServer) !! "g2" = Some botGame ∧
  Game_ID botGame = "g2" ∧ Game_Status botGame = "active" ∧
  wf_board (Game_Board botGame) ∧ (7 ≤ 7)%nat ∧
  Player_IsBot (Game_Player2 botGame) = true ∧
  Player_Conn (Game_Player2 botGame) = None ∧
  Game_CurrentPlayer botGame = Player_ID (Game_Player1 botGame) ∧
  Player_ID (Game_Player1 botGame) ≠ "bot" ∧
  Player_IsBot (Game_Player1 botGame) = false ∧
  Player_Conn (Game_Player1 botGame) = Some 1%nat ∧
  legal (Game_Board botGame) 3 ∧
  ∃ s1 g1 v1 armed,
    server.handleMakeMove 7 (clockAt 1) botServer (Some 1%nat) "g2" 3
      = Ok (s1, [(1%nat, server.MsgGameState v1)], armed) ∧
    games (server.gameManager s1) !! "g2" = Some g1 ∧
    server.GameView_id v1 = "g2" ∧ server.GameView_status v1 = Game_Status g1 ∧
    (∃ row,
       cellAt (Game_Board botGame) row 3 = Ok None ∧
       cellAt (Game_Board g1) row 3 = Ok (Some (Player_ID (Game_Player1 botGame))) ∧
       cellAt (server.GameView_board v1) row 3
         = Ok (Some (Player_Username (Game_Player1 botGame)))) ∧
    (Game_Status g1 = "finished" ∧ armed = [] ∨
     Game_Status g1 = "active" ∧ Game_CurrentPlayer g1 = "bot" ∧
     armed = [server.ArmBotMove "g2"] ∧
     ∃ s2 g2 v2,
       server.botMoveTimer 7 (clockAt 2) s1 "g2"
         = Ok (s2, [(1%nat, server.MsgGameState v2)], []) ∧
       games (server.gameManager s2) !! "g2" = Some g2 ∧
       server.GameView_id v2 = "g2" ∧ server.GameView_status v2 = Game_Status g2 ∧
       (∃ row col,
          cellAt (Game_Board g2) row col = Ok (Some "bot") ∧
          cellAt (server.GameView_board v2) row col
            = Ok (Some (Player_Username (Game_Player2 botGame)))) ∧
       length (Game_Moves g2) = (length (Game_Moves botGame) + 2)%nat ∧
       (Game_Status g2 = "finished" ∨
        Game_Status g2 = "active" ∧
        Game_CurrentPlayer g2 = Player_ID (Game_Player1 botGame))).
Proof.
  assert (legal (Game_Board botGame) 3) as Hlegal.
  { split; [unfold COLS; lia|reflexivity]. }
  split; [vm_compute; reflexivity|]. split; [reflexivity|]. split; [reflexivity|].
  split; [exact CreateBoard_wf|]. split; [lia|]. split; [reflexivity|].
  split; [reflexivity|]. split; [reflexivity|]. split; [discriminate|].
  split; [reflexivity|]. split; [reflexivity|]. split; [exact Hlegal|].
  apply (human_move_then_bot_reply 7 (clockAt 1) (clockAt 2) botServer 1%nat
           "g2" 3 botGame).
  - vm_compute; reflexivity.
  - reflexivity.
  - reflexivity.
  - exact CreateBoard_wf.
  - lia.
  - reflexivity.
  - reflexivity.
  - reflexivity.
  - discriminate.
  - reflexivity.
  - reflexivity.
  - exact Hlegal.
Defined.

(** The two messages of that exchange, computed. *)
Example human_move_then_bot_reply_messages :
  ∃ s1 s2 v1 v2,
    server.handleMakeMove 7 (clockAt 1) botServer (Some 1%nat) "g2" 3
      = Ok (s1, [(1%nat, server.MsgGameState v1)], [server.ArmBotMove "g2"]) ∧
    server.GameView_currentPlayer v1 = "Bot" ∧
    server.GameView_board v1 !! 5%nat
      = Some [None; None; None; Some "alice"; None; None; None] ∧
    server.botMoveTimer 7 (clockAt 2) s1 "g2"
      = Ok (s2, [(1%nat, server.MsgGameState v2)], []) ∧
    server.GameView_currentPlayer v2 = "alice" ∧
    server.GameView_status v2 = "active" ∧
    server.GameView_board v2 !! 4%nat
      = Some [None; None; None; Some "Bot"; None; None; None].
Proof.
  eexists _, _, _, _. split; [vm_compute; reflexivity|].
  split; [reflexivity|]. split; [reflexivity|].
  split; [vm_compute; reflexivity|]. split; [reflexivity|]. split; [reflexivity|].
  vm_compute. reflexivity.
Qed.

Lemma exampleLeaderboard_balanced (u : string) (e : LeaderboardEntry) :
  exampleLeaderboard !! u = Some e → balanced e.
Proof.
  unfold exampleLeaderboard. intros H.
  apply lookup_singleton_Some in H as [_ <-]. unfold balanced. cbn. lia.
Qed.

Lemma UpdateLeaderboard_keeps_balance_witness :
  (∀ u e, exampleLeaderboard !! u = Some e → balanced e) ∧
  ∀ u e, UpdateLeaderboard true true exampleLeaderboard decidedGame !! u = Some e →
         balanced e.
Proof.
  split; [exact exampleLeaderboard_balanced|].
  apply (UpdateLeaderboard_keeps_balance true true exampleLeaderboard decidedGame).
  exact exampleLeaderboard_balanced.
Defined.

Lemma UpdateLeaderboard_decided_witness :
  Game_Status decidedGame = "finished" ∧
  Player_IsBot (Game_Player2 decidedGame) = false ∧
  Player_ID (Game_Player1 decidedGame) ≠ Player_ID (Game_Player2 decidedGame) ∧
  Game_Winner decidedGame = Player_ID alice ∧ Player_ID alice ≠ "draw" ∧
  Player_ID alice ≠ "bot" ∧
  (alice = Game_Player1 decidedGame ∧ bob = Game_Player2 decidedGame ∨
   alice = Game_Player2 decidedGame ∧ bob = Game_Player1 decidedGame) ∧
  ∀ u : string,
    let old := rowOf exampleLeaderboard u in
    let won := if decide (u = Player_Username alice) then 1 else 0 in
    let lost := if decide (u = Player_Username bob) then 1 else 0 in
    rowOf (UpdateLeaderboard true true exampleLeaderboard decidedGame) u =
      mkLeaderboardEntry (LeaderboardEntry_Wins old + won)
                         (LeaderboardEntry_Losses old + lost)
                         (LeaderboardEntry_Draws old)
                         (LeaderboardEntry_TotalGames old + won + lost).
Proof.
  split; [reflexivity|]. split; [reflexivity|]. split; [discriminate|].
  split; [reflexivity|]. split; [discriminate|]. split; [discriminate|].
  split; [left; split; reflexivity|].
  apply (UpdateLeaderboard_decided exampleLeaderboard decidedGame alice bob).
  - reflexivity.
  - reflexivity.
  - discriminate.
  - reflexivity.
  - discriminate.
  - discriminate.
  - left; split; reflexivity.
Defined.

Lemma UpdateLeaderboard_against_bot_witness :
  Game_Status lostToBot = "finished" ∧ Player_IsBot (Game_Player2 lostToBot) = true ∧
  (∀ u, u ≠ Player_Username (Game_Player1 lostToBot) →
     UpdateLeaderboard true false exampleLeaderboard lostToBot !! u
       = exampleLeaderboard !! u) ∧
  let old := rowOf exampleLeaderboard (Player_Username (Game_Player1 lostToBot)) in
  let win := bool_decide (Game_Winner lostToBot = Player_ID (Game_Player1 lostToBot)) in
  let draw := bool_decide (Game_Winner lostToBot = "draw") in
  rowOf (UpdateLeaderboard true false exampleLeaderboard lostToBot)
        (Player_Username (Game_Player1 lostToBot)) =
    mkLeaderboardEntry
      (LeaderboardEntry_Wins old + (if win then 1 else 0))
      (LeaderboardEntry_Losses old + (if win || draw then 0 else 1))
      (LeaderboardEntry_Draws old + (if negb win && draw then 1 else 0))
      (LeaderboardEntry_TotalGames old + 1).
Proof.
  split; [reflexivity|]. split; [reflexivity|].
  apply (UpdateLeaderboard_against_bot false exampleLeaderboard lostToBot).
  - reflexivity.
  - reflexivity.
Defined.
